(** * OpenXRHMD: session life cycle and stereoscopic frame loop

    A shallow embedding of [src/core/openxr/OpenXRHMD.cpp] (with the helpers
    it uses from [OpenXRHelper.hpp]) and the properties of its session state
    machine, frame submission, pose queries and refresh report.

    The XR runtime, the clocks and the registered callbacks are external to
    the class.  Every call that leaves the class is recorded in a trace, and
    what the callee hands back (its result code and whatever it wrote through
    its output pointers) is read from a [Runtime], a stream of replies indexed
    by the number of external calls made so far. *)

From Stdlib Require Import ZArith List Bool Lia String SpecFloat.
Import ListNotations.
Local Open Scope Z_scope.

(* ================================================================== *)
(** ** Machine integers *)

(** [uint32_t] / [unsigned int] arithmetic wraps modulo 2^32. *)
Definition wrap32 (z : Z) : Z := z mod 2 ^ 32.

(** [int64_t] (XrTime, XrDuration): two's complement on 64 bits. *)
Definition wrap64 (z : Z) : Z := (z + 2 ^ 63) mod 2 ^ 64 - 2 ^ 63.

Definition int64_sub (a b : Z) : Z := wrap64 (a - b).

(* ================================================================== *)
(** ** IEEE-754 numbers

    [float] is binary32 and [double] is binary64; both are values of
    [spec_float], with the operations of [SpecFloat] at the matching
    precision (round to nearest, ties to even). *)

Module F32.
Definition prec : Z := 24.
Definition emax : Z := 128.
Definition add := SFadd prec emax.
Definition sub := SFsub prec emax.
Definition mul := SFmul prec emax.
Definition div := SFdiv prec emax.
Definition sqrt := SFsqrt prec emax.
Definition abs := SFabs.
(** conversion of an integer ([int], [unsigned], [int64_t]) to [float] *)
Definition of_Z (z : Z) : spec_float := binary_normalize prec emax z 0 false.
(** rounding of a [double] to [float] *)
Definition of_f64 (x : spec_float) : spec_float :=
  match x with
  | S754_finite s m e => binary_normalize prec emax (cond_Zopp s (Zpos m)) e s
  | _ => x
  end.
Definition zero : spec_float := S754_zero false.
Definition half : spec_float := S754_finite false 8388608 (-24).
End F32.

Module F64.
Definition prec : Z := 53.
Definition emax : Z := 1024.
Definition sub := SFsub prec emax.
Definition mul := SFmul prec emax.
Definition div := SFdiv prec emax.
Definition of_Z (z : Z) : spec_float := binary_normalize prec emax z 0 false.
(** widening of a [float] to [double]: exact *)
Definition of_f32 (x : spec_float) : spec_float :=
  match x with
  | S754_finite s m e => binary_normalize prec emax (cond_Zopp s (Zpos m)) e s
  | _ => x
  end.
(** [M_PI] of <math.h>: 0x400921FB54442D18 *)
Definition M_PI : spec_float := S754_finite false 7074237752028440 (-51).
End F64.

Arguments F32.add : simpl never.
Arguments F32.sub : simpl never.
Arguments F32.mul : simpl never.
Arguments F32.div : simpl never.
Arguments F32.sqrt : simpl never.
Arguments F32.of_Z : simpl never.
Arguments F32.of_f64 : simpl never.
Arguments F64.sub : simpl never.
Arguments F64.mul : simpl never.
Arguments F64.div : simpl never.
Arguments F64.of_Z : simpl never.
Arguments F64.of_f32 : simpl never.

(** The functions of the C math library are not part of the repository. *)
Record Libm := {
  tanf : spec_float -> spec_float;                 (* float tan(float) *)
  atan2 : spec_float -> spec_float -> spec_float   (* double atan2(double, double) *)
}.

(* ================================================================== *)
(** ** Eigen and OpenXR value types *)

Record Vector2i := { x2i : Z; y2i : Z }.
Record Vector2f := { x2 : spec_float; y2 : spec_float }.
Record Vector3f := { x3 : spec_float; y3 : spec_float; z3 : spec_float }.
Record Vector4f := { x4 : spec_float; y4 : spec_float; z4 : spec_float; w4 : spec_float }.
(** [Eigen::Quaternionf]; the constructor takes w first. *)
Record Quaternionf := { qw : spec_float; qx : spec_float; qy : spec_float; qz : spec_float }.

Definition Vector2f_Zero : Vector2f := {| x2 := F32.zero; y2 := F32.zero |}.
Definition Vector3f_Zero : Vector3f := {| x3 := F32.zero; y3 := F32.zero; z3 := F32.zero |}.
Definition Vector4f_Zero : Vector4f :=
  {| x4 := F32.zero; y4 := F32.zero; z4 := F32.zero; w4 := F32.zero |}.
Definition Quaternionf_Zero : Quaternionf :=
  {| qw := F32.zero; qx := F32.zero; qy := F32.zero; qz := F32.zero |}.

Record XrQuaternionf := { q_x : spec_float; q_y : spec_float; q_z : spec_float; q_w : spec_float }.
Record XrVector3f := { p_x : spec_float; p_y : spec_float; p_z : spec_float }.
Record XrPosef := { orientation : XrQuaternionf; position : XrVector3f }.
Record XrFovf := { angleLeft : spec_float; angleRight : spec_float;
                   angleUp : spec_float; angleDown : spec_float }.
Record XrView := { pose : XrPosef; fov : XrFovf }.

Definition XrView_zero : XrView :=
  {| pose := {| orientation := {| q_x := F32.zero; q_y := F32.zero; q_z := F32.zero; q_w := F32.zero |};
                position := {| p_x := F32.zero; p_y := F32.zero; p_z := F32.zero |} |};
     fov := {| angleLeft := F32.zero; angleRight := F32.zero;
               angleUp := F32.zero; angleDown := F32.zero |} |}.

(** [XrFrameState]: times are [int64_t] nanoseconds, [shouldRender] is an
    [XrBool32] ([XR_TRUE] is 1). *)
Record XrFrameState := {
  predictedDisplayTime : Z;
  predictedDisplayPeriod : Z;
  shouldRender_flag : Z
}.
Definition XR_TRUE : Z := 1.

Record XrCompositionLayerProjectionView := {
  pv_pose : XrPosef;
  pv_fov : XrFovf;
  pv_swapchain : Z;
  pv_extent : Vector2i
}.

(** [XrResult]: negative codes are errors, [XR_SUCCEEDED(r)] is [r >= 0]
    (openxr.h). *)
Definition XrResult := Z.
Definition XR_SUCCESS : XrResult := 0.
Definition XR_EVENT_UNAVAILABLE : XrResult := 4.
Definition XR_ERROR_RUNTIME_FAILURE : XrResult := -2.
Definition XR_SUCCEEDED (r : XrResult) : bool := 0 <=? r.
Definition XR_NULL_HANDLE : Z := 0.

Inductive XrSessionState :=
| XR_SESSION_STATE_UNKNOWN
| XR_SESSION_STATE_IDLE
| XR_SESSION_STATE_READY
| XR_SESSION_STATE_SYNCHRONIZED
| XR_SESSION_STATE_VISIBLE
| XR_SESSION_STATE_FOCUSED
| XR_SESSION_STATE_STOPPING
| XR_SESSION_STATE_LOSS_PENDING
| XR_SESSION_STATE_EXITING
| XR_SESSION_STATE_MAX_ENUM.

(** What [xrPollEvent] leaves in the event buffer.  The handler of an
    instance-loss event falls through into the one of a session state change,
    which reads the [state] field of the same buffer: [stale_state] is what
    lies there. *)
Inductive XrEventDataBuffer :=
| XR_TYPE_EVENT_DATA_INSTANCE_LOSS_PENDING (stale_state : XrSessionState)
| XR_TYPE_EVENT_DATA_SESSION_STATE_CHANGED (state : XrSessionState)
| XR_TYPE_EVENT_DATA_INTERACTION_PROFILE_CHANGED
| XR_TYPE_EVENT_DATA_OTHER (type : Z).

(* ================================================================== *)
(** ** The class *)

Inductive Eye := LEFT | RIGHT.
Inductive AngleUnit := RADIAN | DEGREE.
Inductive SessionStatus := STOPPED | IDLE | BEGINNING | SYNCHRONIZED | ENDING | FAILURE.

Definition SessionStatus_eqb (a b : SessionStatus) : bool :=
  match a, b with
  | STOPPED, STOPPED | IDLE, IDLE | BEGINNING, BEGINNING
  | SYNCHRONIZED, SYNCHRONIZED | ENDING, ENDING | FAILURE, FAILURE => true
  | _, _ => false
  end.

(** [firstFrameTimestamp] is a reading of the high resolution clock, in
    nanoseconds. *)
Record FrameRefreshReport := {
  nbMissedFrames : Z;
  totalRenderedFrames : Z;
  expectedFramerate : spec_float;
  measuredFramerate : spec_float;
  firstFrameTimestamp : Z
}.

(** The data members the modelled methods read or write.  Arrays obtained from
    [malloc] are lists holding the entries written so far; a callback is
    present or empty. *)
Record OpenXRHMD := {
  m_lastFrameState : XrFrameState;
  m_currentState : XrSessionState;
  m_status : SessionStatus;
  m_resolution : Vector2i;
  m_playSpace : Z;
  m_instance : Z;
  m_session : Z;
  m_viewCount : Z;
  m_projectionViews : list XrCompositionLayerProjectionView;
  views : list XrView;
  m_swapchains : list Z;
  m_swapchainsLengths : list Z;
  m_swapchainsImages : list (list Z);
  m_lastFrameRefreshReport : FrameRefreshReport;
  m_currentFrameRefreshReport : FrameRefreshReport;
  m_idleCallback : bool;
  m_visibleCallback : bool;
  m_focusedCallback : bool
}.

Definition set_lastFrameState v h := Build_OpenXRHMD v (m_currentState h) (m_status h) (m_resolution h) (m_playSpace h) (m_instance h) (m_session h) (m_viewCount h) (m_projectionViews h) (views h) (m_swapchains h) (m_swapchainsLengths h) (m_swapchainsImages h) (m_lastFrameRefreshReport h) (m_currentFrameRefreshReport h) (m_idleCallback h) (m_visibleCallback h) (m_focusedCallback h).
Definition set_currentState v h := Build_OpenXRHMD (m_lastFrameState h) v (m_status h) (m_resolution h) (m_playSpace h) (m_instance h) (m_session h) (m_viewCount h) (m_projectionViews h) (views h) (m_swapchains h) (m_swapchainsLengths h) (m_swapchainsImages h) (m_lastFrameRefreshReport h) (m_currentFrameRefreshReport h) (m_idleCallback h) (m_visibleCallback h) (m_focusedCallback h).
Definition set_status v h := Build_OpenXRHMD (m_lastFrameState h) (m_currentState h) v (m_resolution h) (m_playSpace h) (m_instance h) (m_session h) (m_viewCount h) (m_projectionViews h) (views h) (m_swapchains h) (m_swapchainsLengths h) (m_swapchainsImages h) (m_lastFrameRefreshReport h) (m_currentFrameRefreshReport h) (m_idleCallback h) (m_visibleCallback h) (m_focusedCallback h).
Definition set_resolution v h := Build_OpenXRHMD (m_lastFrameState h) (m_currentState h) (m_status h) v (m_playSpace h) (m_instance h) (m_session h) (m_viewCount h) (m_projectionViews h) (views h) (m_swapchains h) (m_swapchainsLengths h) (m_swapchainsImages h) (m_lastFrameRefreshReport h) (m_currentFrameRefreshReport h) (m_idleCallback h) (m_visibleCallback h) (m_focusedCallback h).
Definition set_playSpace v h := Build_OpenXRHMD (m_lastFrameState h) (m_currentState h) (m_status h) (m_resolution h) v (m_instance h) (m_session h) (m_viewCount h) (m_projectionViews h) (views h) (m_swapchains h) (m_swapchainsLengths h) (m_swapchainsImages h) (m_lastFrameRefreshReport h) (m_currentFrameRefreshReport h) (m_idleCallback h) (m_visibleCallback h) (m_focusedCallback h).
Definition set_session v h := Build_OpenXRHMD (m_lastFrameState h) (m_currentState h) (m_status h) (m_resolution h) (m_playSpace h) (m_instance h) v (m_viewCount h) (m_projectionViews h) (views h) (m_swapchains h) (m_swapchainsLengths h) (m_swapchainsImages h) (m_lastFrameRefreshReport h) (m_currentFrameRefreshReport h) (m_idleCallback h) (m_visibleCallback h) (m_focusedCallback h).
Definition set_viewCount v h := Build_OpenXRHMD (m_lastFrameState h) (m_currentState h) (m_status h) (m_resolution h) (m_playSpace h) (m_instance h) (m_session h) v (m_projectionViews h) (views h) (m_swapchains h) (m_swapchainsLengths h) (m_swapchainsImages h) (m_lastFrameRefreshReport h) (m_currentFrameRefreshReport h) (m_idleCallback h) (m_visibleCallback h) (m_focusedCallback h).
Definition set_projectionViews v h := Build_OpenXRHMD (m_lastFrameState h) (m_currentState h) (m_status h) (m_resolution h) (m_playSpace h) (m_instance h) (m_session h) (m_viewCount h) v (views h) (m_swapchains h) (m_swapchainsLengths h) (m_swapchainsImages h) (m_lastFrameRefreshReport h) (m_currentFrameRefreshReport h) (m_idleCallback h) (m_visibleCallback h) (m_focusedCallback h).
Definition set_views v h := Build_OpenXRHMD (m_lastFrameState h) (m_currentState h) (m_status h) (m_resolution h) (m_playSpace h) (m_instance h) (m_session h) (m_viewCount h) (m_projectionViews h) v (m_swapchains h) (m_swapchainsLengths h) (m_swapchainsImages h) (m_lastFrameRefreshReport h) (m_currentFrameRefreshReport h) (m_idleCallback h) (m_visibleCallback h) (m_focusedCallback h).
Definition set_swapchains v h := Build_OpenXRHMD (m_lastFrameState h) (m_currentState h) (m_status h) (m_resolution h) (m_playSpace h) (m_instance h) (m_session h) (m_viewCount h) (m_projectionViews h) (views h) v (m_swapchainsLengths h) (m_swapchainsImages h) (m_lastFrameRefreshReport h) (m_currentFrameRefreshReport h) (m_idleCallback h) (m_visibleCallback h) (m_focusedCallback h).
Definition set_swapchainsLengths v h := Build_OpenXRHMD (m_lastFrameState h) (m_currentState h) (m_status h) (m_resolution h) (m_playSpace h) (m_instance h) (m_session h) (m_viewCount h) (m_projectionViews h) (views h) (m_swapchains h) v (m_swapchainsImages h) (m_lastFrameRefreshReport h) (m_currentFrameRefreshReport h) (m_idleCallback h) (m_visibleCallback h) (m_focusedCallback h).
Definition set_swapchainsImages v h := Build_OpenXRHMD (m_lastFrameState h) (m_currentState h) (m_status h) (m_resolution h) (m_playSpace h) (m_instance h) (m_session h) (m_viewCount h) (m_projectionViews h) (views h) (m_swapchains h) (m_swapchainsLengths h) v (m_lastFrameRefreshReport h) (m_currentFrameRefreshReport h) (m_idleCallback h) (m_visibleCallback h) (m_focusedCallback h).
Definition set_lastFrameRefreshReport v h := Build_OpenXRHMD (m_lastFrameState h) (m_currentState h) (m_status h) (m_resolution h) (m_playSpace h) (m_instance h) (m_session h) (m_viewCount h) (m_projectionViews h) (views h) (m_swapchains h) (m_swapchainsLengths h) (m_swapchainsImages h) v (m_currentFrameRefreshReport h) (m_idleCallback h) (m_visibleCallback h) (m_focusedCallback h).
Definition set_currentFrameRefreshReport v h := Build_OpenXRHMD (m_lastFrameState h) (m_currentState h) (m_status h) (m_resolution h) (m_playSpace h) (m_instance h) (m_session h) (m_viewCount h) (m_projectionViews h) (views h) (m_swapchains h) (m_swapchainsLengths h) (m_swapchainsImages h) (m_lastFrameRefreshReport h) v (m_idleCallback h) (m_visibleCallback h) (m_focusedCallback h).

(* ================================================================== *)
(** ** The outside world *)

(** Calls that leave the class, with the arguments the properties refer to. *)
Inductive XrCall :=
| glewInit
| xrCreateSession
| xrCreateReferenceSpace
| xrEnumerateSwapchainFormats (capacity : Z)
| xrCreateSwapchain (format width height : Z)
| xrEnumerateSwapchainImages (swapchain capacity : Z)
| xrPollEvent
| xrDestroyInstance
| xrBeginSession
| xrEndSession
| xrDestroySession
| xrRequestExitSession
| xrWaitFrame
| xrConvertTimespecTimeToTimeKHR
| xrLocateViews (displayTime capacity : Z)
| xrBeginFrame
| xrAcquireSwapchainImage (swapchain : Z)
| xrWaitSwapchainImage (swapchain : Z)
| xrReleaseSwapchainImage (swapchain : Z)
| xrEndFrame (displayTime layerCount : Z)
| high_resolution_clock_now.

(** The streams the class writes diagnostics to. *)
Inductive Channel := SIBR_LOG | SIBR_WRG | STDOUT | STDERR.

Inductive Effect :=
| Call (c : XrCall) (result : XrResult)
| Print (ch : Channel) (msg : string)
| IdleCallback
| VisibleCallback
| FocusedCallback
| RenderFunc (viewIndex : Z) (renderTexture : Z).

(** What a callee hands back: its result code and the contents of its output
    parameters when it returns (only the fields of the call at hand are read). *)
Record Reply := {
  r_result : XrResult;
  r_handle : Z;
  r_count : Z;
  r_list : list Z;
  r_event : XrEventDataBuffer;
  r_frame : XrFrameState;
  r_views : list XrView;
  r_time : Z
}.

Definition Runtime := nat -> Reply.

Record World := {
  self : OpenXRHMD;
  tick : nat;
  trace : list Effect
}.

(** State monad over [World]. *)
Definition M (A : Type) : Type := World -> A * World.
Definition ret {A} (a : A) : M A := fun w => (a, w).
Definition bind {A B} (m : M A) (k : A -> M B) : M B :=
  fun w => let (a, w1) := m w in k a w1.

Declare Scope xr_scope.
Delimit Scope xr_scope with xr.
Notation "x <- m ;; k" := (bind m (fun x => k))
  (at level 61, m at next level, right associativity) : xr_scope.
Notation "m ;; k" := (bind m (fun _ => k))
  (at level 61, right associativity) : xr_scope.
Local Open Scope xr_scope.

Definition get {A} (f : OpenXRHMD -> A) : M A := fun w => (f (self w), w).
Definition modify (f : OpenXRHMD -> OpenXRHMD) : M unit :=
  fun w => (tt, {| self := f (self w); tick := tick w; trace := trace w |}).
Definition emit (e : Effect) : M unit :=
  fun w => (tt, {| self := self w; tick := tick w; trace := trace w ++ [e] |}).
Definition print (ch : Channel) (msg : string) : M unit := emit (Print ch msg).
Definition when (b : bool) (m : M unit) : M unit := if b then m else ret tt.

(** [p[i] = v] on an array whose first [length l] entries have been written. *)
Definition array_set {A} (i : Z) (v : A) (l : list A) : list A :=
  firstn (Z.to_nat i) l ++ v :: skipn (S (Z.to_nat i)) l.

(** The callee fills a caller-allocated array from its start. *)
Definition array_fill {A} (old new : list A) : list A :=
  firstn (List.length old) new ++ skipn (List.length new) old.

Local Open Scope string_scope.
Local Open Scope Z_scope.
Local Open Scope xr_scope.

Section Methods.

Variable rt : Runtime.
Variable libm : Libm.

(** An external call: the reply is the next one of the stream. *)
Definition call (c : XrCall) : M Reply := fun w =>
  let rep := rt (tick w) in
  (rep, {| self := self w; tick := S (tick w);
           trace := (trace w ++ [Call c (r_result rep)])%list |}).

(** OpenXRHelper.hpp, [xrCheck]: prints the caller's message on failure.
    The text of the message is recorded by its format string only: the
    conversion of the result code to its name ([xrResultToString], whose own
    result is ignored) and the formatting are not part of the trace. *)
Definition xrCheck (result : XrResult) (format : string) : M bool :=
  if XR_SUCCEEDED result then ret true
  else print STDOUT format ;; ret false.

(* ---------------------------------------------------------------- *)
(** *** Helper methods *)

Definition eyeToViewIndex (eye : Eye) : Z :=
  match eye with LEFT => 0 | RIGHT => 1 end.

Definition eyeToString (eye : Eye) : string :=
  match eye with LEFT => "LEFT" | RIGHT => "RIGHT" end.

Definition sessionStateToString (state : XrSessionState) : string :=
  match state with
  | XR_SESSION_STATE_MAX_ENUM => "MAX_ENUM"
  | XR_SESSION_STATE_IDLE => "IDLE"
  | XR_SESSION_STATE_UNKNOWN => "UNKNOWN"
  | XR_SESSION_STATE_FOCUSED => "FOCUSED"
  | XR_SESSION_STATE_SYNCHRONIZED => "SYNCHRONIZED"
  | XR_SESSION_STATE_VISIBLE => "VISIBLE"
  | XR_SESSION_STATE_READY => "READY"
  | XR_SESSION_STATE_STOPPING => "STOPPING"
  | XR_SESSION_STATE_LOSS_PENDING => "PENDING"
  | XR_SESSION_STATE_EXITING => "EXITING"
  end.

(** [views[i]]; a read outside the entries written so far is undefined in
    C++ and yields the zero view here. *)
Definition views_at (h : OpenXRHMD) (i : Z) : XrView :=
  nth (Z.to_nat i) (views h) XrView_zero.

Definition quaternionToEulerAngles (q : XrQuaternionf) : Vector3f :=
  let two := F32.of_Z 2 in
  let one := F32.of_Z 1 in
  let x := q_x q in let y := q_y q in let z := q_z q in let w := q_w q in
  (* roll (x-axis rotation) *)
  let sinr_cosp := F64.of_f32 (F32.mul two (F32.add (F32.mul w x) (F32.mul y z))) in
  let cosr_cosp := F64.of_f32 (F32.sub one (F32.mul two (F32.add (F32.mul x x) (F32.mul y y)))) in
  let roll := F32.of_f64 (atan2 libm sinr_cosp cosr_cosp) in
  (* pitch (y-axis rotation) *)
  let sinp := F64.of_f32 (F32.sqrt (F32.add one (F32.mul two (F32.sub (F32.mul w y) (F32.mul x z))))) in
  let cosp := F64.of_f32 (F32.sqrt (F32.sub one (F32.mul two (F32.sub (F32.mul w y) (F32.mul x z))))) in
  let pitch := F32.of_f64 (F64.sub (F64.mul (F64.of_Z 2) (atan2 libm sinp cosp))
                                   (F64.div F64.M_PI (F64.of_Z 2))) in
  (* yaw (z-axis rotation) *)
  let siny_cosp := F64.of_f32 (F32.mul two (F32.add (F32.mul w z) (F32.mul x y))) in
  let cosy_cosp := F64.of_f32 (F32.sub one (F32.mul two (F32.add (F32.mul y y) (F32.mul z z)))) in
  let yaw := F32.of_f64 (atan2 libm siny_cosp cosy_cosp) in
  {| x3 := roll; y3 := pitch; z3 := yaw |}.

(** OpenXRHelper.hpp, [radianToDegree]: [value * 180.f / M_PI] on every
    coefficient, the divisor converted to the vector's scalar type. *)
Definition radianToDegree (a : spec_float) : spec_float :=
  F32.div (F32.mul a (F32.of_Z 180)) (F32.of_f64 F64.M_PI).

(* ---------------------------------------------------------------- *)
(** *** Pose and field-of-view queries *)

Definition view_missing (eye : Eye) : M unit :=
  print STDERR ("View for " ++ eyeToString eye ++ " eye does not exist").

Definition getPoseOrientation (eye : Eye) (unit : AngleUnit) : M Vector3f :=
  let viewIndex := eyeToViewIndex eye in
  h <- get (fun h => h) ;;
  if m_viewCount h <=? viewIndex then
    view_missing eye ;; ret Vector3f_Zero
  else
    let o := quaternionToEulerAngles (orientation (pose (views_at h viewIndex))) in
    ret (match unit with
         | RADIAN => o
         | DEGREE => {| x3 := radianToDegree (x3 o); y3 := radianToDegree (y3 o);
                        z3 := radianToDegree (z3 o) |}
         end).

(** [Quaternionf()] is Eigen's default constructor, library code that is not
    part of these sources: what it leaves in the four coefficients depends on
    how Eigen is built (zeros with [EIGEN_INITIALIZE_MATRICES_BY_ZERO], no
    initialisation otherwise).  [indeterminate] is the object it constructs. *)
Definition getPoseQuaternion (indeterminate : Quaternionf) (eye : Eye) : M Quaternionf :=
  let viewIndex := eyeToViewIndex eye in
  h <- get (fun h => h) ;;
  if m_viewCount h <=? viewIndex then
    view_missing eye ;; ret indeterminate
  else
    let o := orientation (pose (views_at h viewIndex)) in
    ret {| qw := q_w o; qx := q_x o; qy := q_y o; qz := q_z o |}.

Definition getPosePosition (eye : Eye) : M Vector3f :=
  let viewIndex := eyeToViewIndex eye in
  h <- get (fun h => h) ;;
  if m_viewCount h <=? viewIndex then
    view_missing eye ;; ret Vector3f_Zero
  else
    let p := position (pose (views_at h viewIndex)) in
    ret {| x3 := p_x p; y3 := p_y p; z3 := p_z p |}.

Definition getFieldOfView (eye : Eye) (unit : AngleUnit) : M Vector4f :=
  let viewIndex := eyeToViewIndex eye in
  h <- get (fun h => h) ;;
  if m_viewCount h <=? viewIndex then
    view_missing eye ;; ret Vector4f_Zero
  else
    let f := fov (views_at h viewIndex) in
    ret (match unit with
         | RADIAN => {| x4 := angleLeft f; y4 := angleRight f;
                        z4 := angleDown f; w4 := angleUp f |}
         | DEGREE => {| x4 := radianToDegree (angleLeft f); y4 := radianToDegree (angleRight f);
                        z4 := radianToDegree (angleDown f); w4 := radianToDegree (angleUp f) |}
         end).

Definition getScreenCenter (eye : Eye) : M Vector2f :=
  let viewIndex := eyeToViewIndex eye in
  h <- get (fun h => h) ;;
  if m_viewCount h <=? viewIndex then
    view_missing eye ;; ret Vector2f_Zero
  else
    let f := fov (views_at h viewIndex) in
    let tanLeft := tanf libm (F32.abs (angleLeft f)) in
    let tanRight := tanf libm (F32.abs (angleRight f)) in
    let tanUp := tanf libm (F32.abs (angleUp f)) in
    let tanDown := tanf libm (F32.abs (angleDown f)) in
    let centerX := F32.div tanLeft (F32.add tanLeft tanRight) in
    let centerY := F32.div tanDown (F32.add tanDown tanUp) in
    ret {| x2 := centerX; y2 := centerY |}.

(* ---------------------------------------------------------------- *)
(** *** Resolution *)

Definition isSessionRunning (h : OpenXRHMD) : bool :=
  negb (SessionStatus_eqb (m_status h) FAILURE)
  && negb (SessionStatus_eqb (m_status h) STOPPED).

Definition setResolution (resolution : Vector2i) : M unit :=
  running <- get isSessionRunning ;;
  if negb running then
    modify (set_resolution resolution)
  else
    print SIBR_WRG "Cannot change the resolution: XR session is already running.".

Definition getResolution (h : OpenXRHMD) : Vector2i := m_resolution h.

(* ---------------------------------------------------------------- *)
(** *** Session state machine *)

Definition updateCurrentSessionState (state : XrSessionState) : M unit :=
  old <- get m_currentState ;;
  print SIBR_LOG ("XR session state change: '" ++ sessionStateToString old
                  ++ "' -> '" ++ sessionStateToString state ++ "'") ;;
  modify (set_currentState state) ;;
  cur <- get m_currentState ;;
  match cur with
  | XR_SESSION_STATE_MAX_ENUM
  | XR_SESSION_STATE_UNKNOWN => ret tt
  | XR_SESSION_STATE_IDLE =>
      modify (set_status IDLE) ;;
      cb <- get m_idleCallback ;;
      when cb (emit IdleCallback)
  | XR_SESSION_STATE_SYNCHRONIZED =>
      modify (set_status SYNCHRONIZED)
  | XR_SESSION_STATE_FOCUSED =>
      cb <- get m_focusedCallback ;;
      when cb (emit FocusedCallback)
  | XR_SESSION_STATE_VISIBLE =>
      cb <- get m_visibleCallback ;;
      when cb (emit VisibleCallback)
  | XR_SESSION_STATE_READY =>
      st <- get m_status ;;
      if negb (SessionStatus_eqb st BEGINNING) then
        rep <- call xrBeginSession ;;
        ok <- xrCheck (r_result rep) "Failed to begin ession!" ;;
        if negb ok then modify (set_status FAILURE)
        else modify (set_status BEGINNING)
      else ret tt
  | XR_SESSION_STATE_STOPPING =>
      st <- get m_status ;;
      if negb (SessionStatus_eqb st ENDING) then
        rep <- call xrEndSession ;;
        ok <- xrCheck (r_result rep) "Failed to end session!" ;;
        if negb ok then modify (set_status FAILURE)
        else modify (set_status ENDING)
      else ret tt
  | XR_SESSION_STATE_LOSS_PENDING
  | XR_SESSION_STATE_EXITING =>
      rep <- call xrDestroySession ;;
      ok <- xrCheck (r_result rep) "Failed to destroy session!" ;;
      if negb ok then modify (set_status FAILURE)
      else
        modify (set_session XR_NULL_HANDLE) ;;
        modify (set_status STOPPED)
  end.

(* ---------------------------------------------------------------- *)
(** *** Frame loop *)

Definition waitNextFrame : M bool :=
  modify (set_lastFrameState
            {| predictedDisplayTime := 0; predictedDisplayPeriod := 0; shouldRender_flag := 0 |}) ;;
  rep <- call xrWaitFrame ;;
  modify (set_lastFrameState (r_frame rep)) ;;
  ok <- xrCheck (r_result rep) "xrWaitFrame() failed" ;;
  if negb ok then ret false
  else
    _ <- call xrConvertTimespecTimeToTimeKHR ;;
    (* Get the new view locations *)
    displayTime <- get (fun h => predictedDisplayTime (m_lastFrameState h)) ;;
    capacity <- get m_viewCount ;;
    rep <- call (xrLocateViews displayTime capacity) ;;
    modify (set_viewCount (wrap32 (r_count rep))) ;;
    modify (fun h => set_views (array_fill (views h) (firstn (Z.to_nat capacity) (r_views rep))) h) ;;
    ok <- xrCheck (r_result rep) "Could not locate views" ;;
    ret ok.

Definition shouldRender (h : OpenXRHMD) : bool :=
  shouldRender_flag (m_lastFrameState h) =? XR_TRUE.

(** [submitFrame()], the empty frame. *)
Definition submitFrame : M bool :=
  rep <- call xrBeginFrame ;;
  ok <- xrCheck (r_result rep) "failed to begin frame!" ;;
  if negb ok then ret false
  else
    displayTime <- get (fun h => predictedDisplayTime (m_lastFrameState h)) ;;
    rep <- call (xrEndFrame displayTime 0) ;;
    ok <- xrCheck (r_result rep) "failed to end frame!" ;;
    ret ok.

Definition report_missed (r : FrameRefreshReport) : FrameRefreshReport :=
  {| nbMissedFrames := wrap32 (nbMissedFrames r + 1);
     totalRenderedFrames := totalRenderedFrames r;
     expectedFramerate := expectedFramerate r;
     measuredFramerate := measuredFramerate r;
     firstFrameTimestamp := firstFrameTimestamp r |}.

Definition report_rendered (r : FrameRefreshReport) : FrameRefreshReport :=
  {| nbMissedFrames := nbMissedFrames r;
     totalRenderedFrames := wrap32 (totalRenderedFrames r + 1);
     expectedFramerate := expectedFramerate r;
     measuredFramerate := measuredFramerate r;
     firstFrameTimestamp := firstFrameTimestamp r |}.

Definition report_expected (f : spec_float) (r : FrameRefreshReport) : FrameRefreshReport :=
  {| nbMissedFrames := nbMissedFrames r;
     totalRenderedFrames := totalRenderedFrames r;
     expectedFramerate := f;
     measuredFramerate := measuredFramerate r;
     firstFrameTimestamp := firstFrameTimestamp r |}.

Definition report_measured (f : spec_float) (r : FrameRefreshReport) : FrameRefreshReport :=
  {| nbMissedFrames := nbMissedFrames r;
     totalRenderedFrames := totalRenderedFrames r;
     expectedFramerate := expectedFramerate r;
     measuredFramerate := f;
     firstFrameTimestamp := firstFrameTimestamp r |}.

Definition modify_current (f : FrameRefreshReport -> FrameRefreshReport) : M unit :=
  modify (fun h => set_currentFrameRefreshReport (f (m_currentFrameRefreshReport h)) h).

(** [duration_cast<milliseconds>(t1 - t0).count()] on nanosecond readings. *)
Definition elapsed_ms (t1 t0 : Z) : Z := Z.quot (int64_sub t1 t0) 1000000.

Definition updateRefreshReport : M unit :=
  rep <- call xrConvertTimespecTimeToTimeKHR ;;
  let now_ns := r_time rep in
  (* Update current report *)
  fs <- get m_lastFrameState ;;
  when (int64_sub (predictedDisplayTime fs) now_ns <? 0) (modify_current report_missed) ;;
  modify_current report_rendered ;;
  modify_current (report_expected
                    (F32.div (F32.of_Z 1000000000) (F32.of_Z (predictedDisplayPeriod fs)))) ;;
  (* Validate the report after 100 frames *)
  cur <- get m_currentFrameRefreshReport ;;
  if totalRenderedFrames cur =? 100 then
    t1 <- call high_resolution_clock_now ;;
    modify_current (report_measured
                      (F32.div (F32.mul (F32.of_Z 1000) (F32.of_Z (totalRenderedFrames cur)))
                               (F32.of_Z (elapsed_ms (r_time t1) (firstFrameTimestamp cur))))) ;;
    modify (fun h => set_lastFrameRefreshReport (m_currentFrameRefreshReport h) h) ;;
    t2 <- call high_resolution_clock_now ;;
    modify (set_currentFrameRefreshReport
              {| nbMissedFrames := 0; totalRenderedFrames := 0;
                 expectedFramerate := F32.zero; measuredFramerate := F32.zero;
                 firstFrameTimestamp := r_time t2 |})
  else ret tt.

Definition update_projectionView (v : XrView) (p : XrCompositionLayerProjectionView) :=
  {| pv_pose := pose v; pv_fov := fov v;
     pv_swapchain := pv_swapchain p; pv_extent := pv_extent p |}.

Definition projectionView_zero : XrCompositionLayerProjectionView :=
  {| pv_pose := pose XrView_zero; pv_fov := fov XrView_zero;
     pv_swapchain := XR_NULL_HANDLE; pv_extent := {| x2i := 0; y2i := 0 |} |}.

(** The body of [for (uint32_t i = 0; i < m_viewCount; i++)] of
    [submitFrame(RenderFunc)], with [n] iterations left from index [i];
    a [break] ends the loop. *)
Fixpoint render_views (n : nat) (i : Z) : M unit :=
  match n with
  | O => ret tt
  | S n' =>
      swapchain <- get (fun h => nth (Z.to_nat i) (m_swapchains h) XR_NULL_HANDLE) ;;
      rep <- call (xrAcquireSwapchainImage swapchain) ;;
      let acquired_index := r_count rep in
      ok <- xrCheck (r_result rep) "failed to acquire swapchain image!" ;;
      if negb ok then ret tt
      else
        rep <- call (xrWaitSwapchainImage swapchain) ;;
        ok <- xrCheck (r_result rep) "failed to wait for swapchain image!" ;;
        if negb ok then ret tt
        else
          (* Update projection views *)
          modify (fun h =>
                    set_projectionViews
                      (array_set i (update_projectionView (views_at h i)
                                      (nth (Z.to_nat i) (m_projectionViews h) projectionView_zero))
                                 (m_projectionViews h)) h) ;;
          image <- get (fun h => nth (Z.to_nat acquired_index)
                                     (nth (Z.to_nat i) (m_swapchainsImages h) nil) 0) ;;
          emit (RenderFunc i image) ;;
          rep <- call (xrReleaseSwapchainImage swapchain) ;;
          ok <- xrCheck (r_result rep) "failed to release swapchain image!" ;;
          if negb ok then ret tt
          else render_views n' (i + 1)
  end.

(** [submitFrame(RenderFunc renderFunc)]; the callback is opaque and each of
    its invocations is recorded as [RenderFunc i image]. *)
Definition submitFrame_RenderFunc : M bool :=
  render <- get shouldRender ;;
  (* Let's skip the rendering if we do not need to *)
  if negb render then
    _ <- submitFrame ;;
    ret true
  else
    rep <- call xrBeginFrame ;;
    ok <- xrCheck (r_result rep) "failed to begin frame!" ;;
    if negb ok then ret false
    else
      (* Render each eye and fill projectionViews with the result *)
      viewCount <- get m_viewCount ;;
      render_views (Z.to_nat viewCount) 0 ;;
      (* Check if the frame meets the deadline (aka predictedDisplayTime). *)
      updateRefreshReport ;;
      displayTime <- get (fun h => predictedDisplayTime (m_lastFrameState h)) ;;
      rep <- call (xrEndFrame displayTime 1) ;;
      ok <- xrCheck (r_result rep) "failed to end frame!" ;;
      ret ok.

(* ---------------------------------------------------------------- *)
(** *** Event polling *)

(** One activation of [pollEvents] up to its tail call: handles at most one
    event and returns [keepPolling]. *)
Definition pollEvents_once : M bool :=
  rep <- call xrPollEvent ;;
  let poll_result := r_result rep in
  (if poll_result =? XR_SUCCESS then
     match r_event rep with
     | XR_TYPE_EVENT_DATA_INSTANCE_LOSS_PENDING stale =>
         print SIBR_WRG "EVENT: instance loss pending! Destroying instance." ;;
         rep <- call xrDestroyInstance ;;
         ok <- xrCheck (r_result rep) "Failed to destroy XR instance." ;;
         when (negb ok) (modify (set_status FAILURE)) ;;
         (* no break: continues with the next case *)
         updateCurrentSessionState stale
     | XR_TYPE_EVENT_DATA_SESSION_STATE_CHANGED state =>
         updateCurrentSessionState state
     | XR_TYPE_EVENT_DATA_INTERACTION_PROFILE_CHANGED => ret tt
     | XR_TYPE_EVENT_DATA_OTHER _ =>
         print SIBR_LOG "EVENT: Unhandled event"
     end
   else if poll_result =? XR_EVENT_UNAVAILABLE then ret tt
   else print SIBR_WRG "EVENT: Failed to poll XR Runtime events!") ;;
  (* In case of transitory states, keep polling *)
  st <- get m_status ;;
  let keepPolling := SessionStatus_eqb st BEGINNING || SessionStatus_eqb st ENDING in
  when (SessionStatus_eqb st BEGINNING) (_ <- waitNextFrame ;; _ <- submitFrame ;; ret tt) ;;
  ret keepPolling.

(** [pollEvents] calls itself while the status is transitory; [fuel] bounds
    the number of activations and [None] means that it ran out. *)
Fixpoint pollEvents (fuel : nat) (w : World) : option (bool * World) :=
  match fuel with
  | O => None
  | S fuel' =>
      let (keepPolling, w1) := pollEvents_once w in
      if keepPolling then pollEvents fuel' w1
      else Some (negb (SessionStatus_eqb (m_status (self w1)) FAILURE), w1)
  end.

(* ---------------------------------------------------------------- *)
(** *** Starting a session *)

Definition GLEW_OK : Z := 0.
Definition GL_SRGB8_ALPHA8_EXT : Z := 35907.

Definition createSession : M bool :=
  rep <- call xrCreateSession ;;
  modify (set_session (r_handle rep)) ;;
  ok <- xrCheck (r_result rep) "Failed to create session" ;;
  ret ok.

Definition createReferenceSpace : M bool :=
  rep <- call xrCreateReferenceSpace ;;
  modify (set_playSpace (r_handle rep)) ;;
  ok <- xrCheck (r_result rep) "Failed to create play space!" ;;
  ret ok.

(** The search loop of [selectSwapchainFormat] over the first [n] formats. *)
Fixpoint find_format (n : nat) (formats : list Z) (preferred chosen : Z) : Z :=
  match n with
  | O => chosen
  | S n' =>
      match formats with
      | nil => chosen
      | f :: rest => if f =? preferred then f else find_format n' rest preferred chosen
      end
  end.

(** OpenXRHelper.hpp, [selectSwapchainFormat]. *)
Definition selectSwapchainFormat (preferred_format : Z) (fallback : bool) : M Z :=
  rep <- call (xrEnumerateSwapchainFormats 0) ;;
  let swapchain_format_count := wrap32 (r_count rep) in
  ok <- xrCheck (r_result rep) "Failed to get number of supported swapchain formats" ;;
  if negb ok then ret (-1)
  else
    rep <- call (xrEnumerateSwapchainFormats swapchain_format_count) ;;
    let swapchain_format_count := wrap32 (r_count rep) in
    let swapchain_formats := r_list rep in
    ok <- xrCheck (r_result rep) "Failed to enumerate swapchain formats" ;;
    if negb ok then ret (-1)
    else
      let chosen_format :=
        find_format (Z.to_nat swapchain_format_count) swapchain_formats preferred_format
                    (if fallback then nth 0 swapchain_formats 0 else -1) in
      when (fallback && negb (chosen_format =? preferred_format))
           (print SIBR_LOG "Falling back to non preferred swapchain format") ;;
      ret chosen_format.

(** The per-view loop of [createSwapchain], [n] iterations left from [i]. *)
Fixpoint create_swapchains (n : nat) (i : Z) (color_format : Z) : M bool :=
  match n with
  | O => ret true
  | S n' =>
      res <- get m_resolution ;;
      rep <- call (xrCreateSwapchain color_format (wrap32 (x2i res)) (wrap32 (y2i res))) ;;
      let swapchain := r_handle rep in
      modify (fun h => set_swapchains (array_set i swapchain (m_swapchains h)) h) ;;
      ok <- xrCheck (r_result rep) "Failed to create swapchain %d!" ;;
      if negb ok then ret false
      else
        (* The runtime controls how many textures we have to be able to render to *)
        rep <- call (xrEnumerateSwapchainImages swapchain 0) ;;
        let len := wrap32 (r_count rep) in
        modify (fun h => set_swapchainsLengths (array_set i len (m_swapchainsLengths h)) h) ;;
        ok <- xrCheck (r_result rep) "Failed to enumerate m_swapchains" ;;
        if negb ok then ret false
        else
          rep <- call (xrEnumerateSwapchainImages swapchain len) ;;
          modify (fun h => set_swapchainsImages
                             (array_set i (firstn (Z.to_nat len) (r_list rep)) (m_swapchainsImages h)) h) ;;
          modify (fun h => set_swapchainsLengths
                             (array_set i (wrap32 (r_count rep)) (m_swapchainsLengths h)) h) ;;
          ok <- xrCheck (r_result rep) "Failed to enumerate swapchain images" ;;
          if negb ok then ret false
          else create_swapchains n' (i + 1) color_format
  end.

Definition createSwapchain : M bool :=
  rep <- call (xrEnumerateSwapchainFormats 0) ;;
  let swapchain_format_count := wrap32 (r_count rep) in
  ok <- xrCheck (r_result rep) "Failed to get number of supported swapchain formats" ;;
  if negb ok then ret false
  else
    rep <- call (xrEnumerateSwapchainFormats swapchain_format_count) ;;
    ok <- xrCheck (r_result rep) "Failed to enumerate swapchain formats" ;;
    if negb ok then ret false
    else
      (* Select swapchain with SRGB format *)
      color_format <- selectSwapchainFormat GL_SRGB8_ALPHA8_EXT true ;;
      (* Create swapchain for main VR rendering *)
      viewCount <- get m_viewCount ;;
      modify (set_swapchains nil) ;;
      modify (set_swapchainsLengths nil) ;;
      modify (set_swapchainsImages nil) ;;
      ok <- create_swapchains (Z.to_nat viewCount) 0 color_format ;;
      if negb ok then ret false
      else
        (* Do not allocate these every frame to save some resources *)
        modify (set_views (repeat XrView_zero (Z.to_nat viewCount))) ;;
        modify (fun h =>
                  set_projectionViews
                    (map (fun swapchain =>
                            {| pv_pose := pose XrView_zero; pv_fov := fov XrView_zero;
                               pv_swapchain := swapchain; pv_extent := m_resolution h |})
                         (firstn (Z.to_nat viewCount) (m_swapchains h))) h) ;;
        ret true.

(** [while (m_status != SYNCHRONIZED) { pollEvents(); ... }]; [fuel] bounds
    the iterations and the activations of each [pollEvents]. *)
Fixpoint synchronizeSession (fuel : nat) (w : World) : option (bool * World) :=
  if SessionStatus_eqb (m_status (self w)) SYNCHRONIZED then Some (true, w)
  else
    match fuel with
    | O => None
    | S fuel' =>
        match pollEvents fuel' w with
        | None => None
        | Some (_, w1) =>
            (* Damn, we got an error! *)
            if SessionStatus_eqb (m_status (self w1)) FAILURE then Some (false, w1)
            else synchronizeSession fuel' w1
        end
    end.

Definition startSession (fuel : nat) (w : World) : option (bool * World) :=
  let (err, w0) := call glewInit w in
  if negb (r_result err =? GLEW_OK) then
    Some ((print STDOUT "Error initializing OpenGL" ;; ret false) w0)
  else
    let (_, w0) := print SIBR_LOG "Starting XR session" w0 in
    let (ok, w1) := createSession w0 in
    if negb ok then Some (false, w1)
    else
      let (ok, w2) := createReferenceSpace w1 in
      if negb ok then Some (false, w2)
      else
        let (ok, w3) := createSwapchain w2 in
        if negb ok then Some (false, w3)
        else synchronizeSession fuel w3.

(* ---------------------------------------------------------------- *)
(** *** Closing a session *)

(** [while (isSessionRunning()) { pollEvents(); }] *)
Fixpoint closeSession_loop (fuel : nat) (w : World) : option World :=
  if isSessionRunning (self w) then
    match fuel with
    | O => None
    | S fuel' =>
        match pollEvents fuel' w with
        | None => None
        | Some (_, w1) => closeSession_loop fuel' w1
        end
    end
  else Some w.

Definition closeSession (fuel : nat) (w : World) : option (bool * World) :=
  let not_stopped (w : World) := negb (SessionStatus_eqb (m_status (self w)) STOPPED) in
  if SessionStatus_eqb (m_status (self w)) IDLE then
    (* If session is already idle, just destroy it *)
    let (_, w1) :=
      (rep <- call xrDestroySession ;;
       ok <- xrCheck (r_result rep) "Failed to destroy session!" ;;
       when (negb ok) (modify (set_status FAILURE)) ;;
       modify (set_session XR_NULL_HANDLE) ;;
       modify (set_status STOPPED)) w in
    Some (not_stopped w1, w1)
  else if negb (SessionStatus_eqb (m_status (self w)) STOPPED) then
    (* If not, proper close by requesting an exit *)
    let (ok, w1) :=
      (rep <- call xrRequestExitSession ;;
       xrCheck (r_result rep) "Failed to request exit session!") w in
    if negb ok then
      Some (false, snd (modify (set_status FAILURE) w1))
    else
      (* Keep polling event until session is properly ended and destroyed *)
      match closeSession_loop fuel w1 with
      | None => None
      | Some w2 => Some (not_stopped w2, w2)
      end
  else Some (not_stopped w, w).

End Methods.

(* ================================================================== *)
(** ** Drivers and observations *)

(** A sequence of session state changes handed to
    [updateCurrentSessionState] one after the other. *)
Fixpoint process_events (rt : Runtime) (events : list XrSessionState) : M unit :=
  match events with
  | nil => ret tt
  | state :: rest => updateCurrentSessionState rt state ;; process_events rt rest
  end.

(** [n] consecutive calls of [updateRefreshReport] under one frame state. *)
Fixpoint refresh_cycles (rt : Runtime) (n : nat) : M unit :=
  match n with
  | O => ret tt
  | S n' => updateRefreshReport rt ;; refresh_cycles rt n'
  end.

(** From status FAILURE, the events that leave it in place: the ones whose
    handler does not assign the status, and the ones whose runtime call
    (the [t]-th external call) fails. *)
Fixpoint failure_preserving (rt : Runtime) (events : list XrSessionState) (t : nat) : bool :=
  match events with
  | nil => true
  | state :: rest =>
      match state with
      | XR_SESSION_STATE_IDLE | XR_SESSION_STATE_SYNCHRONIZED => false
      | XR_SESSION_STATE_UNKNOWN | XR_SESSION_STATE_MAX_ENUM
      | XR_SESSION_STATE_VISIBLE | XR_SESSION_STATE_FOCUSED => failure_preserving rt rest t
      | XR_SESSION_STATE_READY | XR_SESSION_STATE_STOPPING
      | XR_SESSION_STATE_LOSS_PENDING | XR_SESSION_STATE_EXITING =>
          negb (XR_SUCCEEDED (r_result (rt t))) && failure_preserving rt rest (S t)
      end
  end.

Definition is_xrBeginFrame (e : Effect) : bool :=
  match e with Call xrBeginFrame _ => true | _ => false end.
Definition is_xrEndFrame (e : Effect) : bool :=
  match e with Call (xrEndFrame _ _) _ => true | _ => false end.
Definition is_RenderFunc (e : Effect) : bool :=
  match e with RenderFunc _ _ => true | _ => false end.
(** Effects of the per-view loop: acquire, wait, render, release. *)
Definition is_view_effect (e : Effect) : bool :=
  match e with
  | Call (xrAcquireSwapchainImage _) _ | Call (xrWaitSwapchainImage _) _
  | Call (xrReleaseSwapchainImage _) _ | RenderFunc _ _ => true
  | _ => false
  end.
Definition is_failed_view_call (e : Effect) : bool :=
  match e with
  | Call (xrAcquireSwapchainImage _) r | Call (xrWaitSwapchainImage _) r
  | Call (xrReleaseSwapchainImage _) r => negb (XR_SUCCEEDED r)
  | _ => false
  end.

Definition count (p : Effect -> bool) (t : list Effect) : nat :=
  List.length (filter p t).

(** No effect of the per-view loop follows a failed acquire, wait or release. *)
Fixpoint stops_at_failure (t : list Effect) : bool :=
  match t with
  | nil => true
  | e :: rest =>
      if is_failed_view_call e then forallb (fun e' => negb (is_view_effect e')) rest
      else stops_at_failure rest
  end.

(* ================================================================== *)
(** ** Sample objects and runtimes *)

Definition report_init : FrameRefreshReport :=
  {| nbMissedFrames := 0; totalRenderedFrames := 0;
     expectedFramerate := F32.zero; measuredFramerate := F32.zero;
     firstFrameTimestamp := 0 |}.

(** The object as its default member initialisers leave it. *)
Definition hmd_init : OpenXRHMD :=
  {| m_lastFrameState := {| predictedDisplayTime := 0; predictedDisplayPeriod := 0;
                            shouldRender_flag := 0 |};
     m_currentState := XR_SESSION_STATE_UNKNOWN;
     m_status := STOPPED;
     m_resolution := {| x2i := 0; y2i := 0 |};
     m_playSpace := XR_NULL_HANDLE;
     m_instance := XR_NULL_HANDLE;
     m_session := XR_NULL_HANDLE;
     m_viewCount := 0;
     m_projectionViews := nil;
     views := nil;
     m_swapchains := nil;
     m_swapchainsLengths := nil;
     m_swapchainsImages := nil;
     m_lastFrameRefreshReport := report_init;
     m_currentFrameRefreshReport := report_init;
     m_idleCallback := false;
     m_visibleCallback := false;
     m_focusedCallback := false |}.

Definition world_of (h : OpenXRHMD) : World := {| self := h; tick := O; trace := nil |}.

Definition reply_of (result : XrResult) : Reply :=
  {| r_result := result; r_handle := 7; r_count := 1; r_list := [35907; 32856];
     r_event := XR_TYPE_EVENT_DATA_INTERACTION_PROFILE_CHANGED;
     r_frame := {| predictedDisplayTime := 5000; predictedDisplayPeriod := 11111111;
                   shouldRender_flag := XR_TRUE |};
     r_views := nil; r_time := 1000 |}.

Definition reply_event (e : XrEventDataBuffer) : Reply :=
  {| r_result := XR_SUCCESS; r_handle := 7; r_count := 1; r_list := [35907; 32856];
     r_event := e;
     r_frame := {| predictedDisplayTime := 5000; predictedDisplayPeriod := 11111111;
                   shouldRender_flag := XR_TRUE |};
     r_views := nil; r_time := 1000 |}.

(** A runtime in which every call succeeds, and one in which every call fails. *)
Definition rt_ok : Runtime := fun _ => reply_of XR_SUCCESS.
Definition rt_fail : Runtime := fun _ => reply_of XR_ERROR_RUNTIME_FAILURE.

(** A runtime that answers from a script and fails once it is exhausted. *)
Definition rt_script (script : list Reply) : Runtime :=
  fun n => nth n script (reply_of XR_ERROR_RUNTIME_FAILURE).

Definition libm_id : Libm := {| tanf := fun a => a; atan2 := fun y _ => y |}.

Definition w_failed : World := world_of (set_status FAILURE hmd_init).

(** A synchronized session with two views, a swapchain of two images for each
    view, and a frame state that asks for rendering. *)
Definition hmd_running : OpenXRHMD :=
  {| m_lastFrameState := {| predictedDisplayTime := 5000; predictedDisplayPeriod := 11111111;
                            shouldRender_flag := XR_TRUE |};
     m_currentState := XR_SESSION_STATE_FOCUSED;
     m_status := SYNCHRONIZED;
     m_resolution := {| x2i := 1832; y2i := 1920 |};
     m_playSpace := 3;
     m_instance := 1;
     m_session := 2;
     m_viewCount := 2;
     m_projectionViews :=
       [ {| pv_pose := pose XrView_zero; pv_fov := fov XrView_zero; pv_swapchain := 11;
            pv_extent := {| x2i := 1832; y2i := 1920 |} |};
         {| pv_pose := pose XrView_zero; pv_fov := fov XrView_zero; pv_swapchain := 12;
            pv_extent := {| x2i := 1832; y2i := 1920 |} |} ];
     views := [XrView_zero; XrView_zero];
     m_swapchains := [11; 12];
     m_swapchainsLengths := [2; 2];
     m_swapchainsImages := [[101; 102]; [201; 202]];
     m_lastFrameRefreshReport := report_init;
     m_currentFrameRefreshReport := report_init;
     m_idleCallback := true;
     m_visibleCallback := true;
     m_focusedCallback := true |}.

(** The same session after a wait step that asked for no rendering. *)
Definition hmd_no_render : OpenXRHMD :=
  set_lastFrameState {| predictedDisplayTime := 5000; predictedDisplayPeriod := 11111111;
                        shouldRender_flag := 0 |} hmd_running.

(** Begin-frame and the acquire of view 0 succeed, the wait on its image
    fails, the remaining calls succeed. *)
Definition rt_wait_fails : Runtime :=
  rt_script [reply_of XR_SUCCESS; reply_of XR_SUCCESS; reply_of XR_ERROR_RUNTIME_FAILURE;
             reply_of XR_SUCCESS; reply_of XR_SUCCESS].


(** What [updateRefreshReport] records for one frame, before it looks at the
    size of the window: [now] is the runtime's current time, [fs] the frame
    state of the last wait step, [r] the accumulating report. *)
Definition counted (now : Z) (fs : XrFrameState) (r : FrameRefreshReport) : FrameRefreshReport :=
  {| nbMissedFrames :=
       if int64_sub (predictedDisplayTime fs) now <? 0
       then wrap32 (nbMissedFrames r + 1) else nbMissedFrames r;
     totalRenderedFrames := wrap32 (totalRenderedFrames r + 1);
     expectedFramerate := F32.div (F32.of_Z 1000000000) (F32.of_Z (predictedDisplayPeriod fs));
     measuredFramerate := measuredFramerate r;
     firstFrameTimestamp := firstFrameTimestamp r |}.

(** The accumulating and the published report. *)
Definition reports (w : World) : FrameRefreshReport * FrameRefreshReport :=
  (m_currentFrameRefreshReport (self w), m_lastFrameRefreshReport (self w)).


(** A call of [submitFrame(renderFunc)] from [w] counted its frame: with [now]
    the time the runtime reported (the reply to its [k]-th call), the frame is
    added to the accumulating report, and the window is published and restarted
    when that makes 100 frames. *)
Definition rendered_frame_counted (rt : Runtime) (w : World) : Prop :=
  let w' := snd (submitFrame_RenderFunc rt w) in
  exists k,
    let now := r_time (rt k) in
    let c := counted now (m_lastFrameState (self w)) (m_currentFrameRefreshReport (self w)) in
    totalRenderedFrames c = wrap32 (totalRenderedFrames (m_currentFrameRefreshReport (self w)) + 1)
    /\ (- 2 ^ 62 <= predictedDisplayTime (m_lastFrameState (self w)) < 2 ^ 62 ->
        - 2 ^ 62 <= now < 2 ^ 62 ->
        nbMissedFrames c =
          if predictedDisplayTime (m_lastFrameState (self w)) <? now
          then wrap32 (nbMissedFrames (m_currentFrameRefreshReport (self w)) + 1)
          else nbMissedFrames (m_currentFrameRefreshReport (self w)))
    /\ expectedFramerate c
       = F32.div (F32.of_Z 1000000000)
                 (F32.of_Z (predictedDisplayPeriod (m_lastFrameState (self w))))
    /\ if totalRenderedFrames c =? 100 then
         m_lastFrameRefreshReport (self w')
         = report_measured
             (F32.div (F32.mul (F32.of_Z 1000) (F32.of_Z 100))
                      (F32.of_Z (elapsed_ms (r_time (rt (S k))) (firstFrameTimestamp c)))) c
         /\ totalRenderedFrames (m_currentFrameRefreshReport (self w')) = 0
       else
         m_currentFrameRefreshReport (self w') = c
         /\ m_lastFrameRefreshReport (self w') = m_lastFrameRefreshReport (self w).


(** A runtime whose first hundred replies report the time 1000 ns and whose
    later ones (the readings of the high resolution clock) 1111111100 ns. *)
Definition reply_time (t : Z) : Reply :=
  {| r_result := XR_SUCCESS; r_handle := 7; r_count := 0; r_list := nil;
     r_event := XR_TYPE_EVENT_DATA_INTERACTION_PROFILE_CHANGED;
     r_frame := {| predictedDisplayTime := 5000; predictedDisplayPeriod := 11111111;
                   shouldRender_flag := XR_TRUE |};
     r_views := nil; r_time := t |}.

Definition rt_frames : Runtime :=
  fun n => if (n <? 100)%nat then reply_time 1000 else reply_time 1111111100.


(** The sample session once the runtime has made it idle. *)
Definition hmd_idle : OpenXRHMD := set_status IDLE hmd_running.

(** A clean shutdown: the exit request is accepted, the runtime reports
    STOPPING (end-session succeeds), then IDLE, then EXITING (destroy-session
    succeeds). *)
Definition rt_clean_close : Runtime :=
  rt_script [reply_of XR_SUCCESS;
             reply_event (XR_TYPE_EVENT_DATA_SESSION_STATE_CHANGED XR_SESSION_STATE_STOPPING);
             reply_of XR_SUCCESS;
             reply_event (XR_TYPE_EVENT_DATA_SESSION_STATE_CHANGED XR_SESSION_STATE_IDLE);
             reply_event (XR_TYPE_EVENT_DATA_SESSION_STATE_CHANGED XR_SESSION_STATE_EXITING);
             reply_of XR_SUCCESS].

(** The exit request is accepted, the runtime reports STOPPING and the
    end-session call fails. *)
Definition rt_end_session_fails : Runtime :=
  rt_script [reply_of XR_SUCCESS;
             reply_event (XR_TYPE_EVENT_DATA_SESSION_STATE_CHANGED XR_SESSION_STATE_STOPPING);
             reply_of XR_ERROR_RUNTIME_FAILURE].

(** Modelled from the spec: the object that Eigen's default constructor
    [Quaternionf()] builds.  The constructor is library code absent from the
    sources, and its result depends on Eigen's build options; the
    specification says that every accessor returns a zero-valued result for a
    missing view, which is the behaviour of a zero-initialising build. *)
Definition Quaternionf_default : Quaternionf := Quaternionf_Zero.


(** The stage of [startSession] a call belongs to: 0 OpenGL initialisation,
    1 session creation, 2 reference space, 3 swapchains, 4 synchronisation. *)
Definition stage_of (c : XrCall) : nat :=
  match c with
  | glewInit => 0
  | xrCreateSession => 1
  | xrCreateReferenceSpace => 2
  | xrEnumerateSwapchainFormats _ | xrCreateSwapchain _ _ _
  | xrEnumerateSwapchainImages _ _ => 3
  | _ => 4
  end.

(** All calls of [t] belong to stage [k]. *)
Definition all_stage (k : nat) (t : list Effect) : bool :=
  forallb (fun e => match e with Call c _ => (stage_of c =? k)%nat | _ => true end) t.




(** The members [startSession] fills in before it synchronises. *)
Definition resources (h : OpenXRHMD) :=
  (m_playSpace h, m_swapchains h, m_swapchainsLengths h, m_swapchainsImages h,
   m_projectionViews h, List.length (views h)).


(** The object after a successful [init]: two views discovered, the
    recommended resolution stored, no session yet. *)
Definition hmd_discovered : OpenXRHMD :=
  set_viewCount 2 (set_resolution {| x2i := 1832; y2i := 1920 |} hmd_init).

(** A reply carrying the count 2, two list entries and two views. *)
Definition reply_two (handle : Z) (images : list Z) : Reply :=
  {| r_result := XR_SUCCESS; r_handle := handle; r_count := 2; r_list := images;
     r_event := XR_TYPE_EVENT_DATA_INTERACTION_PROFILE_CHANGED;
     r_frame := {| predictedDisplayTime := 5000; predictedDisplayPeriod := 11111111;
                   shouldRender_flag := 0 |};
     r_views := [XrView_zero; XrView_zero]; r_time := 1000 |}.

(** A runtime that lets a session start: every creation call succeeds, the
    first event is READY, and SYNCHRONIZED follows the first empty frame. *)
Definition rt_start : Runtime :=
  rt_script
    [ reply_of 0;                                  (* glewInit *)
      reply_two 2 nil;                             (* xrCreateSession *)
      reply_two 3 nil;                             (* xrCreateReferenceSpace *)
      reply_two 0 nil; reply_two 0 [35907; 32856]; (* formats, createSwapchain *)
      reply_two 0 nil; reply_two 0 [35907; 32856]; (* formats, selectSwapchainFormat *)
      reply_two 11 nil; reply_two 0 nil; reply_two 0 [101; 102];   (* view 0 *)
      reply_two 12 nil; reply_two 0 nil; reply_two 0 [201; 202];   (* view 1 *)
      reply_event (XR_TYPE_EVENT_DATA_SESSION_STATE_CHANGED XR_SESSION_STATE_READY);
      reply_two 0 nil;                             (* xrBeginSession *)
      reply_two 0 nil; reply_two 0 nil; reply_two 0 nil;   (* wait frame, time, locate views *)
      reply_two 0 nil; reply_two 0 nil;            (* begin frame, end frame *)
      reply_event (XR_TYPE_EVENT_DATA_SESSION_STATE_CHANGED XR_SESSION_STATE_SYNCHRONIZED) ].


(** A tangent that is an ordinary positive [float]: finite, positive, a valid
    binary32 number, and small enough for its double to be finite.  For an
    angle strictly between 0 and pi/2 the tangent computed in [float] is of
    that kind (it is largest, about 2.3e7, at the [float] next to pi/2). *)
Definition regular_tan (t : spec_float) : bool :=
  match t with
  | S754_finite false m e => bounded F32.prec F32.emax m e && (e <? 104)
  | _ => false
  end.

(** A view that looks 0.5 rad to each side, and the sample session with two
    such views. *)
Definition view_symmetric : XrView :=
  {| pose := pose XrView_zero;
     fov := {| angleLeft := S754_finite true 8388608 (-24);
               angleRight := S754_finite false 8388608 (-24);
               angleUp := S754_finite false 8388608 (-24);
               angleDown := S754_finite true 8388608 (-24) |} |}.

Definition hmd_symmetric : OpenXRHMD := set_views [view_symmetric; view_symmetric] hmd_running.


(** [(float)(M_PI / 2)], the [float] next above pi/2: a [float] is below pi/2
    exactly when it is below this one. *)
Definition pi_2_f32 : spec_float := S754_finite false 13176795 (-23).

(** The angle [a] lies strictly between 0 and pi/2. *)
Definition in_first_quadrant (a : spec_float) : bool :=
  SFltb F32.zero a && SFltb a pi_2_f32.

(** The accuracy asked of the platform's [tanf]: on angles strictly between 0
    and pi/2 it returns an ordinary positive [float]. *)
Definition tanf_ordinary (libm : Libm) : Prop :=
  forall a, valid_binary F32.prec F32.emax a = true ->
            in_first_quadrant a = true ->
            regular_tan (tanf libm a) = true.


(** [m] only appends to the trace, and what it appends satisfies [P]. *)
Definition extends (P : list Effect -> Prop) {A} (m : M A) : Prop :=
  forall w, exists t, trace (snd (m w)) = (trace w ++ t)%list /\ P t.

(** [m] leaves the observation [f] of the object as it is. *)
Definition preserves {T} (f : OpenXRHMD -> T) {A} (m : M A) : Prop :=
  forall w, f (self (snd (m w))) = f (self w).

(** [m] makes calls of stage [k] only. *)
Definition in_stage (k : nat) {A} (m : M A) : Prop :=
  extends (fun t => all_stage k t = true) m.


(** Observations used by the properties of the session methods. *)
Definition is_call (e : Effect) : bool :=
  match e with Call _ _ => true | _ => false end.
Definition is_callback (e : Effect) : bool :=
  match e with IdleCallback | VisibleCallback | FocusedCallback => true | _ => false end.
Definition is_xrRequestExitSession (e : Effect) : bool :=
  match e with Call xrRequestExitSession _ => true | _ => false end.

(** The status is one of the two transitory ones. *)
Definition transitory (s : SessionStatus) : bool :=
  SessionStatus_eqb s BEGINNING || SessionStatus_eqb s ENDING.

(** A READY event met while BEGINNING, or a STOPPING event met while ENDING:
    the request it stands for has been issued already. *)
Definition duplicate_request (s : SessionStatus) (state : XrSessionState) : bool :=
  match s, state with
  | BEGINNING, XR_SESSION_STATE_READY | ENDING, XR_SESSION_STATE_STOPPING => true
  | _, _ => false
  end.

(** The callback an event is reported to, when one is registered. *)
Definition callbacks_of (h : OpenXRHMD) (state : XrSessionState) : list Effect :=
  match state with
  | XR_SESSION_STATE_IDLE => if m_idleCallback h then [IdleCallback] else nil
  | XR_SESSION_STATE_VISIBLE => if m_visibleCallback h then [VisibleCallback] else nil
  | XR_SESSION_STATE_FOCUSED => if m_focusedCallback h then [FocusedCallback] else nil
  | _ => nil
  end.

(** The session begins on a READY event, then the runtime reports
    SYNCHRONIZED. *)
Definition rt_begin : Runtime :=
  rt_script
    [ reply_event (XR_TYPE_EVENT_DATA_SESSION_STATE_CHANGED XR_SESSION_STATE_READY);
      reply_two 0 nil;                             (* xrBeginSession *)
      reply_two 0 nil; reply_two 0 nil; reply_two 0 nil;   (* wait frame, time, locate views *)
      reply_two 0 nil; reply_two 0 nil;            (* begin frame, end frame *)
      reply_event (XR_TYPE_EVENT_DATA_SESSION_STATE_CHANGED XR_SESSION_STATE_SYNCHRONIZED) ].

(** The runtime reports READY and refuses to begin the session. *)
Definition rt_begin_fails : Runtime :=
  rt_script
    [ reply_event (XR_TYPE_EVENT_DATA_SESSION_STATE_CHANGED XR_SESSION_STATE_READY);
      reply_of XR_ERROR_RUNTIME_FAILURE ].


Definition set_instance v h := Build_OpenXRHMD (m_lastFrameState h) (m_currentState h) (m_status h) (m_resolution h) (m_playSpace h) v (m_session h) (m_viewCount h) (m_projectionViews h) (views h) (m_swapchains h) (m_swapchainsLengths h) (m_swapchainsImages h) (m_lastFrameRefreshReport h) (m_currentFrameRefreshReport h) (m_idleCallback h) (m_visibleCallback h) (m_focusedCallback h).

Section Teardown.

Variable rt : Runtime.

(** [terminate]: closes a running session, then destroys the instance if
    there is one. *)
Definition terminate (fuel : nat) (w : World) : option (bool * World) :=
  match (if isSessionRunning (self w)
         then option_map snd (closeSession rt fuel w)
         else Some w) with
  | None => None
  | Some w1 =>
      (* Even if session failed to close, try to destroy the instance *)
      if negb (m_instance (self w1) =? XR_NULL_HANDLE) then
        let (ok, w2) :=
          (rep <- call rt xrDestroyInstance ;;
           xrCheck (r_result rep) "Failed to destroy instance!") w1 in
        if negb ok then
          Some (false, snd (modify (set_status FAILURE) w2))
        else
          Some (true, snd (modify (set_instance XR_NULL_HANDLE) w2))
      else Some (true, w1)
  end.

(** [~OpenXRHMD]: [closeSession(); terminate();] *)
Definition destructor (fuel : nat) (w : World) : option World :=
  match closeSession rt fuel w with
  | None => None
  | Some (_, w1) => option_map snd (terminate fuel w1)
  end.

End Teardown.


(** [m] only appends effects that satisfy [q]. *)
Definition only (q : Effect -> bool) {A} (m : M A) : Prop :=
  extends (fun t => forallb q t = true) m.

Definition not_exit_request (e : Effect) : bool := negb (is_xrRequestExitSession e).


(** A clean shutdown followed by the destruction of the instance. *)
Definition rt_clean_teardown : Runtime :=
  rt_script [reply_of XR_SUCCESS;
             reply_event (XR_TYPE_EVENT_DATA_SESSION_STATE_CHANGED XR_SESSION_STATE_STOPPING);
             reply_of XR_SUCCESS;
             reply_event (XR_TYPE_EVENT_DATA_SESSION_STATE_CHANGED XR_SESSION_STATE_IDLE);
             reply_event (XR_TYPE_EVENT_DATA_SESSION_STATE_CHANGED XR_SESSION_STATE_EXITING);
             reply_of XR_SUCCESS;
             reply_of XR_SUCCESS].


(** Observations on the effects of a frame submission. *)
Definition is_acquire (e : Effect) : bool :=
  match e with Call (xrAcquireSwapchainImage _) _ => true | _ => false end.
Definition is_release (e : Effect) : bool :=
  match e with Call (xrReleaseSwapchainImage _) _ => true | _ => false end.

(** The view indices the render callback was invoked with, in order. *)
Fixpoint rendered (t : list Effect) : list Z :=
  match t with
  | nil => nil
  | RenderFunc i _ :: rest => i :: rendered rest
  | _ :: rest => rendered rest
  end.

(** A begin-frame or end-frame call of the trace that failed makes this
    false; no other effect does. *)
Definition frame_call_ok (e : Effect) : bool :=
  match e with
  | Call xrBeginFrame r | Call (xrEndFrame _ _) r => XR_SUCCEEDED r
  | _ => true
  end.

(** The view indices [i], [i + 1], ... of [k] consecutive views. *)
Definition view_indices (i : Z) (k : nat) : list Z :=
  map (fun j => i + Z.of_nat j) (seq 0 k).

(** A well-formed accumulating window: fewer than 100 frames, and no more
    missed frames than frames. *)
Definition window_ok (r : FrameRefreshReport) : Prop :=
  0 <= nbMissedFrames r <= totalRenderedFrames r /\ totalRenderedFrames r < 100.


(** Observations on the creation of the swapchains. *)
Definition is_xrCreateSwapchain (e : Effect) : bool :=
  match e with Call (xrCreateSwapchain _ _ _) _ => true | _ => false end.

(** Any swapchain that [e] asks for has the format [f], the width [x] and the
    height [y]. *)
Definition is_create_with (f x y : Z) (e : Effect) : bool :=
  match e with
  | Call (xrCreateSwapchain f' x' y') _ => (f' =? f) && (x' =? x) && (y' =? y)
  | _ => true
  end.

(** The formats a reply to [xrEnumerateSwapchainFormats] announces: the
    first [r_count] entries of the array it filled. *)
Definition supported_formats (rep : Reply) : list Z :=
  firstn (Z.to_nat (wrap32 (r_count rep))) (r_list rep).


(** [getHVFieldOfView(unit)]: the horizontal and the vertical extent of the
    left view. *)
Definition getHVFieldOfView (unit : AngleUnit) : M Vector2f :=
  h <- get (fun h => h) ;;
  if m_viewCount h <? 2 then
    print STDERR "No view exists" ;; ret Vector2f_Zero
  else
    (* Compute vertical and horizontal fov *)
    let viewIndex := eyeToViewIndex LEFT in
    let f := fov (views_at h viewIndex) in
    let hvFov := {| x2 := F32.sub (angleRight f) (angleLeft f);
                    y2 := F32.sub (angleUp f) (angleDown f) |} in
    ret (match unit with
         | RADIAN => hvFov
         | DEGREE => {| x2 := radianToDegree (x2 hvFov); y2 := radianToDegree (y2 hvFov) |}
         end).

(** A session that located one view only. *)
Definition hmd_one_view : OpenXRHMD := set_viewCount 1 hmd_symmetric.


(* ================================================================== *)
(** ** The render-target pool of OpenXRRdrMode *)

(** [int] (the key type of [m_RTPool]): two's complement on 32 bits. *)
Definition wrap_int (z : Z) : Z := (z + 2 ^ 31) mod 2 ^ 32 - 2 ^ 31.

(** SwapchainImageRenderTarget.hpp: the members of a render target. *)
Record SwapchainImageRenderTarget := {
  m_fbo : Z;
  m_texture : Z;
  m_W : Z;
  m_H : Z
}.

(** The OpenGL calls of SwapchainImageRenderTarget.cpp. *)
Inductive GLCall :=
| glGenFramebuffers (fbo : Z)
| glBindFramebuffer (fbo : Z)
| glFramebufferTexture2D (texture : Z)
| glDeleteFramebuffers (fbo : Z).

(** The part of an [OpenXRRdrMode] the pool lives in: [m_RTPool] as the list
    of its (key, target) pairs (a [std::map] holds one pair per key; its
    order is not observed by [find] and [insert]), and the OpenGL calls made
    so far, latest last. *)
Record OpenXRRdrMode := {
  m_RTPool : list (Z * SwapchainImageRenderTarget);
  gl_calls : list GLCall
}.

Definition is_glGenFramebuffers (c : GLCall) : bool :=
  match c with glGenFramebuffers _ => true | _ => false end.

(** [m.find(key)]: the target stored under [key], if any. *)
Definition map_find (key : Z) (m : list (Z * SwapchainImageRenderTarget))
  : option SwapchainImageRenderTarget :=
  option_map snd (find (fun p => fst p =? key) m).

(** [m.insert({key, v})]: the map, the element now stored under [key], and
    whether the insertion took place. *)
Definition map_insert (key : Z) (v : SwapchainImageRenderTarget)
    (m : list (Z * SwapchainImageRenderTarget))
  : list (Z * SwapchainImageRenderTarget) * SwapchainImageRenderTarget * bool :=
  match map_find key m with
  | Some old => (m, old, false)
  | None => ((key, v) :: m, v, true)
  end.

Section Pool.

(** The name OpenGL hands out at its [n]-th [glGenFramebuffers]. *)
Variable genFramebuffer : nat -> Z.

(** The constructor [SwapchainImageRenderTarget(texture, w, h)]. *)
Definition new_SwapchainImageRenderTarget (texture w h : Z) (gl : list GLCall)
  : SwapchainImageRenderTarget * list GLCall :=
  let fbo := genFramebuffer (List.length (filter is_glGenFramebuffers gl)) in
  ({| m_fbo := fbo; m_texture := wrap32 texture; m_W := wrap32 w; m_H := wrap32 h |},
   gl ++ [glGenFramebuffers fbo; glBindFramebuffer fbo;
          glFramebufferTexture2D (wrap32 texture); glBindFramebuffer 0])%list.

(** [getRenderTarget(texture, w, h)]; [None] is the empty pointer. *)
Definition getRenderTarget (texture w h : Z) (s : OpenXRRdrMode)
  : option SwapchainImageRenderTarget * OpenXRRdrMode :=
  match map_find (wrap_int texture) (m_RTPool s) with
  | Some found => (Some found, s)
  | None =>
      let (newRt, gl) := new_SwapchainImageRenderTarget texture w h (gl_calls s) in
      match map_insert (wrap_int texture) newRt (m_RTPool s) with
      | (pool, stored, true) => (Some stored, {| m_RTPool := pool; gl_calls := gl |})
      | (pool, _, false) =>
          (* the rejected target is destroyed with the pair that held it *)
          (None, {| m_RTPool := pool;
                    gl_calls := (gl ++ [glDeleteFramebuffers (m_fbo newRt)])%list |})
      end
  end.

(** The targets asked for one after the other. *)
Fixpoint getRenderTargets (requests : list (Z * Z * Z)) (s : OpenXRRdrMode) : OpenXRRdrMode :=
  match requests with
  | nil => s
  | (texture, w, h) :: rest => getRenderTargets rest (snd (getRenderTarget texture w h s))
  end.

End Pool.

(** Every target of the pool is stored under its own texture, and one
    framebuffer has been generated for each of them. *)
Definition pool_ok (s : OpenXRRdrMode) : Prop :=
  NoDup (map fst (m_RTPool s))
  /\ Forall (fun p => fst p = wrap_int (m_texture (snd p))
                      /\ 0 <= m_texture (snd p) < 2 ^ 32) (m_RTPool s)
  /\ List.length (m_RTPool s) = List.length (filter is_glGenFramebuffers (gl_calls s)).

(** The pool before the first frame. *)
Definition pool_empty : OpenXRRdrMode := {| m_RTPool := nil; gl_calls := nil |}.


(** Observation and runtime for the loss of the instance. *)
Definition is_xrDestroyInstance (e : Effect) : bool :=
  match e with Call xrDestroyInstance _ => true | _ => false end.

(** The runtime announces the loss of the instance, then lets every
    destruction succeed. *)
Definition rt_instance_loss : Runtime :=
  rt_script [reply_event (XR_TYPE_EVENT_DATA_INSTANCE_LOSS_PENDING XR_SESSION_STATE_UNKNOWN);
             reply_of XR_SUCCESS; reply_of XR_SUCCESS; reply_of XR_SUCCESS].


(** A runtime that has no event to report: every call returns
    [XR_EVENT_UNAVAILABLE], a success code. *)
Definition rt_no_event : Runtime := fun _ => reply_of XR_EVENT_UNAVAILABLE.


(** The requests that move the session from one state to the next. *)
Definition is_session_request (e : Effect) : bool :=
  match e with
  | Call xrBeginSession _ | Call xrEndSession _ | Call xrDestroySession _ => true
  | _ => false
  end.


(* ---------------------------------------------------------------- *)
(** *** A run against the runtime's replies *)

(** The replies the calls of a trace received: in a run that starts at tick
    [t0], the [k]-th call is answered by [rt (t0 + k)]. *)
Fixpoint answered (rt : Runtime) (t0 : nat) (t : list Effect) : list (XrCall * Reply) :=
  match t with
  | nil => nil
  | Call c _ :: rest => (c, rt t0) :: answered rt (S t0) rest
  | _ :: rest => answered rt t0 rest
  end.

(** Every result the trace records is the result of the runtime's reply. *)
Fixpoint recorded (rt : Runtime) (t0 : nat) (t : list Effect) : bool :=
  match t with
  | nil => true
  | Call _ r :: rest => (r =? r_result (rt t0)) && recorded rt (S t0) rest
  | _ :: rest => recorded rt t0 rest
  end.

Definition locates_views (c : XrCall) : bool :=
  match c with xrLocateViews _ _ => true | _ => false end.
Definition is_xrDestroySession (e : Effect) : bool :=
  match e with Call xrDestroySession _ => true | _ => false end.


(** The view counts the runtime returned to [xrLocateViews], as stored in a
    [uint32_t]. *)
Definition located (a : list (XrCall * Reply)) : list Z :=
  map (fun cr => wrap32 (r_count (snd cr))) (filter (fun cr => locates_views (fst cr)) a).





(** [w'] follows [w] in a run against [rt]: the trace has grown by the
    effects [t], one tick per call; every result recorded is the runtime's;
    the view count is the last one the runtime returned to [xrLocateViews],
    if any; and the session handle is kept unless the session was destroyed. *)
Definition follows (rt : Runtime) (w w' : World) : Prop :=
  exists t,
    trace w' = (trace w ++ t)%list
    /\ tick w' = (tick w + count is_call t)%nat
    /\ recorded rt (tick w) t = true
    /\ m_viewCount (self w') = last (located (answered rt (tick w) t)) (m_viewCount (self w))
    /\ (count is_xrDestroySession t = 0%nat -> m_session (self w') = m_session (self w)).

Definition tracked (rt : Runtime) {A} (m : M A) : Prop :=
  forall w, follows rt w (snd (m w)).





(* ================================================================== *)
(** ** Session status *)

Lemma SessionStatus_eqb_eq a b : SessionStatus_eqb a b = true <-> a = b.
Proof. destruct a, b; simpl; split; intro H; try reflexivity; discriminate H. Qed.

Lemma SessionStatus_eqb_refl a : SessionStatus_eqb a a = true.
Proof. destruct a; reflexivity. Qed.

Lemma isSessionRunning_false h :
  isSessionRunning h = false <-> m_status h = FAILURE \/ m_status h = STOPPED.
Proof.
  unfold isSessionRunning.
  destruct (m_status h); simpl; split; intro H;
    solve [ reflexivity | discriminate H | left; reflexivity | right; reflexivity
          | destruct H as [H | H]; discriminate H ].
Qed.

(** What one event does to a status that is FAILURE. *)
Lemma updateCurrentSessionState_from_FAILURE rt state w :
  m_status (self w) = FAILURE ->
  let w' := snd (updateCurrentSessionState rt state w) in
  m_status (self w') =
    match state with
    | XR_SESSION_STATE_UNKNOWN | XR_SESSION_STATE_MAX_ENUM
    | XR_SESSION_STATE_VISIBLE | XR_SESSION_STATE_FOCUSED => FAILURE
    | XR_SESSION_STATE_IDLE => IDLE
    | XR_SESSION_STATE_SYNCHRONIZED => SYNCHRONIZED
    | XR_SESSION_STATE_READY =>
        if XR_SUCCEEDED (r_result (rt (tick w))) then BEGINNING else FAILURE
    | XR_SESSION_STATE_STOPPING =>
        if XR_SUCCEEDED (r_result (rt (tick w))) then ENDING else FAILURE
    | XR_SESSION_STATE_LOSS_PENDING | XR_SESSION_STATE_EXITING =>
        if XR_SUCCEEDED (r_result (rt (tick w))) then STOPPED else FAILURE
    end
  /\ tick w' =
     match state with
     | XR_SESSION_STATE_READY | XR_SESSION_STATE_STOPPING
     | XR_SESSION_STATE_LOSS_PENDING | XR_SESSION_STATE_EXITING => S (tick w)
     | _ => tick w
     end.
Proof.
  intros Hs. destruct w as [h t tr]; simpl in Hs.
  destruct state; cbn;
    try (destruct (m_idleCallback h); cbn; auto; fail);
    try (destruct (m_focusedCallback h); cbn; auto; fail);
    try (destruct (m_visibleCallback h); cbn; auto; fail);
    rewrite ?Hs; cbn;
    unfold xrCheck; destruct (XR_SUCCEEDED (r_result (rt t))); cbn; auto.
Qed.

(** C8: [setResolution] called while a session is running keeps the stored
    resolution (the accessor returns the value from before the call), writes a
    warning and has no result to report (it returns [void]); called while no
    session is running it stores the new value. *)
Theorem setResolution_only_when_not_running (resolution : Vector2i) (w : World) :
  let r := setResolution resolution w in
  fst r = tt
  /\ getResolution (self (snd r)) =
     (if isSessionRunning (self w) then getResolution (self w) else resolution)
  /\ trace (snd r) =
     (if isSessionRunning (self w)
      then trace w ++ [Print SIBR_WRG "Cannot change the resolution: XR session is already running."]
      else trace w)%list.
Proof.
  unfold setResolution, bind, get. cbn.
  destruct (isSessionRunning (self w)); cbn; auto.
Qed.

(** C1 (amended): a status that is FAILURE stays FAILURE across every sequence
    of state changes made of UNKNOWN, MAX_ENUM, VISIBLE and FOCUSED events and
    of READY, STOPPING, LOSS_PENDING and EXITING events whose runtime call
    fails; and [isSessionRunning] is false exactly when the status is FAILURE
    or STOPPED. *)
Theorem failure_kept_by_preserving_events (rt : Runtime) (events : list XrSessionState) (w : World) :
  m_status (self w) = FAILURE ->
  failure_preserving rt events (tick w) = true ->
  m_status (self (snd (process_events rt events w))) = FAILURE
  /\ isSessionRunning (self (snd (process_events rt events w))) = false
  /\ (forall h, m_status h = FAILURE \/ m_status h = STOPPED -> isSessionRunning h = false).
Proof.
  intros Hs Hp.
  assert (Hfin : m_status (self (snd (process_events rt events w))) = FAILURE).
  { revert w Hs Hp. induction events as [| state rest IH]; intros w Hs Hp.
    - exact Hs.
    - cbn [process_events]. unfold bind at 1.
      pose proof (updateCurrentSessionState_from_FAILURE rt state w Hs) as Hstep.
      destruct (updateCurrentSessionState rt state w) as [u w1]. cbn in Hstep.
      destruct Hstep as [Hst Htk].
      apply IH.
      + rewrite Hst. destruct state; cbn in Hp; try discriminate Hp; try reflexivity;
          apply andb_prop in Hp; destruct Hp as [Hf _];
          apply negb_true_iff in Hf; rewrite Hf; reflexivity.
      + rewrite Htk. destruct state; cbn in Hp; try discriminate Hp; try exact Hp;
          apply andb_prop in Hp; destruct Hp as [_ Hr]; exact Hr. }
  split; [exact Hfin |]. split.
  - apply isSessionRunning_false. left. exact Hfin.
  - intros h H. apply isSessionRunning_false. exact H.
Qed.

Lemma failure_kept_by_preserving_events_witness :
  let events := [XR_SESSION_STATE_VISIBLE; XR_SESSION_STATE_READY; XR_SESSION_STATE_EXITING] in
  m_status (self w_failed) = FAILURE
  /\ failure_preserving rt_fail events (tick w_failed) = true
  /\ m_status (self (snd (process_events rt_fail events w_failed))) = FAILURE.
Proof.
  cbv zeta. split; [reflexivity |]. split; [reflexivity |].
  exact (proj1 (failure_kept_by_preserving_events rt_fail
                  [XR_SESSION_STATE_VISIBLE; XR_SESSION_STATE_READY; XR_SESSION_STATE_EXITING]
                  w_failed eq_refl eq_refl)).
Defined.

(** C1 as stated fails: an IDLE state change handed to
    [updateCurrentSessionState] while the status is FAILURE replaces it by
    IDLE, and the session counts as running again. *)
Lemma failure_left_by_idle_event :
  let w' := snd (process_events rt_ok [XR_SESSION_STATE_IDLE] w_failed) in
  m_status (self w_failed) = FAILURE
  /\ m_status (self w') = IDLE
  /\ m_status (self w') <> FAILURE
  /\ isSessionRunning (self w') = true.
Proof.
  cbv zeta. split; [reflexivity |]. split; [reflexivity |].
  split; [discriminate | reflexivity].
Qed.

(* ================================================================== *)
(** ** Frame submission *)

Lemma count_app p (a b : list Effect) : count p (a ++ b) = (count p a + count p b)%nat.
Proof. unfold count. rewrite filter_app, length_app. reflexivity. Qed.

Lemma stops_at_failure_app (a b : list Effect) :
  stops_at_failure a = true ->
  forallb (fun e => negb (is_view_effect e)) b = true ->
  stops_at_failure (a ++ b) = true.
Proof.
  induction a as [| e a IH]; simpl; intros Ha Hb.
  - induction b as [| e b IHb]; simpl in *; [reflexivity |].
    apply andb_prop in Hb. destruct Hb as [He Hb].
    destruct e as [c r | | | | |]; simpl in *; try (apply IHb; exact Hb);
      destruct c; simpl in *; try discriminate He; apply IHb; exact Hb.
  - destruct (is_failed_view_call e).
    + rewrite forallb_app, Ha, Hb. reflexivity.
    + apply IH; assumption.
Qed.

Ltac step_monad :=
  unfold bind, call, xrCheck, get, modify, modify_current, emit, print, when, ret; cbn.

(** The empty frame: one begin-frame, and one end-frame when it succeeded. *)
Lemma submitFrame_trace rt w :
  exists tr,
    trace (snd (submitFrame rt w)) = (trace w ++ Call xrBeginFrame (r_result (rt (tick w))) :: tr)%list
    /\ count is_xrBeginFrame tr = 0%nat
    /\ count is_xrEndFrame tr = (if XR_SUCCEEDED (r_result (rt (tick w))) then 1 else 0)%nat
    /\ forallb (fun e => negb (is_view_effect e)) tr = true.
Proof.
  destruct w as [h t tr0]. unfold submitFrame. step_monad.
  destruct (XR_SUCCEEDED (r_result (rt t))); cbn.
  - destruct (XR_SUCCEEDED (r_result (rt (S t)))); cbn;
      eexists; (split; [rewrite <- ?app_assoc; cbn; reflexivity |]); cbn; auto.
  - eexists; (split; [rewrite <- ?app_assoc; cbn; reflexivity |]); cbn; auto.
Qed.

Lemma updateRefreshReport_trace rt w :
  exists tr,
    trace (snd (updateRefreshReport rt w)) = (trace w ++ tr)%list
    /\ count is_xrBeginFrame tr = 0%nat
    /\ count is_xrEndFrame tr = 0%nat
    /\ forallb (fun e => negb (is_view_effect e)) tr = true.
Proof.
  destruct w as [h t tr0]. unfold updateRefreshReport. step_monad.
  destruct (int64_sub _ _ <? 0); cbn;
    match goal with |- context [if ?c then _ else _] => destruct c end; cbn;
    eexists; (split; [rewrite <- ?app_assoc; cbn; reflexivity |]); cbn; auto.
Qed.

(** The per-view loop issues no begin-frame and no end-frame, and nothing of
    a later view once a call has failed. *)
Lemma render_views_trace rt n : forall i w,
  exists tr,
    trace (snd (render_views rt n i w)) = (trace w ++ tr)%list
    /\ count is_xrBeginFrame tr = 0%nat
    /\ count is_xrEndFrame tr = 0%nat
    /\ stops_at_failure tr = true.
Proof.
  induction n as [| n IH]; intros i w.
  - exists nil. cbn. rewrite app_nil_r. auto.
  - destruct w as [h t tr0]. cbn [render_views]. step_monad.
    destruct (XR_SUCCEEDED (r_result (rt t))) eqn:E0; cbn.
    2:{ eexists; (split; [rewrite <- ?app_assoc; cbn; reflexivity |]); cbn; rewrite ?E0; cbn; auto. }
    destruct (XR_SUCCEEDED (r_result (rt (S t)))) eqn:E1; cbn.
    2:{ eexists; (split; [rewrite <- ?app_assoc; cbn; reflexivity |]); cbn; rewrite ?E0, ?E1; cbn; auto. }
    destruct (XR_SUCCEEDED (r_result (rt (S (S t))))) eqn:E2; cbn.
    2:{ eexists; (split; [rewrite <- ?app_assoc; cbn; reflexivity |]); cbn; rewrite ?E0, ?E1, ?E2; cbn; auto. }
    match goal with |- context [render_views rt n ?j ?w1] =>
      destruct (IH j w1) as (tr & Htr & Hb & He & Hs) end.
    rewrite Htr. cbn.
    eexists; (split; [rewrite <- ?app_assoc; cbn; reflexivity |]).
    cbn. rewrite ?E0, ?E1, ?E2. cbn. auto.
Qed.

(** C2: when the begin-frame call of [submitFrame(renderFunc)] (the first
    external call it makes) succeeds, the method issues exactly one begin-frame
    and exactly one end-frame before it returns; a failed acquire, wait or
    release ends the per-view loop (nothing of a later view follows it) and the
    end-frame is still issued. *)
Theorem begin_frame_paired_with_one_end_frame (rt : Runtime) (w : World) :
  XR_SUCCEEDED (r_result (rt (tick w))) = true ->
  exists tr,
    trace (snd (submitFrame_RenderFunc rt w))
    = (trace w ++ Call xrBeginFrame (r_result (rt (tick w))) :: tr)%list
    /\ count is_xrBeginFrame tr = 0%nat
    /\ count is_xrEndFrame tr = 1%nat
    /\ stops_at_failure tr = true.
Proof.
  intros Hbegin. unfold submitFrame_RenderFunc. unfold bind at 1, get at 1.
  destruct (shouldRender (self w)); cbn [negb].
  - (* rendering *)
    destruct w as [h t tr0]. cbn [tick] in Hbegin.
    unfold bind at 1, call at 1. cbn [self tick trace].
    unfold bind at 1, xrCheck at 1. rewrite Hbegin. unfold ret at 1. cbn [negb].
    unfold bind at 1, get at 1. cbn [self]. unfold bind at 1.
    match goal with |- context [render_views rt ?n ?i ?w0] =>
      destruct (render_views_trace rt n i w0) as (t1 & H1 & B1 & E1 & S1);
      destruct (render_views rt n i w0) as [u1 w1] end.
    cbn [snd trace] in H1.
    unfold bind at 1.
    destruct (updateRefreshReport_trace rt w1) as (t2 & H2 & B2 & E2 & S2).
    destruct (updateRefreshReport rt w1) as [u2 w2]. cbn [snd] in H2.
    destruct w2 as [h2 k2 tr2]. cbn [trace] in H2. subst tr2.
    step_monad.
    destruct (XR_SUCCEEDED (r_result (rt k2))); cbn; rewrite H1;
      [ exists (t1 ++ t2 ++ [Call (xrEndFrame (predictedDisplayTime (m_lastFrameState h2)) 1)
                                  (r_result (rt k2))])%list
      | exists (t1 ++ t2 ++ [Call (xrEndFrame (predictedDisplayTime (m_lastFrameState h2)) 1)
                                  (r_result (rt k2));
                             Print STDOUT "failed to end frame!"])%list ];
      (split; [rewrite <- ?app_assoc; cbn; reflexivity |]);
      rewrite !count_app, B1, B2, E1, E2; cbn; (repeat split; try reflexivity);
      (apply stops_at_failure_app; [assumption | rewrite forallb_app, S2; reflexivity]).
  - (* no rendering required: the empty frame *)
    unfold bind at 1.
    destruct (submitFrame_trace rt w) as (t1 & H1 & B1 & E1 & S1).
    destruct (submitFrame rt w) as [b w1]. cbn [snd] in *. unfold ret.
    exists t1. rewrite Hbegin in E1. repeat split; try assumption.
    apply (stops_at_failure_app nil t1); [reflexivity | assumption].
Qed.

Example submitFrame_RenderFunc_wait_fails :
  submitFrame_RenderFunc rt_wait_fails (world_of hmd_running)
  = (true,
     {| self := set_currentFrameRefreshReport
                  {| nbMissedFrames := 0; totalRenderedFrames := 1;
                     expectedFramerate := S754_finite false 11796480 (-17);
                     measuredFramerate := F32.zero; firstFrameTimestamp := 0 |} hmd_running;
        tick := 5;
        trace := [Call xrBeginFrame 0; Call (xrAcquireSwapchainImage 11) 0;
                  Call (xrWaitSwapchainImage 11) (-2);
                  Print STDOUT "failed to wait for swapchain image!";
                  Call xrConvertTimespecTimeToTimeKHR 0; Call (xrEndFrame 5000 1) 0] |}).
Proof. vm_compute. reflexivity. Qed.

Lemma begin_frame_paired_with_one_end_frame_witness :
  XR_SUCCEEDED (r_result (rt_wait_fails (tick (world_of hmd_running)))) = true
  /\ exists tr,
       trace (snd (submitFrame_RenderFunc rt_wait_fails (world_of hmd_running)))
       = (trace (world_of hmd_running)
          ++ Call xrBeginFrame (r_result (rt_wait_fails (tick (world_of hmd_running)))) :: tr)%list
       /\ count is_xrBeginFrame tr = 0%nat
       /\ count is_xrEndFrame tr = 1%nat
       /\ stops_at_failure tr = true.
Proof.
  split; [reflexivity |].
  apply (begin_frame_paired_with_one_end_frame rt_wait_fails (world_of hmd_running)).
  reflexivity.
Defined.

(** C10: when [shouldRender()] is false, [submitFrame(renderFunc)] never
    invokes the render callback, does what the empty [submitFrame()] does, and
    returns true whatever the begin-frame and end-frame calls of that empty
    submission return. *)
Theorem submitFrame_without_rendering (rt : Runtime) (w : World) :
  shouldRender (self w) = false ->
  submitFrame_RenderFunc rt w = (true, snd (submitFrame rt w))
  /\ exists tr,
       trace (snd (submitFrame_RenderFunc rt w))
       = (trace w ++ Call xrBeginFrame (r_result (rt (tick w))) :: tr)%list
       /\ forallb (fun e => negb (is_view_effect e)) tr = true
       /\ count is_xrBeginFrame tr = 0%nat
       /\ count is_xrEndFrame tr = (if XR_SUCCEEDED (r_result (rt (tick w))) then 1 else 0)%nat.
Proof.
  intros Hr.
  assert (Heq : submitFrame_RenderFunc rt w = (true, snd (submitFrame rt w))).
  { unfold submitFrame_RenderFunc. unfold bind at 1, get at 1. rewrite Hr. cbn [negb].
    unfold bind at 1. destruct (submitFrame rt w) as [b w1]. reflexivity. }
  split; [exact Heq |].
  rewrite Heq. cbn [snd].
  destruct (submitFrame_trace rt w) as (tr & H1 & B1 & E1 & S1).
  exists tr. repeat split; assumption.
Qed.

Lemma submitFrame_without_rendering_witness :
  shouldRender (self (world_of hmd_no_render)) = false
  /\ submitFrame_RenderFunc rt_fail (world_of hmd_no_render)
     = (true, snd (submitFrame rt_fail (world_of hmd_no_render)))
  /\ fst (submitFrame rt_fail (world_of hmd_no_render)) = false.
Proof.
  split; [reflexivity |]. split; [| reflexivity].
  exact (proj1 (submitFrame_without_rendering rt_fail (world_of hmd_no_render) eq_refl)).
Defined.

(* ================================================================== *)
(** ** Refresh report *)

Lemma int64_sub_neg (a b : Z) :
  - 2 ^ 62 <= a < 2 ^ 62 -> - 2 ^ 62 <= b < 2 ^ 62 ->
  (int64_sub a b <? 0) = (a <? b).
Proof.
  intros Ha Hb. unfold int64_sub, wrap64.
  rewrite Z.mod_small by lia.
  destruct (Z.ltb_spec a b); [apply Z.ltb_lt | apply Z.ltb_ge]; lia.
Qed.

(** One call of [updateRefreshReport]: the frame is counted, and the window is
    published and restarted when that makes 100 frames. *)
Lemma updateRefreshReport_spec rt w :
  let w' := snd (updateRefreshReport rt w) in
  let c := counted (r_time (rt (tick w))) (m_lastFrameState (self w))
                   (m_currentFrameRefreshReport (self w)) in
  m_lastFrameState (self w') = m_lastFrameState (self w)
  /\ if totalRenderedFrames c =? 100 then
       m_lastFrameRefreshReport (self w')
       = report_measured
           (F32.div (F32.mul (F32.of_Z 1000) (F32.of_Z (totalRenderedFrames c)))
                    (F32.of_Z (elapsed_ms (r_time (rt (S (tick w)))) (firstFrameTimestamp c)))) c
       /\ m_currentFrameRefreshReport (self w')
          = {| nbMissedFrames := 0; totalRenderedFrames := 0;
               expectedFramerate := F32.zero; measuredFramerate := F32.zero;
               firstFrameTimestamp := r_time (rt (S (S (tick w)))) |}
       /\ tick w' = S (S (S (tick w)))
     else
       m_currentFrameRefreshReport (self w') = c
       /\ m_lastFrameRefreshReport (self w') = m_lastFrameRefreshReport (self w)
       /\ tick w' = S (tick w).
Proof.
  destruct w as [h t tr]. unfold updateRefreshReport, counted. step_monad.
  destruct (int64_sub _ _ <? 0); cbn;
    match goal with |- context [if ?c then _ else _] => destruct c end; cbn; auto.
Qed.

Lemma render_views_frame rt n : forall i w,
  let w' := snd (render_views rt n i w) in
  m_lastFrameState (self w') = m_lastFrameState (self w) /\ reports w' = reports w.
Proof.
  induction n as [| n IH]; intros i w; [split; reflexivity |].
  destruct w as [h t tr]. cbn [render_views]. step_monad.
  destruct (XR_SUCCEEDED (r_result (rt t))); cbn; [| split; reflexivity].
  destruct (XR_SUCCEEDED (r_result (rt (S t)))); cbn; [| split; reflexivity].
  destruct (XR_SUCCEEDED (r_result (rt (S (S t))))); cbn; [| split; reflexivity].
  match goal with |- context [render_views rt n ?j ?w1] =>
    destruct (IH j w1) as [H1 H2] end.
  cbn zeta in H1, H2. rewrite H1, H2. split; reflexivity.
Qed.

Lemma submitFrame_reports rt w : reports (snd (submitFrame rt w)) = reports w.
Proof.
  destruct w as [h t tr]. unfold submitFrame. step_monad.
  destruct (XR_SUCCEEDED (r_result (rt t))); cbn; [| reflexivity].
  destruct (XR_SUCCEEDED (r_result (rt (S t)))); reflexivity.
Qed.

Lemma submitFrame_RenderFunc_reports rt w :
  shouldRender (self w) = true ->
  XR_SUCCEEDED (r_result (rt (tick w))) = true ->
  exists w1,
    m_lastFrameState (self w1) = m_lastFrameState (self w)
    /\ reports w1 = reports w
    /\ reports (snd (submitFrame_RenderFunc rt w)) = reports (snd (updateRefreshReport rt w1)).
Proof.
  intros Hr Hbegin. unfold submitFrame_RenderFunc. unfold bind at 1, get at 1.
  rewrite Hr. cbn [negb].
  destruct w as [h t tr]. cbn [tick self] in *.
  unfold bind at 1, call at 1. cbn [self tick trace].
  unfold bind at 1, xrCheck at 1. rewrite Hbegin. unfold ret at 1. cbn [negb].
  unfold bind at 1, get at 1. cbn [self]. unfold bind at 1.
  match goal with |- context [render_views rt ?n ?i ?w0] =>
    destruct (render_views_frame rt n i w0) as [F1 F2];
    destruct (render_views rt n i w0) as [u1 w1] end.
  cbn [snd self] in F1, F2.
  exists w1. split; [exact F1 |]. split; [exact F2 |].
  unfold bind at 1.
  destruct (updateRefreshReport rt w1) as [u2 [h2 k2 tr2]].
  step_monad. destruct (XR_SUCCEEDED (r_result (rt k2))); reflexivity.
Qed.

(** C5 (amended): the report is updated by the rendering cycles only.  A call
    of [submitFrame(renderFunc)] made while [shouldRender()] is true and whose
    begin-frame call succeeds counts the frame once: one more total frame, one
    more missed frame when [predictedDisplayTime - now] is negative (the
    predicted time lies before [now]), and the expected rate set to
    1e9 / predictedDisplayPeriod; when that makes 100 frames the window is
    published and restarted.  The empty [submitFrame()], a call made while
    [shouldRender()] is false and a call whose begin-frame fails leave both
    reports as they are. *)
Theorem refresh_report_counts_rendered_frames (rt : Runtime) (w : World) :
  let w' := snd (submitFrame_RenderFunc rt w) in
  reports (snd (submitFrame rt w)) = reports w
  /\ (shouldRender (self w) = false \/ XR_SUCCEEDED (r_result (rt (tick w))) = false ->
      reports w' = reports w)
  /\ (shouldRender (self w) = true -> XR_SUCCEEDED (r_result (rt (tick w))) = true ->
      rendered_frame_counted rt w).
Proof.
  cbv zeta. split; [apply submitFrame_reports |]. split.
  - intros H. unfold submitFrame_RenderFunc. unfold bind at 1, get at 1.
    destruct (shouldRender (self w)) eqn:Hr; cbn [negb].
    + destruct H as [H | H]; [discriminate H |].
      destruct w as [h t tr]. cbn [tick] in H. step_monad. rewrite H. reflexivity.
    + unfold bind at 1. pose proof (submitFrame_reports rt w) as Hs.
      destruct (submitFrame rt w) as [b w1]. exact Hs.
  - intros Hr Hbegin. unfold rendered_frame_counted.
    destruct (submitFrame_RenderFunc_reports rt w Hr Hbegin) as (w1 & F1 & F2 & F3).
    unfold reports in F2, F3. injection F2 as Fc Fl. injection F3 as Gc Gl.
    rewrite Gc, Gl.
    pose proof (updateRefreshReport_spec rt w1) as Hu. cbv zeta in Hu.
    rewrite F1, Fc, Fl in Hu. destruct Hu as [_ Hu].
    exists (tick w1). split; [reflexivity |].
    split; [intros Ha Hb; cbn [counted nbMissedFrames]; rewrite int64_sub_neg by assumption; reflexivity |].
    split; [reflexivity |].
    destruct (totalRenderedFrames (counted _ _ _) =? 100) eqn:E100.
    + destruct Hu as (H1 & H2 & _). apply Z.eqb_eq in E100.
      rewrite H1, H2, E100. split; reflexivity.
    + destruct Hu as (H1 & H2 & _). split; assumption.
Qed.

Lemma refresh_report_counts_rendered_frames_witness :
  shouldRender (self (world_of hmd_running)) = true
  /\ XR_SUCCEEDED (r_result (rt_ok (tick (world_of hmd_running)))) = true
  /\ rendered_frame_counted rt_ok (world_of hmd_running).
Proof.
  split; [reflexivity |]. split; [reflexivity |].
  exact (proj2 (proj2 (refresh_report_counts_rendered_frames rt_ok (world_of hmd_running)))
               eq_refl eq_refl).
Defined.

(** C5 as stated fails for the empty submission: [submitFrame()] succeeds and
    the accumulating report still shows no frame and no expected rate. *)
Lemma empty_submitFrame_not_counted :
  let w := world_of hmd_running in
  let w' := snd (submitFrame rt_ok w) in
  fst (submitFrame rt_ok w) = true
  /\ totalRenderedFrames (m_currentFrameRefreshReport (self w)) = 0
  /\ totalRenderedFrames (m_currentFrameRefreshReport (self w')) = 0
  /\ expectedFramerate (m_currentFrameRefreshReport (self w')) = F32.zero
  /\ F32.div (F32.of_Z 1000000000) (F32.of_Z (predictedDisplayPeriod (m_lastFrameState (self w))))
     = S754_finite false 11796480 (-17).
Proof. cbv zeta. repeat split; vm_compute; reflexivity. Qed.

Lemma refresh_cycles_S rt n w :
  snd (refresh_cycles rt (S n) w) = snd (refresh_cycles rt n (snd (updateRefreshReport rt w))).
Proof.
  cbn [refresh_cycles]. unfold bind.
  destruct (updateRefreshReport rt w) as [u w1]. reflexivity.
Qed.

Lemma refresh_cycles_reach_100 rt : forall (n : nat) (w : World),
  totalRenderedFrames (m_currentFrameRefreshReport (self w)) = 99 - Z.of_nat n ->
  Z.of_nat n <= 99 ->
  (forall k, (tick w <= k <= tick w + n)%nat ->
             (int64_sub (predictedDisplayTime (m_lastFrameState (self w))) (r_time (rt k)) <? 0) = false) ->
  let w' := snd (refresh_cycles rt (S n) w) in
  let cur := m_currentFrameRefreshReport (self w) in
  m_lastFrameRefreshReport (self w')
  = {| nbMissedFrames := nbMissedFrames cur;
       totalRenderedFrames := 100;
       expectedFramerate :=
         F32.div (F32.of_Z 1000000000) (F32.of_Z (predictedDisplayPeriod (m_lastFrameState (self w))));
       measuredFramerate :=
         F32.div (F32.mul (F32.of_Z 1000) (F32.of_Z 100))
                 (F32.of_Z (elapsed_ms (r_time (rt (S (tick w + n)))) (firstFrameTimestamp cur)));
       firstFrameTimestamp := firstFrameTimestamp cur |}
  /\ m_currentFrameRefreshReport (self w')
     = {| nbMissedFrames := 0; totalRenderedFrames := 0;
          expectedFramerate := F32.zero; measuredFramerate := F32.zero;
          firstFrameTimestamp := r_time (rt (S (S (tick w + n)))) |}.
Proof.
  induction n as [| n IH]; intros w Htot Hn Hmiss; cbv zeta;
    rewrite refresh_cycles_S;
    pose proof (updateRefreshReport_spec rt w) as Hu; cbv zeta in Hu;
    set (w1 := snd (updateRefreshReport rt w)) in *;
    destruct Hu as [Hfs Hu]; unfold counted in Hu;
    cbn [totalRenderedFrames firstFrameTimestamp] in Hu;
    rewrite (Hmiss (tick w)) in Hu by lia;
    rewrite Htot in Hu.
  - change (wrap32 (99 - Z.of_nat 0 + 1)) with 100 in Hu.
    change (100 =? 100) with true in Hu. cbv iota in Hu.
    destruct Hu as (H1 & H2 & _). cbn [refresh_cycles ret snd].
    rewrite H1, H2, Nat.add_0_r. split; reflexivity.
  - assert (Hw : wrap32 (99 - Z.of_nat (S n) + 1) = 99 - Z.of_nat n).
    { unfold wrap32. rewrite Z.mod_small by lia. lia. }
    rewrite Hw in Hu.
    assert (Hne : (99 - Z.of_nat n =? 100) = false) by (apply Z.eqb_neq; lia).
    rewrite Hne in Hu. destruct Hu as (Hc & Hl & Htk).
    destruct (IH w1) as [Hl1 Hc1].
    + rewrite Hc. reflexivity.
    + lia.
    + intros k Hk. rewrite Hfs. apply Hmiss. rewrite Htk in Hk. lia.
    + rewrite Hl1, Hc1, Hc, Hfs, Htk.
      cbn [totalRenderedFrames nbMissedFrames firstFrameTimestamp].
      replace (S (tick w) + n)%nat with (tick w + S n)%nat by lia.
      split; reflexivity.
Qed.

(** C7: one hundred frames counted into a fresh accumulating report, all with
    the predicted display period [P] and none of them late, publish the window
    as the last report: its expected rate is 1e9 / P (in [float]), it holds the
    100 frames, no missed frame and the measured rate 1000 * 100 / elapsed
    milliseconds; the accumulating report starts again at 0 frames. *)
Theorem report_published_after_100_frames (rt : Runtime) (w : World) (P : Z) :
  totalRenderedFrames (m_currentFrameRefreshReport (self w)) = 0 ->
  nbMissedFrames (m_currentFrameRefreshReport (self w)) = 0 ->
  predictedDisplayPeriod (m_lastFrameState (self w)) = P ->
  (forall k, (tick w <= k < tick w + 100)%nat ->
             (int64_sub (predictedDisplayTime (m_lastFrameState (self w))) (r_time (rt k)) <? 0) = false) ->
  let w' := snd (refresh_cycles rt 100 w) in
  let last := m_lastFrameRefreshReport (self w') in
  expectedFramerate last = F32.div (F32.of_Z 1000000000) (F32.of_Z P)
  /\ totalRenderedFrames last = 100
  /\ nbMissedFrames last = 0
  /\ measuredFramerate last
     = F32.div (F32.mul (F32.of_Z 1000) (F32.of_Z 100))
               (F32.of_Z (elapsed_ms (r_time (rt (tick w + 100)%nat))
                                     (firstFrameTimestamp (m_currentFrameRefreshReport (self w)))))
  /\ totalRenderedFrames (m_currentFrameRefreshReport (self w')) = 0
  /\ nbMissedFrames (m_currentFrameRefreshReport (self w')) = 0
  /\ firstFrameTimestamp (m_currentFrameRefreshReport (self w')) = r_time (rt (tick w + 101)%nat).
Proof.
  intros Htot Hmiss HP Hlate.
  destruct (refresh_cycles_reach_100 rt 99 w) as [Hl Hc].
  - rewrite Htot. reflexivity.
  - cbn. lia.
  - intros k Hk. apply Hlate. lia.
  - cbv zeta. rewrite Hl, Hc. cbn [expectedFramerate totalRenderedFrames nbMissedFrames
                                   measuredFramerate firstFrameTimestamp].
    rewrite HP, Hmiss.
    replace (S (tick w + 99)) with (tick w + 100)%nat by lia.
    replace (S (tick w + 100)) with (tick w + 101)%nat by lia.
    repeat split; reflexivity.
Qed.

Example refresh_cycles_100_run :
  reports (snd (refresh_cycles rt_frames 100 (world_of hmd_running)))
  = ({| nbMissedFrames := 0; totalRenderedFrames := 0;
        expectedFramerate := F32.zero; measuredFramerate := F32.zero;
        firstFrameTimestamp := 1111111100 |},
     {| nbMissedFrames := 0; totalRenderedFrames := 100;
        expectedFramerate := S754_finite false 11796480 (-17);
        measuredFramerate := S754_finite false 11797660 (-17);
        firstFrameTimestamp := 0 |}).
Proof. vm_compute. reflexivity. Qed.

Lemma report_published_after_100_frames_witness :
  let w := world_of hmd_running in
  let last := m_lastFrameRefreshReport (self (snd (refresh_cycles rt_frames 100 w))) in
  totalRenderedFrames (m_currentFrameRefreshReport (self w)) = 0
  /\ nbMissedFrames (m_currentFrameRefreshReport (self w)) = 0
  /\ predictedDisplayPeriod (m_lastFrameState (self w)) = 11111111
  /\ expectedFramerate last = F32.div (F32.of_Z 1000000000) (F32.of_Z 11111111)
  /\ totalRenderedFrames last = 100.
Proof.
  cbv zeta. split; [reflexivity |]. split; [reflexivity |]. split; [reflexivity |].
  assert (Hlate : forall k, (tick (world_of hmd_running) <= k < tick (world_of hmd_running) + 100)%nat ->
            (int64_sub (predictedDisplayTime (m_lastFrameState (self (world_of hmd_running))))
                       (r_time (rt_frames k)) <? 0) = false).
  { intros k Hk. unfold rt_frames. cbn in Hk.
    replace (k <? 100)%nat with true by (symmetry; apply Nat.ltb_lt; lia).
    reflexivity. }
  pose proof (report_published_after_100_frames rt_frames (world_of hmd_running) 11111111
                eq_refl eq_refl eq_refl Hlate) as H.
  cbv zeta in H. destruct H as (H1 & H2 & _). split; assumption.
Defined.

(* ================================================================== *)
(** ** Closing a session *)

(** Whatever happens, [closeSession] answers [m_status != STOPPED]: it never
    returns true for a session that reached STOPPED, and when it returns true
    the status is FAILURE. *)
Lemma closeSession_loop_stops rt : forall fuel w w',
  closeSession_loop rt fuel w = Some w' -> isSessionRunning (self w') = false.
Proof.
  induction fuel as [| fuel IH]; intros w w' H; cbn [closeSession_loop] in H;
    destruct (isSessionRunning (self w)) eqn:E; try discriminate H;
    try (injection H as <-; exact E).
  destruct (pollEvents rt fuel w) as [[b w1] |]; [| discriminate H].
  apply (IH w1 w' H).
Qed.

Lemma closeSession_answer rt fuel w b w' :
  closeSession rt fuel w = Some (b, w') ->
  (m_status (self w') = STOPPED -> b = false)
  /\ (b = true -> m_status (self w') = FAILURE).
Proof.
  unfold closeSession. cbv zeta. intros H.
  destruct (SessionStatus_eqb (m_status (self w)) IDLE).
  - destruct w as [h t tr]. revert H. step_monad.
    destruct (XR_SUCCEEDED (r_result (rt t))); cbn; intros H; injection H as <- <-;
      cbn; split; [reflexivity | discriminate | reflexivity | discriminate].
  - destruct (SessionStatus_eqb (m_status (self w)) STOPPED) eqn:Es; cbn [negb] in H.
    + injection H as <- <-. cbn. split; [reflexivity | discriminate].
    + destruct w as [h t tr]. revert H. step_monad.
      destruct (XR_SUCCEEDED (r_result (rt t))); cbn.
      * destruct (closeSession_loop rt fuel _) as [w2 |] eqn:El; [| discriminate].
        intros H. injection H as <- <-.
        apply closeSession_loop_stops in El. apply isSessionRunning_false in El.
        destruct El as [El | El]; rewrite El; cbn; split;
          solve [reflexivity | discriminate].
      * intros H. injection H as <- <-. cbn. split; [discriminate | discriminate].
Qed.

(** C6: the code answers the wrong way round.  A clean shutdown (exit request
    accepted, end-session and destroy-session succeed, status STOPPED) makes
    [closeSession] return false, and so does the destruction of an idle
    session; a shutdown in which end-session fails (status FAILURE) makes it
    return true. *)
Theorem closeSession_inverted_result :
  (exists w', closeSession rt_clean_close 5 (world_of hmd_running) = Some (false, w')
              /\ m_status (self w') = STOPPED
              /\ forallb (fun e => match e with Call _ r => XR_SUCCEEDED r | _ => true end)
                         (trace w') = true)
  /\ (exists w', closeSession rt_ok 0 (world_of hmd_idle) = Some (false, w')
                 /\ m_status (self w') = STOPPED
                 /\ trace w' = [Call xrDestroySession XR_SUCCESS])
  /\ (exists w', closeSession rt_end_session_fails 5 (world_of hmd_running) = Some (true, w')
                 /\ m_status (self w') = FAILURE
                 /\ In (Call xrEndSession XR_ERROR_RUNTIME_FAILURE) (trace w')).
Proof.
  split; [| split]; eexists; (split; [vm_compute; reflexivity |]);
    (split; [reflexivity |]); vm_compute; tauto.
Qed.

(* ================================================================== *)
(** ** Pose and field-of-view queries *)

(** For an eye without a view, the orientation, position, field-of-view and
    screen-center accessors write a diagnostic and return zero; the quaternion
    accessor writes the diagnostic and returns the default-constructed object
    as it is. *)
Lemma accessors_without_view (libm : Libm) (eye : Eye) (unit : AngleUnit) (w : World) :
  m_viewCount (self w) <= eyeToViewIndex eye ->
  let w' := snd (view_missing eye w) in
  trace w' = (trace w ++ [Print STDERR ("View for " ++ eyeToString eye ++ " eye does not exist")])%list
  /\ self w' = self w
  /\ getPoseOrientation libm eye unit w = (Vector3f_Zero, w')
  /\ getPosePosition eye w = (Vector3f_Zero, w')
  /\ getFieldOfView eye unit w = (Vector4f_Zero, w')
  /\ getScreenCenter libm eye w = (Vector2f_Zero, w')
  /\ forall indeterminate, getPoseQuaternion indeterminate eye w = (indeterminate, w').
Proof.
  intros H. apply Z.leb_le in H.
  unfold getPoseOrientation, getPosePosition, getFieldOfView, getScreenCenter, getPoseQuaternion.
  unfold bind, get. rewrite H. cbn. repeat split; reflexivity.
Qed.

(** C4: for every accessor (orientation, quaternion, position, field of view,
    screen center), every eye whose view index is not below the view count and
    every unit, the accessor returns normally: it writes one line to stderr,
    makes no call, leaves the object as it is and returns zero.  The
    quaternion accessor returns the default-constructed quaternion, whatever
    that is; it is zero for the default construction taken from the
    specification. *)
Theorem accessors_without_view_return_zero (libm : Libm) (eye : Eye) (unit : AngleUnit)
    (w : World) :
  m_viewCount (self w) <= eyeToViewIndex eye ->
  let w' := {| self := self w; tick := tick w;
               trace := (trace w ++ [Print STDERR ("View for " ++ eyeToString eye
                                                   ++ " eye does not exist")])%list |} in
  getPoseOrientation libm eye unit w = (Vector3f_Zero, w')
  /\ getPoseQuaternion Quaternionf_default eye w = (Quaternionf_Zero, w')
  /\ getPosePosition eye w = (Vector3f_Zero, w')
  /\ getFieldOfView eye unit w = (Vector4f_Zero, w')
  /\ getScreenCenter libm eye w = (Vector2f_Zero, w')
  /\ forall constructed, getPoseQuaternion constructed eye w = (constructed, w').
Proof.
  intros H. destruct (accessors_without_view libm eye unit w H) as (_ & _ & A & B & C & D & E).
  cbn zeta in *. repeat apply conj; try assumption.
  apply (E Quaternionf_default).
Qed.

Lemma accessors_without_view_return_zero_witness :
  m_viewCount (self (world_of hmd_init)) <= eyeToViewIndex LEFT
  /\ getPoseQuaternion Quaternionf_default LEFT (world_of hmd_init)
     = (Quaternionf_Zero,
        {| self := hmd_init; tick := 0;
           trace := [Print STDERR "View for LEFT eye does not exist"] |})
  /\ fst (getScreenCenter libm_id LEFT (world_of hmd_init)) = Vector2f_Zero.
Proof.
  assert (H : m_viewCount (self (world_of hmd_init)) <= eyeToViewIndex LEFT) by (cbn; lia).
  destruct (accessors_without_view_return_zero libm_id LEFT RADIAN (world_of hmd_init) H)
    as (_ & Q & _ & _ & S & _).
  split; [exact H |]. split; [exact Q | rewrite S; reflexivity].
Defined.

(* ================================================================== *)
(** ** Reasoning on traces and on preserved members *)

Section Extends.

Variable P : list Effect -> Prop.
Hypothesis P_nil : P nil.
Hypothesis P_app : forall a b, P a -> P b -> P (a ++ b)%list.

Lemma extends_ret {A} (a : A) : extends P (ret a).
Proof. intros w. exists nil. cbn. rewrite app_nil_r. auto. Qed.

Lemma extends_get {A} (f : OpenXRHMD -> A) : extends P (get f).
Proof. intros w. exists nil. cbn. rewrite app_nil_r. auto. Qed.

Lemma extends_modify f : extends P (modify f).
Proof. intros w. exists nil. cbn. rewrite app_nil_r. auto. Qed.

Lemma extends_emit e : P [e] -> extends P (emit e).
Proof. intros H w. exists [e]. cbn. auto. Qed.

Lemma extends_call rt c : (forall r, P [Call c r]) -> extends P (call rt c).
Proof. intros H w. eexists. cbn. split; [reflexivity | apply H]. Qed.

Lemma extends_bind {A B} (m : M A) (k : A -> M B) :
  extends P m -> (forall a, extends P (k a)) -> extends P (bind m k).
Proof.
  intros Hm Hk w. unfold bind.
  destruct (Hm w) as (t1 & E1 & P1). destruct (m w) as [a w1]. cbn [snd] in E1.
  destruct (Hk a w1) as (t2 & E2 & P2).
  exists (t1 ++ t2)%list. rewrite E2, E1, app_assoc. auto.
Qed.

Lemma extends_when b m : extends P m -> extends P (when b m).
Proof. intros H. destruct b; [exact H | apply extends_ret]. Qed.

End Extends.

Section Preserves.

Context {T : Type}.
Variable f : OpenXRHMD -> T.

Lemma preserves_ret {A} (a : A) : preserves f (ret a).
Proof. intros w. reflexivity. Qed.

Lemma preserves_get {A} (g : OpenXRHMD -> A) : preserves f (get g).
Proof. intros w. reflexivity. Qed.

Lemma preserves_modify g : (forall h, f (g h) = f h) -> preserves f (modify g).
Proof. intros H w. apply H. Qed.

Lemma preserves_emit e : preserves f (emit e).
Proof. intros w. reflexivity. Qed.

Lemma preserves_call rt c : preserves f (call rt c).
Proof. intros w. reflexivity. Qed.

Lemma preserves_bind {A B} (m : M A) (k : A -> M B) :
  preserves f m -> (forall a, preserves f (k a)) -> preserves f (bind m k).
Proof.
  intros Hm Hk w. unfold bind.
  pose proof (Hm w) as E1. destruct (m w) as [a w1]. cbn [snd] in E1.
  rewrite <- E1. apply Hk.
Qed.

Lemma preserves_when b m : preserves f m -> preserves f (when b m).
Proof. intros H. destruct b; [exact H | apply preserves_ret]. Qed.

End Preserves.

Lemma all_stage_app k a b : all_stage k (a ++ b) = all_stage k a && all_stage k b.
Proof. apply forallb_app. Qed.

Lemma all_stage_extends_app k (a b : list Effect) :
  all_stage k a = true -> all_stage k b = true -> all_stage k (a ++ b) = true.
Proof. intros Ha Hb. rewrite all_stage_app, Ha, Hb. reflexivity. Qed.

(** Decomposes a monadic term along its binds, branches and matches. *)
Ltac stage_side :=
  try reflexivity; try (intros ?; reflexivity); try apply all_stage_extends_app.

Ltac walk side :=
  unfold in_stage, print;
  repeat first
    [ apply extends_ret; stage_side
    | apply extends_get; stage_side
    | apply extends_modify; stage_side
    | apply extends_emit; stage_side
    | apply extends_call; stage_side
    | apply extends_when; stage_side
    | apply extends_bind; [apply all_stage_extends_app | | intros ?]
    | side
    | match goal with
      | |- extends _ (if ?b then _ else _) => destruct b
      | |- extends _ (match ?x with _ => _ end) => destruct x
      end ].

Lemma xrCheck_stage k result format : in_stage k (xrCheck result format).
Proof. unfold xrCheck, print. walk fail. Qed.

Lemma createSession_stage rt : in_stage 1%nat (createSession rt).
Proof. unfold createSession. walk ltac:(apply xrCheck_stage). Qed.

Lemma createReferenceSpace_stage rt : in_stage 2%nat (createReferenceSpace rt).
Proof. unfold createReferenceSpace. walk ltac:(apply xrCheck_stage). Qed.











Lemma array_fill_length {A} (old new : list A) :
  List.length (array_fill old new) = List.length old.
Proof. unfold array_fill. rewrite length_app, length_firstn, length_skipn. lia. Qed.



Ltac keep side :=
  unfold print;
  repeat first
    [ apply preserves_ret
    | apply preserves_get
    | apply preserves_emit
    | apply preserves_call
    | apply preserves_modify; intros ?; unfold resources; cbn; rewrite ?array_fill_length; reflexivity
    | apply preserves_when
    | apply preserves_bind; [| intros ?]
    | side
    | match goal with
      | |- preserves _ (if ?b then _ else _) => destruct b
      | |- preserves _ (match ?x with _ => _ end) => destruct x
      end ].

Lemma xrCheck_preserves {T} (f : OpenXRHMD -> T) result format :
  preserves f (xrCheck result format).
Proof. unfold xrCheck. keep fail. Qed.

Lemma updateCurrentSessionState_resources rt state :
  preserves resources (updateCurrentSessionState rt state).
Proof. unfold updateCurrentSessionState. keep ltac:(apply xrCheck_preserves). Qed.

Lemma waitNextFrame_resources rt : preserves resources (waitNextFrame rt).
Proof. unfold waitNextFrame. keep ltac:(apply xrCheck_preserves). Qed.

Lemma submitFrame_resources rt : preserves resources (submitFrame rt).
Proof. unfold submitFrame. keep ltac:(apply xrCheck_preserves). Qed.

Lemma pollEvents_once_resources rt : preserves resources (pollEvents_once rt).
Proof.
  unfold pollEvents_once.
  keep ltac:(first [apply xrCheck_preserves | apply updateCurrentSessionState_resources
                   | apply waitNextFrame_resources | apply submitFrame_resources]).
Qed.

Lemma pollEvents_resources rt : forall fuel w b w',
  pollEvents rt fuel w = Some (b, w') -> resources (self w') = resources (self w).
Proof.
  induction fuel as [| fuel IH]; intros w b w' H; cbn [pollEvents] in H; [discriminate H |].
  pose proof (pollEvents_once_resources rt w) as E1.
  destruct (pollEvents_once rt w) as [keepPolling w1]. cbn [snd] in E1.
  destruct keepPolling.
  - rewrite <- E1. apply (IH w1 b w' H).
  - injection H as _ <-. exact E1.
Qed.


Lemma selectSwapchainFormat_self rt preferred fallback :
  preserves (fun h => h) (selectSwapchainFormat rt preferred fallback).
Proof. unfold selectSwapchainFormat. keep ltac:(apply xrCheck_preserves). Qed.







Lemma createReferenceSpace_handle rt w w2 :
  createReferenceSpace rt w = (true, w2) ->
  XR_SUCCEEDED (r_result (rt (tick w))) = true
  /\ m_playSpace (self w2) = r_handle (rt (tick w))
  /\ m_viewCount (self w2) = m_viewCount (self w).
Proof.
  destruct w as [h t tr]. unfold createReferenceSpace. step_monad.
  destruct (XR_SUCCEEDED (r_result (rt t))); cbn; intros H; [| discriminate H].
  injection H as <-. cbn. auto.
Qed.

Lemma createSession_viewCount rt w b w1 :
  createSession rt w = (b, w1) -> m_viewCount (self w1) = m_viewCount (self w).
Proof.
  destruct w as [h t tr]. unfold createSession. step_monad.
  destruct (XR_SUCCEEDED (r_result (rt t))); cbn; intros H; injection H as _ <-; reflexivity.
Qed.


(** Traces of the five stages put one after the other are in stage order, and
    a stage shows up in them only through its own trace. *)
Example startSession_run :
  option_map (fun r => (fst r, m_status (self (snd r)), m_playSpace (self (snd r)),
                        m_swapchains (self (snd r)), m_swapchainsImages (self (snd r)),
                        trace (snd r)))
             (startSession rt_start 3 (world_of hmd_discovered))
  = Some (true, SYNCHRONIZED, 3, [11; 12], [[101; 102]; [201; 202]],
          [Call glewInit 0; Print SIBR_LOG "Starting XR session";
           Call xrCreateSession 0; Call xrCreateReferenceSpace 0;
           Call (xrEnumerateSwapchainFormats 0) 0; Call (xrEnumerateSwapchainFormats 2) 0;
           Call (xrEnumerateSwapchainFormats 0) 0; Call (xrEnumerateSwapchainFormats 2) 0;
           Call (xrCreateSwapchain 35907 1832 1920) 0;
           Call (xrEnumerateSwapchainImages 11 0) 0; Call (xrEnumerateSwapchainImages 11 2) 0;
           Call (xrCreateSwapchain 35907 1832 1920) 0;
           Call (xrEnumerateSwapchainImages 12 0) 0; Call (xrEnumerateSwapchainImages 12 2) 0;
           Call xrPollEvent 0;
           Print SIBR_LOG "XR session state change: 'UNKNOWN' -> 'READY'";
           Call xrBeginSession 0; Call xrWaitFrame 0;
           Call xrConvertTimespecTimeToTimeKHR 0; Call (xrLocateViews 5000 2) 0;
           Call xrBeginFrame 0; Call (xrEndFrame 5000 0) 0; Call xrPollEvent 0;
           Print SIBR_LOG "XR session state change: 'READY' -> 'SYNCHRONIZED'"]).
Proof. vm_compute. reflexivity. Qed.


(* ================================================================== *)
(** ** Screen center in binary32 arithmetic *)

Lemma fexp32 x : fexp 24 128 x = Z.max (x - 24) (-149).
Proof. reflexivity. Qed.

(** [t + t] for a normal [t] below half the largest [float]: the exponent
    goes up by one. *)
Lemma add_self_normal m e :
  Zpos (digits2_pos m) = 24 -> -149 <= e < 104 ->
  SFadd 24 128 (S754_finite false m e) (S754_finite false m e) = S754_finite false m (e + 1).
Proof.
  intros Hd He. unfold SFadd. rewrite Z.min_id.
  unfold shl_align. rewrite Z.sub_diag. cbn [fst cond_Zopp].
  change (Z.pos m + Z.pos m) with (Z.pos (m + m)). rewrite Pos.add_diag.
  unfold binary_normalize, binary_round.
  cbn [digits2_pos]. rewrite Pos2Z.inj_succ, Hd, fexp32.
  replace (Z.max (Z.succ 24 + e - 24) (-149)) with (e + 1) by lia.
  unfold shl_align. replace (e + 1 - e) with 1 by lia. cbv iota beta.
  unfold binary_round_aux, shr_fexp.
  cbn [Zdigits2 digits2_pos]. rewrite Pos2Z.inj_succ, Hd, fexp32.
  replace (Z.max (Z.succ 24 + e - 24) (-149) - e) with 1 by lia.
  cbn [shr shr_record_of_loc iter_pos shr_1 orb shr_m loc_of_shr_record round_nearest_even Zdigits2].
  rewrite Hd, fexp32.
  replace (Z.max (24 + (e + 1) - 24) (-149) - (e + 1)) with 0 by lia.
  cbn [shr shr_m].
  replace (e + 1 <=? 128 - 24) with true by (symmetry; apply Z.leb_le; lia).
  reflexivity.
Qed.

(** [t + t] for a subnormal [t]: the mantissa doubles. *)
Lemma add_self_subnormal m :
  Zpos (digits2_pos m) < 24 ->
  SFadd 24 128 (S754_finite false m (-149)) (S754_finite false m (-149))
  = S754_finite false m~0 (-149).
Proof.
  intros Hd. unfold SFadd. rewrite Z.min_id.
  unfold shl_align. rewrite Z.sub_diag. cbn [fst cond_Zopp].
  change (Z.pos m + Z.pos m) with (Z.pos (m + m)). rewrite Pos.add_diag.
  unfold binary_normalize, binary_round.
  cbn [digits2_pos]. rewrite Pos2Z.inj_succ, fexp32.
  replace (Z.max (Z.succ (Z.pos (digits2_pos m)) + -149 - 24) (-149)) with (-149) by lia.
  unfold shl_align. change (-149 - -149) with 0. cbv iota beta.
  unfold binary_round_aux, shr_fexp.
  cbn [Zdigits2 digits2_pos]. rewrite Pos2Z.inj_succ, fexp32.
  replace (Z.max (Z.succ (Z.pos (digits2_pos m)) + -149 - 24) (-149) - -149) with 0 by lia.
  cbn [shr shr_record_of_loc shr_m loc_of_shr_record round_nearest_even Zdigits2 digits2_pos].
  rewrite Pos2Z.inj_succ, fexp32.
  replace (Z.max (Z.succ (Z.pos (digits2_pos m)) + -149 - 24) (-149) - -149) with 0 by lia.
  cbn [shr shr_m]. reflexivity.
Qed.

Lemma div_eucl_exact (a b : Z) : 0 < b -> Z.div_eucl (a * b) b = (a, 0).
Proof.
  intros Hb. pose proof (Z.div_eucl_eq (a * b) b ltac:(lia)) as H.
  pose proof (Z.mod_pos_bound (a * b) b Hb) as Hm.
  unfold Z.modulo, Z.div in *.
  destruct (Z.div_eucl (a * b) b) as [q r]. cbn [fst snd] in *.
  assert (r = 0 /\ q = a) as [-> ->]; [| reflexivity].
  assert (Hr : r = (a - q) * b) by lia.
  assert (a - q = 0) by nia. split; lia.
Qed.

Lemma new_location_exact n : new_location n 0 = loc_Exact.
Proof.
  unfold new_location, new_location_even, new_location_odd.
  destruct (Z.even n); reflexivity.
Qed.

Lemma div_by_double_normal m e :
  Zpos (digits2_pos m) = 24 ->
  SFdiv 24 128 (S754_finite false m e) (S754_finite false m (e + 1))
  = S754_finite false 8388608 (-24).
Proof.
  intros Hd. unfold SFdiv, SFdiv_core_binary. cbn [xorb Zdigits2]. rewrite Hd, fexp32.
  replace (24 + e - (24 + (e + 1))) with (-1) by lia.
  replace (e - (e + 1)) with (-1) by lia.
  change (Z.min (Z.max (-1 - 24) (-149)) (-1)) with (-25).
  change (-1 - -25) with 24. cbv iota beta.
  rewrite Z.shiftl_mul_pow2 by lia.
  replace (Z.pos m * 2 ^ 24) with (2 ^ 24 * Z.pos m) by lia.
  rewrite div_eucl_exact by lia. rewrite new_location_exact.
  reflexivity.
Qed.

Lemma div_by_double_subnormal m :
  SFdiv 24 128 (S754_finite false m (-149)) (S754_finite false m~0 (-149))
  = S754_finite false 8388608 (-24).
Proof.
  unfold SFdiv, SFdiv_core_binary. cbn [xorb Zdigits2 digits2_pos]. rewrite Pos2Z.inj_succ, fexp32.
  replace (Z.pos (digits2_pos m) + -149 - (Z.succ (Z.pos (digits2_pos m)) + -149)) with (-1) by lia.
  change (-149 - -149) with 0.
  change (Z.min (Z.max (-1 - 24) (-149)) 0) with (-25).
  change (0 - -25) with 25. cbv iota beta.
  rewrite Z.shiftl_mul_pow2 by lia.
  replace (Z.pos m * 2 ^ 25) with (2 ^ 24 * Z.pos m~0) by lia.
  rewrite div_eucl_exact by lia. rewrite new_location_exact.
  reflexivity.
Qed.

(** [t / (t + t)] is exactly one half for every ordinary positive [t]. *)
Lemma half_of_double t :
  regular_tan t = true -> F32.div t (F32.add t t) = F32.half.
Proof.
  unfold regular_tan, F32.div, F32.add, F32.half, F32.prec, F32.emax.
  destruct t as [s | s | | s m e]; try discriminate. destruct s; [discriminate |].
  intros H. apply andb_prop in H. destruct H as [Hb He].
  unfold bounded, canonical_mantissa in Hb. apply andb_prop in Hb. destruct Hb as [Hc _].
  apply Z.eqb_eq in Hc. rewrite fexp32 in Hc. apply Z.ltb_lt in He.
  pose proof (Pos2Z.is_pos (digits2_pos m)) as Hpos.
  destruct (Z.eq_dec (Z.pos (digits2_pos m)) 24) as [Hd | Hd].
  - rewrite add_self_normal by lia. apply div_by_double_normal. exact Hd.
  - assert (e = -149) by lia. subst e.
    rewrite add_self_subnormal by lia. apply div_by_double_subnormal.
Qed.

Lemma SFabs_SFopp x : SFabs (SFopp x) = SFabs x.
Proof. destruct x; reflexivity. Qed.

Lemma getScreenCenter_of_regular_tan (libm : Libm) (eye : Eye) (w : World) :
  let f := fov (views_at (self w) (eyeToViewIndex eye)) in
  eyeToViewIndex eye < m_viewCount (self w) ->
  angleLeft f = SFopp (angleRight f) ->
  angleUp f = SFopp (angleDown f) ->
  regular_tan (tanf libm (F32.abs (angleRight f))) = true ->
  regular_tan (tanf libm (F32.abs (angleUp f))) = true ->
  getScreenCenter libm eye w = ({| x2 := F32.half; y2 := F32.half |}, w).
Proof.
  cbv zeta. intros Hview Hlr Hud Hr Hu.
  unfold getScreenCenter, bind, get, ret.
  replace (m_viewCount (self w) <=? eyeToViewIndex eye) with false
    by (symmetry; apply Z.leb_gt; exact Hview).
  rewrite Hlr, Hud in *. unfold F32.abs in *. rewrite !SFabs_SFopp in *.
  rewrite (half_of_double _ Hr), (half_of_double _ Hu).
  reflexivity.
Qed.

Lemma valid_binary_SFabs prec emax x :
  valid_binary prec emax x = true -> valid_binary prec emax (SFabs x) = true.
Proof. destruct x; intros H; exact H. Qed.

(** The identity is an ordinary tangent in the sense above. *)
Lemma tanf_ordinary_libm_id : tanf_ordinary libm_id.
Proof.
  intros a Hv Hq. unfold in_first_quadrant in Hq. apply andb_prop in Hq.
  destruct Hq as [H0 Hpi].
  destruct a as [s | s | | s m e]; try (destruct s; discriminate); try discriminate.
  destruct s.
  { cbn in H0. discriminate H0. }
  cbn [libm_id tanf regular_tan]. cbn [valid_binary] in Hv.
  unfold F32.prec, F32.emax in *. rewrite Hv. cbn [andb].
  apply Z.ltb_lt.
  unfold SFltb, SFcompare, pi_2_f32 in Hpi.
  destruct (Z.compare_spec e (-23)); first [lia | discriminate Hpi].
Qed.

(** C9: for every view whose field of view is symmetric (left = -right and
    up = -down) with angles strictly between 0 and pi/2 in magnitude,
    [getScreenCenter] returns exactly (0.5, 0.5) and writes no diagnostic,
    on a platform whose [tanf] returns ordinary positive [float]s on such
    angles. *)
Theorem getScreenCenter_symmetric (libm : Libm) (eye : Eye) (w : World) :
  let f := fov (views_at (self w) (eyeToViewIndex eye)) in
  tanf_ordinary libm ->
  eyeToViewIndex eye < m_viewCount (self w) ->
  valid_binary F32.prec F32.emax (angleRight f) = true ->
  valid_binary F32.prec F32.emax (angleUp f) = true ->
  angleLeft f = SFopp (angleRight f) ->
  angleUp f = SFopp (angleDown f) ->
  in_first_quadrant (F32.abs (angleRight f)) = true ->
  in_first_quadrant (F32.abs (angleUp f)) = true ->
  getScreenCenter libm eye w = ({| x2 := F32.half; y2 := F32.half |}, w).
Proof.
  cbv zeta. intros Htan Hview Vr Vu Hlr Hud Qr Qu.
  apply getScreenCenter_of_regular_tan; try assumption;
    apply Htan; try assumption; apply valid_binary_SFabs; assumption.
Qed.

Lemma getScreenCenter_symmetric_witness :
  let w := world_of hmd_symmetric in
  let f := fov (views_at (self w) (eyeToViewIndex RIGHT)) in
  tanf_ordinary libm_id
  /\ eyeToViewIndex RIGHT < m_viewCount (self w)
  /\ valid_binary F32.prec F32.emax (angleRight f) = true
  /\ valid_binary F32.prec F32.emax (angleUp f) = true
  /\ angleLeft f = SFopp (angleRight f)
  /\ angleUp f = SFopp (angleDown f)
  /\ in_first_quadrant (F32.abs (angleRight f)) = true
  /\ in_first_quadrant (F32.abs (angleUp f)) = true
  /\ getScreenCenter libm_id RIGHT w = ({| x2 := F32.half; y2 := F32.half |}, w).
Proof.
  cbv zeta. split; [exact tanf_ordinary_libm_id |].
  repeat (split; [reflexivity |]).
  apply (getScreenCenter_symmetric libm_id RIGHT (world_of hmd_symmetric));
    solve [exact tanf_ordinary_libm_id | reflexivity].
Defined.

(* ================================================================== *)
(** ** Further properties of the session state machine *)

Lemma waitNextFrame_status rt : preserves m_status (waitNextFrame rt).
Proof. unfold waitNextFrame. keep ltac:(apply xrCheck_preserves). Qed.

Lemma submitFrame_status rt : preserves m_status (submitFrame rt).
Proof. unfold submitFrame. keep ltac:(apply xrCheck_preserves). Qed.

(** [keepPolling] tells whether the status is transitory when the activation
    ends. *)
Lemma pollEvents_once_keepPolling rt w keepPolling w' :
  pollEvents_once rt w = (keepPolling, w') ->
  keepPolling = transitory (m_status (self w')).
Proof.
  unfold pollEvents_once. unfold bind at 1.
  destruct (call rt xrPollEvent w) as [rep w0].
  unfold bind at 1.
  match goal with |- context [(if ?c then ?a else ?b) w0] =>
    destruct ((if c then a else b) w0) as [u w1] end.
  unfold bind at 1, get at 1. cbn [self].
  unfold bind at 1.
  destruct (SessionStatus_eqb (m_status (self w1)) BEGINNING) eqn:Eb; cbn [when orb].
  - unfold bind at 1.
    pose proof (waitNextFrame_status rt w1) as H1.
    destruct (waitNextFrame rt w1) as [b1 w2]. cbn [snd] in H1.
    unfold bind at 1.
    pose proof (submitFrame_status rt w2) as H2.
    destruct (submitFrame rt w2) as [b2 w3]. cbn [snd] in H2.
    unfold ret. intros H. injection H as Hk Hw. subst keepPolling w'.
    unfold transitory. rewrite H2, H1, Eb. reflexivity.
  - unfold ret. intros H. injection H as Hk Hw. subst keepPolling w'.
    unfold transitory. rewrite Eb. reflexivity.
Qed.

(** X1: [pollEvents] returns only once the status is neither BEGINNING nor
    ENDING, and its result tells whether that status is FAILURE. *)
Theorem pollEvents_returns_settled (rt : Runtime) (fuel : nat) (w : World) (b : bool) (w' : World) :
  pollEvents rt fuel w = Some (b, w') ->
  m_status (self w') <> BEGINNING
  /\ m_status (self w') <> ENDING
  /\ (b = false <-> m_status (self w') = FAILURE).
Proof.
  revert w. induction fuel as [| fuel IH]; intros w H; cbn [pollEvents] in H; [discriminate H |].
  destruct (pollEvents_once rt w) as [keepPolling w1] eqn:Eo.
  pose proof (pollEvents_once_keepPolling rt w keepPolling w1 Eo) as Hk.
  destruct keepPolling; [apply (IH w1 H) |].
  injection H as Hb Hw. subst b w'.
  unfold transitory in Hk. symmetry in Hk. apply orb_false_elim in Hk.
  destruct (m_status (self w1)); cbn in Hk |- *; destruct Hk as [H1 H2];
    try discriminate H1; try discriminate H2;
    (split; [discriminate |]); (split; [discriminate |]);
    split; intros H; solve [reflexivity | discriminate H].
Qed.

Lemma pollEvents_returns_settled_witness :
  exists w',
    pollEvents rt_begin 2 (world_of hmd_discovered) = Some (true, w')
    /\ m_status (self w') <> BEGINNING
    /\ m_status (self w') <> ENDING
    /\ (true = false <-> m_status (self w') = FAILURE).
Proof.
  assert (E : exists w', pollEvents rt_begin 2 (world_of hmd_discovered) = Some (true, w')).
  { eexists. vm_compute. reflexivity. }
  destruct E as [w' E]. exists w'. split; [exact E |].
  exact (pollEvents_returns_settled rt_begin 2 (world_of hmd_discovered) true w' E).
Defined.

Ltac updateCurrentSessionState_cases rt w state :=
  let h := fresh "h" in let t := fresh "t" in let tr := fresh "tr" in
  destruct w as [h t tr]; cbn [self tick trace] in *;
  unfold updateCurrentSessionState; step_monad;
  destruct state; cbn;
  try destruct (m_idleCallback h) eqn:?; try destruct (m_visibleCallback h) eqn:?;
  try destruct (m_focusedCallback h) eqn:?; cbn;
  try (destruct (m_status h) eqn:?; cbn);
  try (destruct (XR_SUCCEEDED (r_result (rt t))) eqn:?; cbn).

(** X2: A READY event met while BEGINNING and a STOPPING event met while ENDING
    are only logged: no request goes to the runtime a second time and the
    status stays. *)
Theorem duplicate_request_not_reissued (rt : Runtime) (state : XrSessionState) (w : World) :
  duplicate_request (m_status (self w)) state = true ->
  let w' := snd (updateCurrentSessionState rt state w) in
  exists msg,
    trace w' = (trace w ++ [Print SIBR_LOG msg])%list
    /\ tick w' = tick w
    /\ m_status (self w') = m_status (self w)
    /\ m_session (self w') = m_session (self w).
Proof.
  intros H. destruct w as [h t tr]. cbn [self tick trace] in *.
  unfold updateCurrentSessionState. step_monad.
  destruct (m_status h) eqn:Es, state; try discriminate H;
    cbn; rewrite ?Es; cbn; eexists; repeat split; cbn; rewrite ?Es; reflexivity.
Qed.

Lemma duplicate_request_not_reissued_witness :
  let w := world_of (set_status BEGINNING hmd_discovered) in
  duplicate_request (m_status (self w)) XR_SESSION_STATE_READY = true
  /\ exists msg,
       trace (snd (updateCurrentSessionState rt_ok XR_SESSION_STATE_READY w))
       = (trace w ++ [Print SIBR_LOG msg])%list
       /\ tick (snd (updateCurrentSessionState rt_ok XR_SESSION_STATE_READY w)) = tick w
       /\ m_status (self (snd (updateCurrentSessionState rt_ok XR_SESSION_STATE_READY w)))
          = m_status (self w)
       /\ m_session (self (snd (updateCurrentSessionState rt_ok XR_SESSION_STATE_READY w)))
          = m_session (self w).
Proof.
  cbv zeta. split; [reflexivity |].
  exact (duplicate_request_not_reissued rt_ok XR_SESSION_STATE_READY
           (world_of (set_status BEGINNING hmd_discovered)) eq_refl).
Defined.

(** X3: One state change sends at most one session request (begin, end or
    destroy session) to the runtime, and a request that fails leaves the status
    FAILURE and the session handle as it was. *)
Theorem failed_transition_sets_FAILURE (rt : Runtime) (state : XrSessionState) (w : World) :
  let w' := snd (updateCurrentSessionState rt state w) in
  exists tr,
    trace w' = (trace w ++ tr)%list
    /\ (count is_session_request tr <= 1)%nat
    /\ (forall c r, In (Call c r) tr -> is_session_request (Call c r) = true ->
                    XR_SUCCEEDED r = false ->
                    m_status (self w') = FAILURE /\ m_session (self w') = m_session (self w)).
Proof.
  updateCurrentSessionState_cases rt w state;
    (eexists; split; [rewrite <- ?app_assoc; cbn; reflexivity |]);
    (split; [cbn; lia |]);
    intros c r Hin _ Hr; cbn in Hin;
    repeat (destruct Hin as [Hin | Hin]; [try discriminate Hin |]);
    try contradiction;
    try (injection Hin as _ Hin; subst r; congruence);
    split; reflexivity.
Qed.

(** X4: An IDLE, VISIBLE or FOCUSED event invokes the callback registered for it,
    once, and no other callback; any other event invokes none. *)
Theorem callbacks_once_per_event (rt : Runtime) (state : XrSessionState) (w : World) :
  let w' := snd (updateCurrentSessionState rt state w) in
  exists tr,
    trace w' = (trace w ++ tr)%list
    /\ filter is_callback tr = callbacks_of (self w) state.
Proof.
  updateCurrentSessionState_cases rt w state;
    (eexists; split; [rewrite <- ?app_assoc; cbn; reflexivity |]);
    cbn; repeat match goal with H : _ = _ |- _ => rewrite H end; reflexivity.
Qed.

Lemma failed_transition_sets_FAILURE_witness :
  m_status (self (snd (updateCurrentSessionState rt_fail XR_SESSION_STATE_READY
                         (world_of hmd_discovered)))) = FAILURE.
Proof.
  destruct (failed_transition_sets_FAILURE rt_fail XR_SESSION_STATE_READY (world_of hmd_discovered))
    as (tr & E & _ & H).
  cbn in E. subst tr.
  apply (H xrBeginSession XR_ERROR_RUNTIME_FAILURE); [cbn; tauto | reflexivity | reflexivity].
Defined.

(* ================================================================== *)
(** ** Closing, synchronising and tearing down *)

Lemma closeSession_not_running rt fuel w b w' :
  closeSession rt fuel w = Some (b, w') -> isSessionRunning (self w') = false.
Proof.
  unfold closeSession. cbv zeta. intros H.
  destruct (SessionStatus_eqb (m_status (self w)) IDLE) eqn:Ei.
  - destruct w as [h t tr]. revert H. step_monad.
    destruct (XR_SUCCEEDED (r_result (rt t))); cbn; intros H;
      injection H as _ Hw; subst w'; reflexivity.
  - destruct (SessionStatus_eqb (m_status (self w)) STOPPED) eqn:Es; cbn [negb] in H.
    + injection H as _ Hw. subst w'. apply SessionStatus_eqb_eq in Es.
      apply isSessionRunning_false; right; exact Es.
    + destruct w as [h t tr]. revert H. step_monad.
      destruct (XR_SUCCEEDED (r_result (rt t))); cbn.
      * destruct (closeSession_loop rt fuel _) as [w2 |] eqn:El; [| discriminate].
        intros H. injection H as _ Hw. subst w'.
        apply (closeSession_loop_stops rt fuel _ _ El).
      * intros H. injection H as _ Hw. subst w'. reflexivity.
Qed.

Lemma closeSession_on_STOPPED rt fuel w :
  m_status (self w) = STOPPED -> closeSession rt fuel w = Some (false, w).
Proof. intros Hs. unfold closeSession. rewrite Hs. reflexivity. Qed.

(** X5: Whenever [closeSession] returns, the session is no longer running; on a
    session that is STOPPED already it does nothing at all. *)
Theorem closeSession_stops_session (rt : Runtime) (fuel : nat) (w : World) (b : bool) (w' : World) :
  closeSession rt fuel w = Some (b, w') ->
  isSessionRunning (self w') = false
  /\ (m_status (self w) = STOPPED -> w' = w).
Proof.
  intros H. split; [apply (closeSession_not_running rt fuel w b w' H) |].
  intros Hs. rewrite (closeSession_on_STOPPED rt fuel w Hs) in H. congruence.
Qed.

Lemma closeSession_stops_session_witness :
  exists w',
    closeSession rt_clean_close 5 (world_of hmd_running) = Some (false, w')
    /\ isSessionRunning (self w') = false.
Proof.
  assert (E : exists w', closeSession rt_clean_close 5 (world_of hmd_running) = Some (false, w')).
  { eexists. vm_compute. reflexivity. }
  destruct E as [w' E]. exists w'. split; [exact E |].
  exact (proj1 (closeSession_stops_session rt_clean_close 5 (world_of hmd_running) false w' E)).
Defined.

(** X6: [synchronizeSession] gives up only on a status FAILURE, and never
    when the status is SYNCHRONIZED at entry. *)
Theorem synchronizeSession_false_is_FAILURE (rt : Runtime) (fuel : nat) (w : World) (w' : World) :
  synchronizeSession rt fuel w = Some (false, w') ->
  m_status (self w') = FAILURE /\ m_status (self w) <> SYNCHRONIZED.
Proof.
  revert w. induction fuel as [| fuel IH]; intros w H; cbn [synchronizeSession] in H;
    destruct (SessionStatus_eqb (m_status (self w)) SYNCHRONIZED) eqn:Es;
    try discriminate H.
  assert (Hn : m_status (self w) <> SYNCHRONIZED).
  { intros Hs. rewrite Hs in Es. discriminate Es. }
  destruct (pollEvents rt fuel w) as [[p w1] |]; [| discriminate H].
  destruct (SessionStatus_eqb (m_status (self w1)) FAILURE) eqn:Ef.
  - injection H as Hw. subst w'. split; [apply SessionStatus_eqb_eq; exact Ef | exact Hn].
  - split; [apply (IH w1 H) | exact Hn].
Qed.

Lemma synchronizeSession_false_is_FAILURE_witness :
  exists w',
    synchronizeSession rt_begin_fails 2 (world_of hmd_discovered) = Some (false, w')
    /\ m_status (self w') = FAILURE.
Proof.
  assert (E : exists w', synchronizeSession rt_begin_fails 2 (world_of hmd_discovered)
                         = Some (false, w')).
  { eexists. vm_compute. reflexivity. }
  destruct E as [w' E]. exists w'. split; [exact E |].
  exact (proj1 (synchronizeSession_false_is_FAILURE rt_begin_fails 2 (world_of hmd_discovered) w' E)).
Defined.

(** X7: Polling never touches the reference space, the swapchain arrays or the
    projection views, and never resizes the view array, however many events
    and empty frames it goes through. *)
Theorem pollEvents_keeps_resources (rt : Runtime) (fuel : nat) (w : World) (b : bool) (w' : World) :
  pollEvents rt fuel w = Some (b, w') ->
  m_playSpace (self w') = m_playSpace (self w)
  /\ m_swapchains (self w') = m_swapchains (self w)
  /\ m_swapchainsLengths (self w') = m_swapchainsLengths (self w)
  /\ m_swapchainsImages (self w') = m_swapchainsImages (self w)
  /\ m_projectionViews (self w') = m_projectionViews (self w)
  /\ List.length (views (self w')) = List.length (views (self w)).
Proof.
  intros H. apply pollEvents_resources in H. unfold resources in H.
  injection H as H1 H2 H3 H4 H5 H6. repeat split; assumption.
Qed.

Lemma pollEvents_keeps_resources_witness :
  exists w',
    pollEvents rt_begin 2 (world_of hmd_running) = Some (true, w')
    /\ m_swapchains (self w') = m_swapchains (self (world_of hmd_running))
    /\ List.length (views (self w')) = List.length (views (self (world_of hmd_running))).
Proof.
  assert (E : exists w', pollEvents rt_begin 2 (world_of hmd_running) = Some (true, w')).
  { eexists. vm_compute. reflexivity. }
  destruct E as [w' E]. exists w'. split; [exact E |].
  destruct (pollEvents_keeps_resources rt_begin 2 (world_of hmd_running) true w' E)
    as (_ & H2 & _ & _ & _ & H6).
  split; assumption.
Defined.

Lemma isSessionRunning_set_instance v h :
  isSessionRunning (set_instance v h) = isSessionRunning h.
Proof. reflexivity. Qed.

Lemma terminate_result (rt : Runtime) (fuel : nat) (w : World) (b : bool) (w' : World) :
  terminate rt fuel w = Some (b, w') ->
  isSessionRunning (self w') = false
  /\ (b = true -> m_instance (self w') = XR_NULL_HANDLE)
  /\ (b = false -> m_status (self w') = FAILURE /\ m_instance (self w') <> XR_NULL_HANDLE).
Proof.
  unfold terminate. intros H.
  assert (Hw1 : exists w1, (if isSessionRunning (self w)
                            then option_map snd (closeSession rt fuel w) else Some w) = Some w1
                           /\ isSessionRunning (self w1) = false).
  { destruct (isSessionRunning (self w)) eqn:Er.
    - destruct (closeSession rt fuel w) as [[b0 w1] |] eqn:Ec; [| discriminate H].
      exists w1. split; [reflexivity | apply (closeSession_not_running rt fuel w b0 w1 Ec)].
    - exists w. split; [reflexivity | exact Er]. }
  destruct Hw1 as (w1 & E1 & Hn). rewrite E1 in H. clear E1.
  destruct (m_instance (self w1) =? XR_NULL_HANDLE) eqn:Ei; cbn [negb] in H.
  - injection H as Hb Hw. subst b w'. apply Z.eqb_eq in Ei.
    split; [exact Hn |]. split; [intros _; exact Ei | intros Hf; discriminate Hf].
  - apply Z.eqb_neq in Ei. destruct w1 as [h1 t1 tr1]. cbn [self] in *.
    revert H. step_monad.
    destruct (XR_SUCCEEDED (r_result (rt t1))); cbn; intros H;
      injection H as Hb Hw; subst b w'; cbn.
    + split; [exact Hn |]. split; [reflexivity | intros Hf; discriminate Hf].
    + split; [reflexivity |]. split; [intros Hf; discriminate Hf | split; [reflexivity | exact Ei]].
Qed.

(** X8: The outcome of [terminate]: true with the instance handle cleared, or
    false with the status FAILURE and the handle kept; either way the session
    is not running any more. *)
Theorem terminate_outcome (rt : Runtime) (fuel : nat) (w : World) (b : bool) (w' : World) :
  terminate rt fuel w = Some (b, w') ->
  isSessionRunning (self w') = false
  /\ (b = true -> m_instance (self w') = XR_NULL_HANDLE)
  /\ (b = false -> m_status (self w') = FAILURE /\ m_instance (self w') <> XR_NULL_HANDLE).
Proof. apply terminate_result. Qed.

Lemma terminate_outcome_witness :
  exists w',
    terminate rt_ok 0 (world_of hmd_idle) = Some (true, w')
    /\ isSessionRunning (self w') = false
    /\ (true = true -> m_instance (self w') = XR_NULL_HANDLE).
Proof.
  assert (E : exists w', terminate rt_ok 0 (world_of hmd_idle) = Some (true, w')).
  { eexists. vm_compute. reflexivity. }
  destruct E as [w' E]. exists w'. split; [exact E |].
  destruct (terminate_outcome rt_ok 0 (world_of hmd_idle) true w' E) as (H1 & H2 & _).
  split; assumption.
Defined.

Lemma terminate_again (rt rt' : Runtime) (fuel fuel' : nat) (w w' : World) :
  terminate rt fuel w = Some (true, w') ->
  terminate rt' fuel' w' = Some (true, w').
Proof.
  intros H. apply terminate_result in H. destruct H as (Hn & Hi & _).
  specialize (Hi eq_refl). unfold terminate. rewrite Hn, Hi. reflexivity.
Qed.

(** X9: Terminating twice: after a [terminate] that returned true, another one
    makes no call, changes nothing and returns true again, whatever the
    runtime would answer. *)
Theorem terminate_twice (rt rt' : Runtime) (fuel fuel' : nat) (w w' : World) :
  terminate rt fuel w = Some (true, w') ->
  terminate rt' fuel' w' = Some (true, w').
Proof. apply terminate_again. Qed.

Lemma terminate_twice_witness :
  exists w',
    terminate rt_ok 0 (world_of hmd_idle) = Some (true, w')
    /\ terminate rt_fail 3 w' = Some (true, w').
Proof.
  assert (E : exists w', terminate rt_ok 0 (world_of hmd_idle) = Some (true, w')).
  { eexists. vm_compute. reflexivity. }
  destruct E as [w' E]. exists w'. split; [exact E |].
  exact (terminate_twice rt_ok rt_fail 0 3 (world_of hmd_idle) w' E).
Defined.

Lemma forallb_extends_app (q : Effect -> bool) (a b : list Effect) :
  forallb q a = true -> forallb q b = true -> forallb q (a ++ b) = true.
Proof. intros Ha Hb. rewrite forallb_app, Ha, Hb. reflexivity. Qed.

Ltac only_side :=
  try reflexivity; try (intros ?; reflexivity); try apply forallb_extends_app.

Ltac walk_only side :=
  unfold only, print;
  repeat first
    [ apply extends_ret; only_side
    | apply extends_get; only_side
    | apply extends_modify; only_side
    | apply extends_emit; only_side
    | apply extends_call; only_side
    | apply extends_when; only_side
    | apply extends_bind; [apply forallb_extends_app | | intros ?]
    | side
    | match goal with
      | |- extends _ (if ?b then _ else _) => destruct b
      | |- extends _ (match ?x with _ => _ end) => destruct x
      end ].

Lemma xrCheck_no_exit result format : only not_exit_request (xrCheck result format).
Proof. unfold xrCheck. walk_only fail. Qed.

Lemma updateCurrentSessionState_no_exit rt state :
  only not_exit_request (updateCurrentSessionState rt state).
Proof. unfold updateCurrentSessionState. walk_only ltac:(apply xrCheck_no_exit). Qed.

Lemma waitNextFrame_no_exit rt : only not_exit_request (waitNextFrame rt).
Proof. unfold waitNextFrame. walk_only ltac:(apply xrCheck_no_exit). Qed.

Lemma submitFrame_no_exit rt : only not_exit_request (submitFrame rt).
Proof. unfold submitFrame. walk_only ltac:(apply xrCheck_no_exit). Qed.

Lemma pollEvents_once_no_exit rt : only not_exit_request (pollEvents_once rt).
Proof.
  unfold pollEvents_once.
  walk_only ltac:(first [apply xrCheck_no_exit | apply updateCurrentSessionState_no_exit
                        | apply waitNextFrame_no_exit | apply submitFrame_no_exit]).
Qed.

Lemma pollEvents_no_exit rt : forall fuel w b w',
  pollEvents rt fuel w = Some (b, w') ->
  exists t, trace w' = (trace w ++ t)%list /\ forallb not_exit_request t = true.
Proof.
  induction fuel as [| fuel IH]; intros w b w' H; cbn [pollEvents] in H; [discriminate H |].
  destruct (pollEvents_once_no_exit rt w) as (t1 & E1 & S1).
  destruct (pollEvents_once rt w) as [keepPolling w1]. cbn [snd] in E1.
  destruct keepPolling.
  - destruct (IH w1 b w' H) as (t2 & E2 & S2).
    exists (t1 ++ t2)%list. rewrite E2, E1, app_assoc. split; [reflexivity |].
    apply forallb_extends_app; assumption.
  - injection H as _ Hw. subst w'. exists t1. auto.
Qed.

Lemma closeSession_loop_no_exit rt : forall fuel w w',
  closeSession_loop rt fuel w = Some w' ->
  exists t, trace w' = (trace w ++ t)%list /\ forallb not_exit_request t = true.
Proof.
  induction fuel as [| fuel IH]; intros w w' H; cbn [closeSession_loop] in H;
    destruct (isSessionRunning (self w)); try discriminate H;
    try (injection H as Hw; subst w'; exists nil; rewrite app_nil_r; auto; fail).
  destruct (pollEvents rt fuel w) as [[b w1] |] eqn:Ep; [| discriminate H].
  destruct (pollEvents_no_exit rt fuel w b w1 Ep) as (t1 & E1 & S1).
  destruct (IH w1 w' H) as (t2 & E2 & S2).
  exists (t1 ++ t2)%list. rewrite E2, E1, app_assoc. split; [reflexivity |].
  apply forallb_extends_app; assumption.
Qed.

Lemma count_exit_of_none t :
  forallb not_exit_request t = true -> count is_xrRequestExitSession t = 0%nat.
Proof.
  unfold count, not_exit_request. induction t as [| e t IH]; cbn; [reflexivity |].
  intros H. apply andb_prop in H. destruct H as [He Ht].
  apply negb_true_iff in He. rewrite He. apply (IH Ht).
Qed.

(** [closeSession] asks the runtime to exit at most once. *)
Lemma closeSession_exit_requests rt fuel w b w' :
  closeSession rt fuel w = Some (b, w') ->
  exists t, trace w' = (trace w ++ t)%list /\ (count is_xrRequestExitSession t <= 1)%nat.
Proof.
  unfold closeSession. cbv zeta. intros H.
  destruct (SessionStatus_eqb (m_status (self w)) IDLE).
  - destruct w as [h t tr]. revert H. step_monad.
    destruct (XR_SUCCEEDED (r_result (rt t))); cbn; intros H;
      injection H as _ Hw; subst w'; cbn;
      eexists; (split; [rewrite <- ?app_assoc; cbn; reflexivity |]); cbn; lia.
  - destruct (SessionStatus_eqb (m_status (self w)) STOPPED); cbn [negb] in H.
    + injection H as _ Hw. subst w'. exists nil. rewrite app_nil_r. cbn. split; [reflexivity | lia].
    + destruct w as [h t tr]. revert H. step_monad.
      destruct (XR_SUCCEEDED (r_result (rt t))); cbn.
      * destruct (closeSession_loop rt fuel _) as [w2 |] eqn:El; [| discriminate].
        intros H. injection H as _ Hw. subst w'.
        destruct (closeSession_loop_no_exit rt fuel _ _ El) as (t2 & E2 & S2).
        cbn [trace] in E2. rewrite E2.
        eexists; (split; [rewrite <- ?app_assoc; cbn; reflexivity |]).
        unfold count. cbn. fold (count is_xrRequestExitSession t2).
        rewrite (count_exit_of_none t2 S2). lia.
      * intros H. injection H as _ Hw. subst w'. cbn.
        eexists; (split; [rewrite <- ?app_assoc; cbn; reflexivity |]); cbn; lia.
Qed.

(** X10: The destructor asks the runtime to exit at most once: [terminate] does not
    close again the session that [closeSession] has just closed. *)
Theorem destructor_requests_exit_once (rt : Runtime) (fuel : nat) (w w' : World) :
  destructor rt fuel w = Some w' ->
  exists t, trace w' = (trace w ++ t)%list /\ (count is_xrRequestExitSession t <= 1)%nat.
Proof.
  unfold destructor. intros H.
  destruct (closeSession rt fuel w) as [[b w1] |] eqn:Ec; [| discriminate H].
  destruct (closeSession_exit_requests rt fuel w b w1 Ec) as (t1 & E1 & C1).
  pose proof (closeSession_not_running rt fuel w b w1 Ec) as Hn.
  unfold terminate in H. rewrite Hn in H.
  destruct (m_instance (self w1) =? XR_NULL_HANDLE); cbn [negb] in H.
  - cbn in H. injection H as Hw. subst w'. exists t1. split; assumption.
  - destruct w1 as [h1 k1 tr1]. cbn [trace] in E1. revert H. step_monad.
    destruct (XR_SUCCEEDED (r_result (rt k1))); cbn; intros H;
      injection H as Hw; subst w'; cbn; rewrite E1;
      eexists; (split; [rewrite <- ?app_assoc; reflexivity |]);
      rewrite count_app; cbn; lia.
Qed.

Lemma destructor_requests_exit_once_witness :
  exists w',
    destructor rt_clean_close 5 (world_of hmd_running) = Some w'
    /\ exists t, trace w' = (trace (world_of hmd_running) ++ t)%list
                 /\ (count is_xrRequestExitSession t <= 1)%nat.
Proof.
  assert (E : exists w', destructor rt_clean_close 5 (world_of hmd_running) = Some w').
  { eexists. vm_compute. reflexivity. }
  destruct E as [w' E]. exists w'. split; [exact E |].
  exact (destructor_requests_exit_once rt_clean_close 5 (world_of hmd_running) w' E).
Defined.

(** X11: After a shutdown that ended with the status STOPPED and a [terminate]
    that returned true, the destructor finds nothing left to do: it makes no
    call and changes nothing. *)
Theorem destructor_after_clean_shutdown (rt rt' : Runtime) (fuel1 fuel2 fuel3 : nat)
        (w w1 w2 : World) (b : bool) :
  closeSession rt fuel1 w = Some (b, w1) ->
  m_status (self w1) = STOPPED ->
  terminate rt fuel2 w1 = Some (true, w2) ->
  destructor rt' fuel3 w2 = Some w2.
Proof.
  intros Hc Hs Ht.
  assert (Hs2 : m_status (self w2) = STOPPED).
  { unfold terminate in Ht.
    assert (Hn : isSessionRunning (self w1) = false) by (apply isSessionRunning_false; right; exact Hs).
    rewrite Hn in Ht.
    destruct (m_instance (self w1) =? XR_NULL_HANDLE); cbn [negb] in Ht.
    - injection Ht as Hw. subst w2. exact Hs.
    - destruct w1 as [h1 k1 tr1]. cbn [self] in *. revert Ht. step_monad.
      destruct (XR_SUCCEEDED (r_result (rt k1))); cbn; intros Ht; [| discriminate Ht].
      injection Ht as Hw. subst w2. exact Hs. }
  unfold destructor. rewrite (closeSession_on_STOPPED rt' fuel3 w2 Hs2).
  rewrite (terminate_again rt rt' fuel2 fuel3 w1 w2 Ht). reflexivity.
Qed.

Lemma destructor_after_clean_shutdown_witness :
  exists w1 w2,
    closeSession rt_clean_teardown 5 (world_of hmd_running) = Some (false, w1)
    /\ m_status (self w1) = STOPPED
    /\ terminate rt_clean_teardown 5 w1 = Some (true, w2)
    /\ destructor rt_fail 5 w2 = Some w2.
Proof.
  assert (E : exists w1 w2,
             closeSession rt_clean_teardown 5 (world_of hmd_running) = Some (false, w1)
             /\ m_status (self w1) = STOPPED
             /\ terminate rt_clean_teardown 5 w1 = Some (true, w2)).
  { eexists. eexists. split; [vm_compute; reflexivity |]. split; [reflexivity |].
    vm_compute. reflexivity. }
  destruct E as (w1 & w2 & E1 & E2 & E3). exists w1, w2.
  split; [exact E1 |]. split; [exact E2 |]. split; [exact E3 |].
  exact (destructor_after_clean_shutdown rt_clean_teardown rt_fail 5 5 5
           (world_of hmd_running) w1 w2 false E1 E2 E3).
Defined.

(* ================================================================== *)
(** ** Loss of the instance *)

Lemma updateCurrentSessionState_instance rt state :
  preserves m_instance (updateCurrentSessionState rt state).
Proof. unfold updateCurrentSessionState. keep ltac:(apply xrCheck_preserves). Qed.

Lemma waitNextFrame_instance rt : preserves m_instance (waitNextFrame rt).
Proof. unfold waitNextFrame. keep ltac:(apply xrCheck_preserves). Qed.

Lemma submitFrame_instance rt : preserves m_instance (submitFrame rt).
Proof. unfold submitFrame. keep ltac:(apply xrCheck_preserves). Qed.

Lemma pollEvents_once_instance rt : preserves m_instance (pollEvents_once rt).
Proof.
  unfold pollEvents_once.
  keep ltac:(first [apply xrCheck_preserves | apply updateCurrentSessionState_instance
                   | apply waitNextFrame_instance | apply submitFrame_instance]).
Qed.

Lemma pollEvents_instance rt : forall fuel w b w',
  pollEvents rt fuel w = Some (b, w') -> m_instance (self w') = m_instance (self w).
Proof.
  induction fuel as [| fuel IH]; intros w b w' H; cbn [pollEvents] in H; [discriminate H |].
  pose proof (pollEvents_once_instance rt w) as E1.
  destruct (pollEvents_once rt w) as [keepPolling w1]. cbn [snd] in E1.
  destruct keepPolling.
  - rewrite <- E1. apply (IH w1 b w' H).
  - injection H as _ Hw. subst w'. exact E1.
Qed.

Lemma closeSession_loop_instance rt : forall fuel w w',
  closeSession_loop rt fuel w = Some w' -> m_instance (self w') = m_instance (self w).
Proof.
  induction fuel as [| fuel IH]; intros w w' H; cbn [closeSession_loop] in H;
    destruct (isSessionRunning (self w)); try discriminate H;
    try (injection H as Hw; subst w'; reflexivity).
  destruct (pollEvents rt fuel w) as [[b w1] |] eqn:Ep; [| discriminate H].
  apply pollEvents_instance in Ep. rewrite <- Ep. apply (IH w1 w' H).
Qed.

Lemma closeSession_instance rt fuel w b w' :
  closeSession rt fuel w = Some (b, w') -> m_instance (self w') = m_instance (self w).
Proof.
  unfold closeSession. cbv zeta. intros H.
  destruct (SessionStatus_eqb (m_status (self w)) IDLE).
  - destruct w as [h t tr]. revert H. step_monad.
    destruct (XR_SUCCEEDED (r_result (rt t))); cbn; intros H;
      injection H as _ Hw; subst w'; reflexivity.
  - destruct (SessionStatus_eqb (m_status (self w)) STOPPED); cbn [negb] in H.
    + injection H as _ Hw. subst w'. reflexivity.
    + destruct w as [h t tr]. revert H. step_monad.
      destruct (XR_SUCCEEDED (r_result (rt t))); cbn.
      * destruct (closeSession_loop rt fuel _) as [w2 |] eqn:El; [| discriminate].
        intros H. injection H as _ Hw. subst w'.
        apply closeSession_loop_instance in El. exact El.
      * intros H. injection H as _ Hw. subst w'. reflexivity.
Qed.

(** What follows the destruction of the instance in the handling of a loss
    event, and what ends every activation of [pollEvents]. *)
Lemma loss_rest_no_exit rt result stale :
  only not_exit_request
    (ok <- xrCheck result "Failed to destroy XR instance." ;;
     when (negb ok) (modify (set_status FAILURE)) ;;
     updateCurrentSessionState rt stale).
Proof.
  walk_only ltac:(first [apply xrCheck_no_exit | apply updateCurrentSessionState_no_exit]).
Qed.

Lemma poll_tail_no_exit rt :
  only not_exit_request
    (st <- get m_status ;;
     when (SessionStatus_eqb st BEGINNING) (_ <- waitNextFrame rt ;; _ <- submitFrame rt ;; ret tt) ;;
     ret (SessionStatus_eqb st BEGINNING || SessionStatus_eqb st ENDING)).
Proof.
  walk_only ltac:(first [apply xrCheck_no_exit | apply waitNextFrame_no_exit
                        | apply submitFrame_no_exit]).
Qed.

(** An activation of [pollEvents] that receives the loss event destroys the
    instance. *)
Lemma pollEvents_once_loss rt w stale :
  r_result (rt (tick w)) = XR_SUCCESS ->
  r_event (rt (tick w)) = XR_TYPE_EVENT_DATA_INSTANCE_LOSS_PENDING stale ->
  exists t,
    trace (snd (pollEvents_once rt w))
    = (trace w ++ [Call xrPollEvent XR_SUCCESS;
                   Print SIBR_WRG "EVENT: instance loss pending! Destroying instance.";
                   Call xrDestroyInstance (r_result (rt (S (tick w))))] ++ t)%list.
Proof.
  intros Hres Hev. destruct w as [h t tr]. cbn [tick trace] in *.
  unfold pollEvents_once. unfold bind at 1, call at 1. cbn [self tick trace].
  rewrite Hres, Hev. change (XR_SUCCESS =? XR_SUCCESS) with true. cbv iota.
  unfold bind at 1.
  match goal with |- context [let (_, _) := ?m ?w0 in _] =>
    destruct (m w0) as [u w1] eqn:E end.
  destruct (poll_tail_no_exit rt w1) as (t2 & E2 & _). rewrite E2.
  revert E. unfold bind at 1, print at 1, emit at 1. cbn [self tick trace].
  unfold bind at 1, call at 1. cbn [self tick trace].
  intros E.
  match type of E with ?m ?w0 = _ =>
    destruct (loss_rest_no_exit rt (r_result (rt (S t))) stale w0) as (t1 & E1 & _) end.
  rewrite E in E1. cbn [snd trace] in E1. rewrite E1.
  exists (t1 ++ t2)%list. rewrite <- !app_assoc. reflexivity.
Qed.

(** X12: The loss of the instance leads to a second destruction: [pollEvents]
    destroys the instance when the runtime announces its loss but keeps the
    handle, so a later [terminate] destroys the same handle again. *)
Theorem instance_destroyed_again_after_loss (rt rt' : Runtime) (fuel fuel' : nat)
    (stale : XrSessionState) (w w1 w2 : World) (b b' : bool) :
  r_result (rt (tick w)) = XR_SUCCESS ->
  r_event (rt (tick w)) = XR_TYPE_EVENT_DATA_INSTANCE_LOSS_PENDING stale ->
  m_instance (self w) <> XR_NULL_HANDLE ->
  pollEvents rt fuel w = Some (b, w1) ->
  terminate rt' fuel' w1 = Some (b', w2) ->
  m_instance (self w1) = m_instance (self w)
  /\ exists t1 t2,
       trace w1 = (trace w ++ t1)%list
       /\ trace w2 = (trace w1 ++ t2)%list
       /\ (1 <= count is_xrDestroyInstance t1)%nat
       /\ (1 <= count is_xrDestroyInstance t2)%nat.
Proof.
  intros Hres Hev Hi Hp Ht.
  pose proof (pollEvents_instance rt fuel w b w1 Hp) as Hi1.
  split; [exact Hi1 |].
  assert (H1 : exists t1, trace w1 = (trace w ++ t1)%list
                          /\ (1 <= count is_xrDestroyInstance t1)%nat).
  { destruct fuel as [| fuel]; cbn [pollEvents] in Hp; [discriminate Hp |].
    destruct (pollEvents_once_loss rt w stale Hres Hev) as (ta & Ea).
    destruct (pollEvents_once rt w) as [keepPolling wa]. cbn [snd] in Ea.
    destruct keepPolling.
    - destruct (pollEvents_no_exit rt fuel wa b w1 Hp) as (tb & Eb & _).
      eexists. split; [rewrite Eb, Ea, <- !app_assoc; reflexivity |].
      rewrite !count_app. unfold count at 1. cbn. lia.
    - injection Hp as _ Hw. subst w1.
      eexists. split; [exact Ea |].
      rewrite !count_app. unfold count at 1. cbn. lia. }
  destruct H1 as (t1 & E1 & C1). exists t1.
  assert (H2 : exists t2, trace w2 = (trace w1 ++ t2)%list
                          /\ (1 <= count is_xrDestroyInstance t2)%nat).
  { unfold terminate in Ht.
    assert (Hc : exists wc tc,
               (if isSessionRunning (self w1)
                then option_map snd (closeSession rt' fuel' w1) else Some w1) = Some wc
               /\ trace wc = (trace w1 ++ tc)%list
               /\ m_instance (self wc) = m_instance (self w1)).
    { destruct (isSessionRunning (self w1)).
      - destruct (closeSession rt' fuel' w1) as [[b0 wc] |] eqn:Ec; [| discriminate Ht].
        destruct (closeSession_exit_requests rt' fuel' w1 b0 wc Ec) as (tc & Etc & _).
        exists wc, tc. split; [reflexivity |]. split; [exact Etc |].
        apply (closeSession_instance rt' fuel' w1 b0 wc Ec).
      - exists w1, nil. rewrite app_nil_r. auto. }
    destruct Hc as (wc & tc & Ec & Etc & Eic). rewrite Ec in Ht. clear Ec.
    assert (Hn : (m_instance (self wc) =? XR_NULL_HANDLE) = false).
    { apply Z.eqb_neq. rewrite Eic, Hi1. exact Hi. }
    rewrite Hn in Ht. cbn [negb] in Ht.
    destruct wc as [hc kc trc]. cbn [trace] in Etc. subst trc.
    revert Ht. step_monad.
    destruct (XR_SUCCEEDED (r_result (rt' kc))); cbn; intros Ht;
      injection Ht as _ Hw; subst w2; cbn [trace];
      eexists; (split; [rewrite <- !app_assoc; reflexivity |]);
      rewrite !count_app; unfold count at 2; cbn; lia. }
  destruct H2 as (t2 & E2 & C2). exists t2. auto.
Qed.

Lemma instance_destroyed_again_after_loss_witness :
  exists w1 w2,
    pollEvents rt_instance_loss 1 (world_of hmd_idle) = Some (true, w1)
    /\ terminate rt_instance_loss 0 w1 = Some (true, w2)
    /\ m_instance (self w1) = m_instance (self (world_of hmd_idle))
    /\ exists t1 t2,
         trace w1 = (trace (world_of hmd_idle) ++ t1)%list
         /\ trace w2 = (trace w1 ++ t2)%list
         /\ (1 <= count is_xrDestroyInstance t1)%nat
         /\ (1 <= count is_xrDestroyInstance t2)%nat.
Proof.
  assert (E1 : exists w1, pollEvents rt_instance_loss 1 (world_of hmd_idle) = Some (true, w1)
                          /\ exists w2, terminate rt_instance_loss 0 w1 = Some (true, w2)).
  { eexists. split; [vm_compute; reflexivity |]. eexists. vm_compute. reflexivity. }
  destruct E1 as (w1 & Hp & w2 & Ht). exists w1, w2.
  split; [exact Hp |]. split; [exact Ht |].
  apply (instance_destroyed_again_after_loss rt_instance_loss rt_instance_loss 1 0
           XR_SESSION_STATE_UNKNOWN (world_of hmd_idle) w1 w2 true true).
  - reflexivity.
  - reflexivity.
  - cbn. discriminate.
  - exact Hp.
  - exact Ht.
Defined.

(* ================================================================== *)
(** ** Further properties of the frame loop *)

Lemma view_indices_S i k : view_indices i (S k) = i :: view_indices (i + 1) k.
Proof.
  unfold view_indices. cbn [seq map]. rewrite Z.add_0_r. f_equal.
  rewrite <- seq_shift, map_map. apply map_ext. intros j. lia.
Qed.

Lemma rendered_app a b : rendered (a ++ b) = (rendered a ++ rendered b)%list.
Proof.
  induction a as [| e a IH]; [reflexivity |].
  destruct e; cbn; rewrite ?IH; reflexivity.
Qed.

(** The per-view loop: the callback runs for the views [i], [i + 1], ... in
    turn, for [k] of them; each rendered image is released, and at most one
    acquired image is left unreleased. *)
Lemma render_views_effects rt n : forall i w,
  exists tr k,
    trace (snd (render_views rt n i w)) = (trace w ++ tr)%list
    /\ (k <= n)%nat
    /\ rendered tr = view_indices i k
    /\ count is_release tr = k
    /\ (k <= count is_acquire tr <= S k)%nat
    /\ ((forall m, XR_SUCCEEDED (r_result (rt m)) = true) ->
        k = n /\ count is_acquire tr = n).
Proof.
  induction n as [| n IH]; intros i w.
  - exists nil, 0%nat. cbn. rewrite app_nil_r. repeat split; auto.
  - destruct w as [h t tr0]. cbn [render_views]. step_monad.
    destruct (XR_SUCCEEDED (r_result (rt t))) eqn:E0; cbn.
    2:{ eexists; exists 0%nat; (split; [rewrite <- ?app_assoc; cbn; reflexivity |]).
        cbn. repeat apply conj; try lia; try reflexivity. intros Hall. rewrite Hall in E0. discriminate E0. }
    destruct (XR_SUCCEEDED (r_result (rt (S t)))) eqn:E1; cbn.
    2:{ eexists; exists 0%nat; (split; [rewrite <- ?app_assoc; cbn; reflexivity |]).
        cbn. repeat apply conj; try lia; try reflexivity. intros Hall. rewrite Hall in E1. discriminate E1. }
    destruct (XR_SUCCEEDED (r_result (rt (S (S t))))) eqn:E2; cbn.
    2:{ eexists; exists 1%nat; (split; [rewrite <- ?app_assoc; cbn; reflexivity |]).
        cbn. rewrite Z.add_0_r. repeat apply conj; try lia; try reflexivity.
        intros Hall. rewrite Hall in E2. discriminate E2. }
    match goal with |- context [render_views rt n ?j ?w1] =>
      destruct (IH j w1) as (tr & k & Htr & Hk & Hr & Hrel & Hacq & Hall) end.
    rewrite Htr. cbn [trace].
    eexists; exists (S k); (split; [rewrite <- ?app_assoc; cbn; reflexivity |]).
    rewrite view_indices_S. cbn [rendered]. rewrite Hr.
    unfold count in *. cbn. repeat apply conj; try lia; try reflexivity.
    intros Hs; destruct (Hall Hs); lia.
Qed.

Lemma updateRefreshReport_effects rt w :
  exists tr,
    trace (snd (updateRefreshReport rt w)) = (trace w ++ tr)%list
    /\ rendered tr = nil
    /\ count is_release tr = 0%nat
    /\ count is_acquire tr = 0%nat
    /\ forallb frame_call_ok tr = true.
Proof.
  destruct w as [h t tr0]. unfold updateRefreshReport. step_monad.
  destruct (int64_sub _ _ <? 0); cbn;
    match goal with |- context [if ?c then _ else _] => destruct c end; cbn;
    eexists; (split; [rewrite <- ?app_assoc; cbn; reflexivity |]); cbn; auto.
Qed.

Lemma frame_call_ok_of_count t :
  count is_xrBeginFrame t = 0%nat -> count is_xrEndFrame t = 0%nat ->
  forallb frame_call_ok t = true.
Proof.
  unfold count. induction t as [| e t IH]; [reflexivity |].
  cbn [filter forallb]. intros Hb He.
  destruct e as [c r | | | | |]; try (cbn in *; apply IH; assumption).
  destruct c; cbn in *; try discriminate; apply IH; assumption.
Qed.

(** The rendering cycle after a successful begin-frame: the per-view loop,
    the report update, then the end-frame, whose result is the method's. *)
Lemma submitFrame_RenderFunc_shape rt w :
  shouldRender (self w) = true ->
  XR_SUCCEEDED (r_result (rt (tick w))) = true ->
  exists w0,
    self w0 = self w
    /\ trace w0 = (trace w ++ [Call xrBeginFrame (r_result (rt (tick w)))])%list
    /\ let w1 := snd (render_views rt (Z.to_nat (m_viewCount (self w))) 0 w0) in
       let w2 := snd (updateRefreshReport rt w1) in
       let r1 := r_result (rt (tick w2)) in
       submitFrame_RenderFunc rt w
       = (XR_SUCCEEDED r1,
          {| self := self w2; tick := S (tick w2);
             trace := (trace w2
                       ++ Call (xrEndFrame (predictedDisplayTime (m_lastFrameState (self w2))) 1) r1
                       :: (if XR_SUCCEEDED r1 then nil
                           else [Print STDOUT "failed to end frame!"]))%list |}).
Proof.
  intros Hr Hbegin. unfold submitFrame_RenderFunc. unfold bind at 1, get at 1.
  rewrite Hr. cbn [negb].
  destruct w as [h t tr]. cbn [tick self trace] in *.
  unfold bind at 1, call at 1. cbn [self tick trace].
  unfold bind at 1, xrCheck at 1. rewrite Hbegin. unfold ret at 1. cbn [negb].
  unfold bind at 1, get at 1. cbn [self]. unfold bind at 1.
  match goal with |- context [render_views rt ?n ?i ?w0] => exists w0 end.
  split; [reflexivity |]. split; [reflexivity |].
  cbn zeta.
  match goal with |- context [render_views rt ?n ?i ?w0] =>
    destruct (render_views rt n i w0) as [u1 w1] end.
  cbn [snd]. unfold bind at 1.
  destruct (updateRefreshReport rt w1) as [u2 [h2 k2 tr2]].
  step_monad. destruct (XR_SUCCEEDED (r_result (rt k2))); cbn;
    rewrite <- ?app_assoc; cbn; reflexivity.
Qed.

(** When begin-frame fails on the rendering path nothing else is called. *)
Lemma submitFrame_RenderFunc_begin_fails rt w :
  shouldRender (self w) = true ->
  XR_SUCCEEDED (r_result (rt (tick w))) = false ->
  submitFrame_RenderFunc rt w
  = (false, {| self := self w; tick := S (tick w);
               trace := (trace w ++ [Call xrBeginFrame (r_result (rt (tick w)));
                                     Print STDOUT "failed to begin frame!"])%list |}).
Proof.
  intros Hr Hbegin. unfold submitFrame_RenderFunc. unfold bind at 1, get at 1.
  rewrite Hr. cbn [negb]. destruct w as [h t tr]. cbn [tick self trace] in *.
  step_monad. rewrite Hbegin. cbn. rewrite <- app_assoc. reflexivity.
Qed.

(** X13: On the rendering path [submitFrame(renderFunc)] answers for the frame
    calls only: it returns true exactly when its begin-frame and its end-frame
    both succeeded, whatever the acquire, wait and release calls of the views
    returned. *)
Theorem rendering_result_is_frame_calls (rt : Runtime) (w : World) :
  shouldRender (self w) = true ->
  exists tr,
    trace (snd (submitFrame_RenderFunc rt w)) = (trace w ++ tr)%list
    /\ count is_xrBeginFrame tr = 1%nat
    /\ fst (submitFrame_RenderFunc rt w) = forallb frame_call_ok tr.
Proof.
  intros Hr.
  destruct (XR_SUCCEEDED (r_result (rt (tick w)))) eqn:Hbegin.
  - destruct (submitFrame_RenderFunc_shape rt w Hr Hbegin) as (w0 & Hs0 & Ht0 & Hres).
    cbn zeta in Hres. rewrite Hres. cbn [fst snd trace].
    destruct (render_views_trace rt (Z.to_nat (m_viewCount (self w))) 0 w0)
      as (t1 & H1 & B1 & E1 & _).
    set (w1 := snd (render_views rt (Z.to_nat (m_viewCount (self w))) 0 w0)) in *.
    destruct (updateRefreshReport_trace rt w1) as (t2 & H2 & B2 & E2 & _).
    set (w2 := snd (updateRefreshReport rt w1)) in *.
    rewrite H2, H1, Ht0.
    match goal with |- context [(_ ++ ?e :: ?tl)%list] =>
      exists ([Call xrBeginFrame (r_result (rt (tick w)))] ++ t1 ++ t2 ++ e :: tl)%list end.
    split; [rewrite <- !app_assoc; reflexivity |].
    rewrite !count_app, B1, B2, !forallb_app.
    rewrite (frame_call_ok_of_count t1 B1 E1), (frame_call_ok_of_count t2 B2 E2).
    cbn. rewrite Hbegin.
    destruct (XR_SUCCEEDED (r_result (rt (tick w2)))) eqn:Eend; cbn; rewrite ?Eend;
      split; reflexivity.
  - rewrite (submitFrame_RenderFunc_begin_fails rt w Hr Hbegin). cbn.
    eexists. split; [reflexivity |]. cbn. rewrite Hbegin. split; reflexivity.
Qed.

Lemma rendering_result_is_frame_calls_witness :
  shouldRender (self (world_of hmd_running)) = true
  /\ fst (submitFrame_RenderFunc rt_wait_fails (world_of hmd_running)) = true
  /\ exists tr,
       trace (snd (submitFrame_RenderFunc rt_wait_fails (world_of hmd_running)))
       = (trace (world_of hmd_running) ++ tr)%list
       /\ count is_xrBeginFrame tr = 1%nat
       /\ fst (submitFrame_RenderFunc rt_wait_fails (world_of hmd_running))
          = forallb frame_call_ok tr.
Proof.
  split; [reflexivity |]. split; [vm_compute; reflexivity |].
  apply (rendering_result_is_frame_calls rt_wait_fails (world_of hmd_running)).
  reflexivity.
Defined.

Lemma no_view_effects t :
  forallb (fun e => negb (is_view_effect e)) t = true ->
  rendered t = nil /\ count is_release t = 0%nat /\ count is_acquire t = 0%nat.
Proof.
  unfold count. induction t as [| e t IH]; [auto |].
  cbn [forallb]. intros H. apply andb_prop in H. destruct H as [He Ht].
  destruct (IH Ht) as (H1 & H2 & H3).
  destruct e as [c r | | | | |]; cbn in *; try discriminate He; auto.
  destruct c; cbn in *; try discriminate He; auto.
Qed.

(** Without rendering the method is the empty frame with its result dropped. *)
Lemma submitFrame_RenderFunc_skips rt w :
  shouldRender (self w) = false ->
  submitFrame_RenderFunc rt w = (true, snd (submitFrame rt w)).
Proof.
  intros Hr. unfold submitFrame_RenderFunc. unfold bind at 1, get at 1.
  rewrite Hr. cbn [negb]. unfold bind at 1.
  destruct (submitFrame rt w) as [b w1]. reflexivity.
Qed.

(** The view effects of one call of [submitFrame(renderFunc)], whatever its
    path. *)
Lemma submitFrame_RenderFunc_views rt w :
  exists tr k,
    trace (snd (submitFrame_RenderFunc rt w)) = (trace w ++ tr)%list
    /\ (k <= Z.to_nat (m_viewCount (self w)))%nat
    /\ rendered tr = view_indices 0 k
    /\ count is_release tr = k
    /\ (k <= count is_acquire tr <= S k)%nat
    /\ (shouldRender (self w) = true ->
        (forall m, XR_SUCCEEDED (r_result (rt m)) = true) ->
        k = Z.to_nat (m_viewCount (self w))
        /\ count is_acquire tr = Z.to_nat (m_viewCount (self w))
        /\ fst (submitFrame_RenderFunc rt w) = true).
Proof.
  destruct (shouldRender (self w)) eqn:Hr.
  - destruct (XR_SUCCEEDED (r_result (rt (tick w)))) eqn:Hbegin.
    + destruct (submitFrame_RenderFunc_shape rt w Hr Hbegin) as (w0 & Hs0 & Ht0 & Hres).
      cbn zeta in Hres. rewrite Hres. cbn [fst snd trace].
      destruct (render_views_effects rt (Z.to_nat (m_viewCount (self w))) 0 w0)
        as (t1 & k & H1 & Hk & Hrd & Hrel & Hacq & Hall).
      set (w1 := snd (render_views rt (Z.to_nat (m_viewCount (self w))) 0 w0)) in *.
      destruct (updateRefreshReport_effects rt w1) as (t2 & H2 & R2 & L2 & A2 & _).
      set (w2 := snd (updateRefreshReport rt w1)) in *.
      rewrite H2, H1, Ht0.
      match goal with |- context [(_ ++ ?e :: ?tl)%list] =>
        exists ([Call xrBeginFrame (r_result (rt (tick w)))] ++ t1 ++ t2 ++ e :: tl)%list, k end.
      split; [rewrite <- !app_assoc; reflexivity |].
      split; [exact Hk |].
      rewrite !rendered_app, !count_app, Hrd, R2, Hrel, L2, A2.
      assert (Hend : (forall m, XR_SUCCEEDED (r_result (rt m)) = true) ->
                     XR_SUCCEEDED (r_result (rt (tick w2))) = true) by (intros Hs; apply Hs).
      destruct (XR_SUCCEEDED (r_result (rt (tick w2))));
        cbn [rendered app]; unfold count in *; cbn [filter is_release is_acquire List.length];
        rewrite ?app_nil_r.
      all: repeat apply conj; try lia; try reflexivity.
      all: intros _ Hs; destruct (Hall Hs); repeat apply conj; try lia; apply (Hend Hs).
    + rewrite (submitFrame_RenderFunc_begin_fails rt w Hr Hbegin). cbn [fst snd trace].
      eexists; exists 0%nat. split; [reflexivity |]. cbn.
      repeat apply conj; try lia; try reflexivity.
      intros _ Hs; rewrite Hs in Hbegin; discriminate Hbegin.
  - rewrite (submitFrame_RenderFunc_skips rt w Hr). cbn [fst snd].
    destruct (submitFrame_trace rt w) as (tr & Htr & _ & _ & Hv).
    destruct (no_view_effects tr Hv) as (V1 & V2 & V3).
    exists (Call xrBeginFrame (r_result (rt (tick w))) :: tr), 0%nat.
    split; [exact Htr |]. cbn [rendered]. unfold count in *. cbn.
    rewrite V1, V2, V3. repeat apply conj; try lia; try reflexivity;
      try (intros H; discriminate H).
Qed.

(** X14: Whatever the calls return, [submitFrame(renderFunc)] invokes the render
    callback for the views 0, 1, ..., k-1 in this order, each once, for some
    k no larger than the view count: a view is never rendered twice, never
    skipped before a later one, and never out of range. *)
Theorem callback_views_in_order (rt : Runtime) (w : World) :
  exists tr k,
    trace (snd (submitFrame_RenderFunc rt w)) = (trace w ++ tr)%list
    /\ (k <= Z.to_nat (m_viewCount (self w)))%nat
    /\ rendered tr = view_indices 0 k.
Proof.
  destruct (submitFrame_RenderFunc_views rt w) as (tr & k & Htr & Hk & Hrd & _).
  exists tr, k. auto.
Qed.

(** X15: Every image handed to the render callback is released afterwards, also
    when the release itself reports a failure; at most one acquire of the
    frame (the one whose acquire or wait failed) has no release. *)
Theorem rendered_images_released (rt : Runtime) (w : World) :
  exists tr,
    trace (snd (submitFrame_RenderFunc rt w)) = (trace w ++ tr)%list
    /\ count is_release tr = count is_RenderFunc tr
    /\ (count is_release tr <= count is_acquire tr <= S (count is_release tr))%nat.
Proof.
  destruct (submitFrame_RenderFunc_views rt w) as (tr & k & Htr & Hk & Hrd & Hrel & Hacq & _).
  exists tr. split; [exact Htr |]. split; [| lia].
  rewrite Hrel.
  assert (Hlen : forall t, count is_RenderFunc t = List.length (rendered t)).
  { unfold count. induction t as [| e t IH]; [reflexivity |].
    destruct e as [c r | | | | |]; cbn; rewrite ?IH; reflexivity. }
  rewrite Hlen, Hrd. unfold view_indices. rewrite length_map, length_seq. reflexivity.
Qed.

(** X16: When rendering is asked for and every call succeeds, the frame is
    complete: each view is rendered once, in index order, with one acquire and
    one release per view, and the method returns true. *)
Theorem complete_frame_renders_every_view (rt : Runtime) (w : World) :
  shouldRender (self w) = true ->
  (forall m, XR_SUCCEEDED (r_result (rt m)) = true) ->
  fst (submitFrame_RenderFunc rt w) = true
  /\ exists tr,
       trace (snd (submitFrame_RenderFunc rt w)) = (trace w ++ tr)%list
       /\ rendered tr = view_indices 0 (Z.to_nat (m_viewCount (self w)))
       /\ count is_acquire tr = Z.to_nat (m_viewCount (self w))
       /\ count is_release tr = Z.to_nat (m_viewCount (self w)).
Proof.
  intros Hr Hs.
  destruct (submitFrame_RenderFunc_views rt w)
    as (tr & k & Htr & Hk & Hrd & Hrel & Hacq & Hall).
  destruct (Hall Hr Hs) as (Ek & Ea & Eres).
  split; [exact Eres |]. exists tr. rewrite <- Ek at 1 3. rewrite Ea. auto.
Qed.

Lemma complete_frame_renders_every_view_witness :
  fst (submitFrame_RenderFunc rt_ok (world_of hmd_running)) = true
  /\ exists tr,
       trace (snd (submitFrame_RenderFunc rt_ok (world_of hmd_running)))
       = (trace (world_of hmd_running) ++ tr)%list
       /\ rendered tr = view_indices 0 (Z.to_nat (m_viewCount (self (world_of hmd_running))))
       /\ count is_acquire tr = Z.to_nat (m_viewCount (self (world_of hmd_running)))
       /\ count is_release tr = Z.to_nat (m_viewCount (self (world_of hmd_running))).
Proof.
  apply (complete_frame_renders_every_view rt_ok (world_of hmd_running)).
  - reflexivity.
  - intros m. reflexivity.
Defined.

Lemma counted_window now fs r :
  window_ok r ->
  let c := counted now fs r in
  totalRenderedFrames c = totalRenderedFrames r + 1
  /\ 0 <= nbMissedFrames c <= totalRenderedFrames c.
Proof.
  unfold window_ok, counted. intros [[H0 H1] H2]. cbn.
  assert (W : forall x, 0 <= x <= 100 -> wrap32 x = x).
  { intros x Hx. unfold wrap32. apply Z.mod_small. lia. }
  rewrite (W (totalRenderedFrames r + 1)) by lia.
  split; [reflexivity |].
  destruct (int64_sub _ _ <? 0); [rewrite W by lia |]; lia.
Qed.

(** X17: The accumulating report stays a well-formed window across any call of
    [submitFrame(renderFunc)]: fewer than 100 frames and no more missed
    frames than frames; and the published report is either left as it was or
    replaced by a full window of exactly 100 frames. *)
Theorem refresh_window_invariant (rt : Runtime) (w : World) :
  window_ok (m_currentFrameRefreshReport (self w)) ->
  let w' := snd (submitFrame_RenderFunc rt w) in
  window_ok (m_currentFrameRefreshReport (self w'))
  /\ (m_lastFrameRefreshReport (self w') = m_lastFrameRefreshReport (self w)
      \/ (totalRenderedFrames (m_lastFrameRefreshReport (self w')) = 100
          /\ 0 <= nbMissedFrames (m_lastFrameRefreshReport (self w')) <= 100)).
Proof.
  intros Hw. cbn zeta.
  change (window_ok (fst (reports (snd (submitFrame_RenderFunc rt w))))
          /\ (snd (reports (snd (submitFrame_RenderFunc rt w))) = snd (reports w)
              \/ (totalRenderedFrames (snd (reports (snd (submitFrame_RenderFunc rt w)))) = 100
                  /\ 0 <= nbMissedFrames (snd (reports (snd (submitFrame_RenderFunc rt w))))
                     <= 100))).
  destruct (shouldRender (self w)) eqn:Hr.
  - destruct (XR_SUCCEEDED (r_result (rt (tick w)))) eqn:Hbegin.
    + destruct (submitFrame_RenderFunc_reports rt w Hr Hbegin) as (w1 & Hfs & Hrep & Heq).
      rewrite Heq.
      pose proof (updateRefreshReport_spec rt w1) as Hspec. cbn zeta in Hspec.
      destruct Hspec as [_ Hspec].
      assert (Hcur : m_currentFrameRefreshReport (self w1) = m_currentFrameRefreshReport (self w))
        by (apply (f_equal fst) in Hrep; exact Hrep).
      assert (Hlast : m_lastFrameRefreshReport (self w1) = m_lastFrameRefreshReport (self w))
        by (apply (f_equal snd) in Hrep; exact Hrep).
      rewrite <- Hcur in Hw.
      destruct (counted_window (r_time (rt (tick w1))) (m_lastFrameState (self w1)) _ Hw)
        as [Ht Hm].
      cbn zeta in Ht, Hm. unfold reports. cbn [fst snd].
      destruct (totalRenderedFrames (counted _ _ _) =? 100) eqn:E100.
      * destruct Hspec as (Hl & Hc & _). rewrite Hl, Hc.
        apply Z.eqb_eq in E100.
        split; [unfold window_ok; cbn; lia |].
        right. unfold report_measured. cbn [totalRenderedFrames nbMissedFrames]. lia.
      * destruct Hspec as (Hc & Hl & _). rewrite Hl, Hc, Hlast.
        apply Z.eqb_neq in E100.
        split; [| left; reflexivity].
        unfold window_ok in *. lia.
    + rewrite (submitFrame_RenderFunc_begin_fails rt w Hr Hbegin).
      unfold reports. cbn. auto.
  - rewrite (submitFrame_RenderFunc_skips rt w Hr). cbn [snd].
    rewrite submitFrame_reports. unfold reports. cbn. auto.
Qed.

Lemma refresh_window_invariant_witness :
  window_ok (m_currentFrameRefreshReport (self (world_of hmd_running)))
  /\ window_ok (m_currentFrameRefreshReport
                  (self (snd (submitFrame_RenderFunc rt_ok (world_of hmd_running))))).
Proof.
  assert (H : window_ok (m_currentFrameRefreshReport (self (world_of hmd_running)))).
  { unfold window_ok. cbn. lia. }
  split; [exact H |].
  exact (proj1 (refresh_window_invariant rt_ok (world_of hmd_running) H)).
Defined.

(* ================================================================== *)
(** ** Swapchain format and creation *)

(** The search loop finds the preferred format exactly when it is among the
    formats it scans. *)
Lemma find_format_spec : forall n formats preferred chosen,
  find_format n formats preferred chosen
  = if existsb (fun f => f =? preferred) (firstn n formats) then preferred else chosen.
Proof.
  induction n as [| n IH]; intros [| f rest] preferred chosen; cbn; try reflexivity.
  destruct (Z.eqb_spec f preferred) as [-> | _]; cbn; [reflexivity | apply IH].
Qed.

(** X18: [selectSwapchainFormat] when both enumerations succeed and announce at
    least one format: the preferred format is chosen exactly when the runtime
    supports it; otherwise the result is the first supported format with
    [fallback], and -1 without.  With [fallback] the result is always a
    supported format. *)
Theorem selectSwapchainFormat_chooses (rt : Runtime) (preferred : Z) (fallback : bool)
    (w : World) :
  XR_SUCCEEDED (r_result (rt (tick w))) = true ->
  XR_SUCCEEDED (r_result (rt (S (tick w)))) = true ->
  supported_formats (rt (S (tick w))) <> nil ->
  let formats := supported_formats (rt (S (tick w))) in
  let chosen := fst (selectSwapchainFormat rt preferred fallback w) in
  (In preferred formats -> chosen = preferred)
  /\ (~ In preferred formats -> chosen = if fallback then hd 0 formats else -1)
  /\ (fallback = true -> In chosen formats).
Proof.
  intros H0 H1 Hne formats chosen.
  assert (Hc : chosen = if existsb (fun f => f =? preferred) formats then preferred
                        else if fallback then hd 0 formats else -1).
  { subst chosen formats. destruct w as [h t tr]. cbn [tick] in *.
    unfold selectSwapchainFormat. step_monad. rewrite H0. cbn. rewrite H1. cbn.
    rewrite find_format_spec. fold (supported_formats (rt (S t))).
    assert (Hhd : nth 0 (r_list (rt (S t))) 0 = hd 0 (supported_formats (rt (S t)))).
    { unfold supported_formats in *.
      destruct (Z.to_nat (wrap32 (r_count (rt (S t))))) as [| n];
        [exfalso; apply Hne; reflexivity |].
      destruct (r_list (rt (S t))) as [| f rest]; [exfalso; apply Hne; reflexivity |].
      reflexivity. }
    rewrite Hhd.
    destruct (existsb (fun f => f =? preferred) (supported_formats (rt (S t))));
      destruct fallback; cbn;
      match goal with |- context [if ?c then _ else _] => destruct c | _ => idtac end;
      reflexivity. }
  change (formats <> nil) in Hne. clearbody formats chosen.
  assert (Hin : existsb (fun f => f =? preferred) formats = true <-> In preferred formats).
  { rewrite existsb_exists. split.
    - intros (f & Hf & E). apply Z.eqb_eq in E. subst f. exact Hf.
    - intros Hf. exists preferred. split; [exact Hf | apply Z.eqb_refl]. }
  destruct (existsb (fun f => f =? preferred) formats) eqn:E.
  - assert (Hp : In preferred formats) by (apply Hin; reflexivity).
    rewrite Hc. repeat apply conj.
    + reflexivity.
    + intros Hn. contradiction.
    + intros _. exact Hp.
  - assert (Hp : ~ In preferred formats) by (intros Hp; apply Hin in Hp; discriminate Hp).
    rewrite Hc. repeat apply conj.
    + intros Hn. contradiction.
    + reflexivity.
    + intros ->. destruct formats as [| f rest]; [contradiction | left; reflexivity].
Qed.

Lemma selectSwapchainFormat_chooses_witness :
  let formats := supported_formats (rt_ok 1%nat) in
  let chosen := fst (selectSwapchainFormat rt_ok GL_SRGB8_ALPHA8_EXT true (world_of hmd_init)) in
  (In GL_SRGB8_ALPHA8_EXT formats -> chosen = GL_SRGB8_ALPHA8_EXT)
  /\ (~ In GL_SRGB8_ALPHA8_EXT formats -> chosen = if true then hd 0 formats else -1)
  /\ (true = true -> In chosen formats).
Proof.
  apply (selectSwapchainFormat_chooses rt_ok GL_SRGB8_ALPHA8_EXT true (world_of hmd_init)).
  - reflexivity.
  - reflexivity.
  - vm_compute. discriminate.
Defined.

(** The per-view loop of [createSwapchain] asks for swapchains of the given
    format and of the resolution the object holds, one per view until a call
    fails. *)
Lemma create_swapchains_requests rt n : forall i color_format w b w',
  create_swapchains rt n i color_format w = (b, w') ->
  exists tr,
    trace w' = (trace w ++ tr)%list
    /\ forallb (is_create_with color_format
                  (wrap32 (x2i (m_resolution (self w))))
                  (wrap32 (y2i (m_resolution (self w))))) tr = true
    /\ (if b then count is_xrCreateSwapchain tr = n
        else (1 <= count is_xrCreateSwapchain tr <= n)%nat).
Proof.
  induction n as [| n IH]; intros i color_format w b w' H.
  - injection H as Hb Hw. subst b w'. exists nil. rewrite app_nil_r. auto.
  - destruct w as [h t tr0]. cbn [self trace] in *. revert H.
    cbn [create_swapchains]. step_monad.
    destruct (XR_SUCCEEDED (r_result (rt t))); cbn.
    2:{ intros H. injection H as Hb Hw. subst b w'. cbn [trace].
        eexists. split; [rewrite <- ?app_assoc; cbn; reflexivity |].
        unfold count. cbn. rewrite !Z.eqb_refl. split; [reflexivity | lia]. }
    destruct (XR_SUCCEEDED (r_result (rt (S t)))); cbn.
    2:{ intros H. injection H as Hb Hw. subst b w'. cbn [trace].
        eexists. split; [rewrite <- ?app_assoc; cbn; reflexivity |].
        unfold count. cbn. rewrite !Z.eqb_refl. split; [reflexivity | lia]. }
    destruct (XR_SUCCEEDED (r_result (rt (S (S t))))); cbn.
    2:{ intros H. injection H as Hb Hw. subst b w'. cbn [trace].
        eexists. split; [rewrite <- ?app_assoc; cbn; reflexivity |].
        unfold count. cbn. rewrite !Z.eqb_refl. split; [reflexivity | lia]. }
    intros H. apply IH in H. destruct H as (tr & Htr & Hq & Hc).
    cbn [self trace m_resolution] in Htr, Hq. cbn in Hq.
    rewrite Htr. eexists. split; [rewrite <- ?app_assoc; cbn; reflexivity |].
    unfold count in *. cbn. rewrite !Z.eqb_refl. cbn.
    split; [exact Hq |]. destruct b; lia.
Qed.

Lemma no_create_effects t f x y :
  forallb (fun e => negb (is_xrCreateSwapchain e)) t = true ->
  forallb (is_create_with f x y) t = true /\ count is_xrCreateSwapchain t = 0%nat.
Proof.
  unfold count. induction t as [| e t IH]; [auto |].
  cbn [forallb]. intros H. apply andb_prop in H. destruct H as [He Ht].
  destruct (IH Ht) as [H1 H2].
  destruct e as [c r | | | | |]; cbn in *; auto.
  destruct c; cbn in *; try discriminate He; auto.
Qed.

Lemma xrCheck_no_create result format :
  only (fun e => negb (is_xrCreateSwapchain e)) (xrCheck result format).
Proof. unfold xrCheck. walk_only fail. Qed.

Lemma selectSwapchainFormat_no_create rt preferred fallback :
  only (fun e => negb (is_xrCreateSwapchain e)) (selectSwapchainFormat rt preferred fallback).
Proof. unfold selectSwapchainFormat. walk_only ltac:(apply xrCheck_no_create). Qed.

Lemma createSwapchain_requests rt w b w' :
  createSwapchain rt w = (b, w') ->
  exists tr color_format,
    trace w' = (trace w ++ tr)%list
    /\ forallb (is_create_with color_format
                  (wrap32 (x2i (m_resolution (self w))))
                  (wrap32 (y2i (m_resolution (self w))))) tr = true
    /\ (count is_xrCreateSwapchain tr <= Z.to_nat (m_viewCount (self w)))%nat
    /\ (b = true -> count is_xrCreateSwapchain tr = Z.to_nat (m_viewCount (self w))).
Proof.
  destruct w as [h t tr]. cbn [self trace]. unfold createSwapchain.
  unfold bind at 1, call at 1. cbn [self tick trace].
  unfold bind at 1, xrCheck at 1.
  destruct (XR_SUCCEEDED (r_result (rt t))).
  2:{ step_monad. intros H. injection H as Hb Hw. subst b w'. cbn [trace].
      eexists; exists 0. split; [rewrite <- ?app_assoc; cbn; reflexivity |].
      unfold count. cbn. repeat apply conj; try reflexivity; try lia; try discriminate. }
  unfold ret at 1. cbn [negb].
  unfold bind at 1, call at 1. cbn [self tick trace].
  unfold bind at 1, xrCheck at 1.
  destruct (XR_SUCCEEDED (r_result (rt (S t)))).
  2:{ step_monad. intros H. injection H as Hb Hw. subst b w'. cbn [trace].
      eexists; exists 0. split; [rewrite <- ?app_assoc; cbn; reflexivity |].
      unfold count. cbn. repeat apply conj; try reflexivity; try lia; try discriminate. }
  unfold ret at 1. cbn [negb].
  unfold bind at 1.
  match goal with |- context [selectSwapchainFormat rt ?p ?f ?w0] =>
    pose proof (selectSwapchainFormat_self rt p f w0) as Hs;
    destruct (selectSwapchainFormat_no_create rt p f w0) as (ts & Hts & Hqs);
    destruct (selectSwapchainFormat rt p f w0) as [color_format [h1 t1 tr1]] end.
  cbn [snd self trace] in Hs, Hts. subst h1 tr1.
  unfold bind at 1, get at 1. cbn [self].
  unfold bind at 1, modify at 1. cbn [self tick trace].
  unfold bind at 1, modify at 1. cbn [self tick trace].
  unfold bind at 1, modify at 1. cbn [self tick trace].
  unfold bind at 1.
  match goal with |- context [create_swapchains rt ?n ?i ?c ?w0] =>
    destruct (create_swapchains rt n i c w0) as [ok w2] eqn:Ec end.
  apply create_swapchains_requests in Ec. destruct Ec as (tc & Htc & Hqc & Hcc).
  cbn [self trace] in Htc, Hqc. cbn in Hqc.
  destruct (no_create_effects ts color_format
              (wrap32 (x2i (m_resolution h))) (wrap32 (y2i (m_resolution h))) Hqs)
    as [Hq1 Hc1].
  assert (Hall : forallb (is_create_with color_format
                            (wrap32 (x2i (m_resolution h))) (wrap32 (y2i (m_resolution h))))
                         ([Call (xrEnumerateSwapchainFormats 0) (r_result (rt t));
                           Call (xrEnumerateSwapchainFormats (wrap32 (r_count (rt t))))
                                (r_result (rt (S t)))] ++ ts ++ tc) = true).
  { rewrite !forallb_app, Hq1, Hqc. reflexivity. }
  assert (Hcount : count is_xrCreateSwapchain
                     ([Call (xrEnumerateSwapchainFormats 0) (r_result (rt t));
                       Call (xrEnumerateSwapchainFormats (wrap32 (r_count (rt t))))
                            (r_result (rt (S t)))] ++ ts ++ tc)
                   = count is_xrCreateSwapchain tc).
  { rewrite !count_app, Hc1. reflexivity. }
  destruct w2 as [h2 t2 tr2]. cbn [trace] in Htc. subst tr2.
  destruct ok; step_monad; intros H; injection H as Hb Hw; subst b w'; cbn [trace];
    exists ([Call (xrEnumerateSwapchainFormats 0) (r_result (rt t));
             Call (xrEnumerateSwapchainFormats (wrap32 (r_count (rt t))))
                  (r_result (rt (S t)))] ++ ts ++ tc)%list, color_format;
    (split; [rewrite <- ?app_assoc; cbn; reflexivity |]);
    rewrite Hcount; (split; [exact Hall |]); split; try lia; try discriminate.
Qed.

(** X19: Every swapchain of a session is asked for with one and the same format
    and with the resolution the object holds when [createSwapchain] starts;
    there is never more than one request per view, and exactly one per view
    when the method returns true. *)
Theorem createSwapchain_uses_stored_resolution (rt : Runtime) (w : World) :
  exists tr color_format,
    trace (snd (createSwapchain rt w)) = (trace w ++ tr)%list
    /\ forallb (is_create_with color_format
                  (wrap32 (x2i (m_resolution (self w))))
                  (wrap32 (y2i (m_resolution (self w))))) tr = true
    /\ (count is_xrCreateSwapchain tr <= Z.to_nat (m_viewCount (self w)))%nat
    /\ (if fst (createSwapchain rt w)
        then count is_xrCreateSwapchain tr = Z.to_nat (m_viewCount (self w))
        else True).
Proof.
  destruct (createSwapchain rt w) as [b w'] eqn:E.
  destruct (createSwapchain_requests rt w b w' E) as (tr & f & Htr & Hq & Hle & Hb).
  exists tr, f. cbn [fst snd]. repeat apply conj; try assumption.
  destruct b; [apply Hb; reflexivity | exact I].
Qed.

(** X20: The resolution given to [setResolution] before a session runs is the one
    the swapchains of the session are created with. *)
Theorem resolution_set_before_session_is_used (rt : Runtime) (resolution : Vector2i)
    (w : World) :
  isSessionRunning (self w) = false ->
  exists tr color_format,
    trace (snd (createSwapchain rt (snd (setResolution resolution w)))) = (trace w ++ tr)%list
    /\ forallb (is_create_with color_format
                  (wrap32 (x2i resolution)) (wrap32 (y2i resolution))) tr = true.
Proof.
  intros Hr.
  assert (Hs : snd (setResolution resolution w)
               = {| self := set_resolution resolution (self w);
                    tick := tick w; trace := trace w |}).
  { unfold setResolution, bind, get, modify. cbn. rewrite Hr. reflexivity. }
  rewrite Hs.
  destruct (createSwapchain rt _) as [b w'] eqn:E.
  destruct (createSwapchain_requests rt _ b w' E) as (tr & f & Htr & Hq & _).
  exists tr, f. split; [exact Htr | exact Hq].
Qed.

Lemma resolution_set_before_session_is_used_witness :
  isSessionRunning (self (world_of hmd_discovered)) = false
  /\ exists tr color_format,
       trace (snd (createSwapchain rt_ok
                     (snd (setResolution {| x2i := 916; y2i := 960 |}
                                         (world_of hmd_discovered)))))
       = (trace (world_of hmd_discovered) ++ tr)%list
       /\ forallb (is_create_with color_format (wrap32 916) (wrap32 960)) tr = true.
Proof.
  split; [reflexivity |].
  apply (resolution_set_before_session_is_used rt_ok {| x2i := 916; y2i := 960 |}
           (world_of hmd_discovered)).
  reflexivity.
Defined.

(* ================================================================== *)
(** ** Horizontal and vertical field of view *)

(** X21: With two views or more, [getHVFieldOfView] in radians is the difference
    of the angles that [getFieldOfView] reports for the left eye: right minus
    left, and up minus down; neither query changes the object or writes a
    message. *)
Theorem getHVFieldOfView_of_left_view (w : World) :
  2 <= m_viewCount (self w) ->
  let f := fst (getFieldOfView LEFT RADIAN w) in
  getHVFieldOfView RADIAN w
  = ({| x2 := F32.sub (y4 f) (x4 f); y2 := F32.sub (w4 f) (z4 f) |}, w)
  /\ snd (getFieldOfView LEFT RADIAN w) = w.
Proof.
  intros Hv. unfold getHVFieldOfView, getFieldOfView. step_monad.
  destruct (Z.ltb_spec (m_viewCount (self w)) 2) as [Hlt | _]; [lia |].
  destruct (Z.leb_spec (m_viewCount (self w)) 0) as [Hle | _]; [lia |].
  cbn. split; reflexivity.
Qed.

Lemma getHVFieldOfView_of_left_view_witness :
  2 <= m_viewCount (self (world_of hmd_symmetric))
  /\ fst (getHVFieldOfView RADIAN (world_of hmd_symmetric))
     = {| x2 := S754_finite false 8388608 (-23); y2 := S754_finite false 8388608 (-23) |}.
Proof.
  assert (H : 2 <= m_viewCount (self (world_of hmd_symmetric))) by (cbn; lia).
  split; [exact H |].
  rewrite (proj1 (getHVFieldOfView_of_left_view (world_of hmd_symmetric) H)).
  vm_compute. reflexivity.
Defined.

(** X22: With exactly one view the two queries disagree: [getFieldOfView] answers
    for the left eye from that view and writes nothing, while
    [getHVFieldOfView], which reads the same view only, reports that no view
    exists and returns zero. *)
Theorem getHVFieldOfView_needs_two_views (unit : AngleUnit) (w : World) :
  m_viewCount (self w) = 1 ->
  getHVFieldOfView unit w
  = (Vector2f_Zero,
     {| self := self w; tick := tick w;
        trace := (trace w ++ [Print STDERR "No view exists"])%list |})
  /\ snd (getFieldOfView LEFT unit w) = w
  /\ x4 (fst (getFieldOfView LEFT RADIAN w)) = angleLeft (fov (views_at (self w) 0)).
Proof.
  intros Hv. unfold getHVFieldOfView, getFieldOfView. step_monad. rewrite Hv. cbn.
  repeat apply conj; reflexivity.
Qed.

Lemma getHVFieldOfView_needs_two_views_witness :
  m_viewCount (self (world_of hmd_one_view)) = 1
  /\ fst (getHVFieldOfView RADIAN (world_of hmd_one_view)) = Vector2f_Zero
  /\ x4 (fst (getFieldOfView LEFT RADIAN (world_of hmd_one_view)))
     = S754_finite true 8388608 (-24).
Proof.
  assert (H : m_viewCount (self (world_of hmd_one_view)) = 1) by reflexivity.
  destruct (getHVFieldOfView_needs_two_views RADIAN (world_of hmd_one_view) H)
    as (H1 & _ & H3).
  split; [exact H |]. split; [rewrite H1; reflexivity | rewrite H3; reflexivity].
Defined.

(* ================================================================== *)
(** ** The render-target pool *)

Lemma wrap_int_wrap32 t : wrap_int (wrap32 t) = wrap_int t.
Proof.
  unfold wrap_int, wrap32. f_equal.
  rewrite Zplus_mod_idemp_l. reflexivity.
Qed.

Lemma wrap_int_inj a b :
  0 <= a < 2 ^ 32 -> 0 <= b < 2 ^ 32 -> wrap_int a = wrap_int b -> a = b.
Proof.
  unfold wrap_int. intros Ha Hb H.
  assert (E : (a + 2 ^ 31) mod 2 ^ 32 = (b + 2 ^ 31) mod 2 ^ 32) by lia.
  destruct (Z.lt_ge_cases a (2 ^ 31)) as [A | A];
    destruct (Z.lt_ge_cases b (2 ^ 31)) as [B | B].
  - rewrite !Z.mod_small in E by lia. lia.
  - rewrite (Z.mod_small (a + 2 ^ 31)) in E by lia.
    replace (b + 2 ^ 31) with (b - 2 ^ 31 + 1 * 2 ^ 32) in E by lia.
    rewrite Z_mod_plus_full, Z.mod_small in E by lia. lia.
  - rewrite (Z.mod_small (b + 2 ^ 31)) in E by lia.
    replace (a + 2 ^ 31) with (a - 2 ^ 31 + 1 * 2 ^ 32) in E by lia.
    rewrite Z_mod_plus_full, Z.mod_small in E by lia. lia.
  - replace (a + 2 ^ 31) with (a - 2 ^ 31 + 1 * 2 ^ 32) in E by lia.
    replace (b + 2 ^ 31) with (b - 2 ^ 31 + 1 * 2 ^ 32) in E by lia.
    rewrite !Z_mod_plus_full, !Z.mod_small in E by lia. lia.
Qed.

Lemma wrap32_range t : 0 <= wrap32 t < 2 ^ 32.
Proof. unfold wrap32. apply Z.mod_pos_bound. lia. Qed.

Lemma map_find_Some key m v : map_find key m = Some v -> In (key, v) m.
Proof.
  unfold map_find. destruct (find _ m) as [[k v'] |] eqn:E; [| discriminate].
  cbn. intros H. injection H as <-.
  apply find_some in E. destruct E as [Hin Hk]. cbn in Hk.
  apply Z.eqb_eq in Hk. subst k. exact Hin.
Qed.

Lemma map_find_None key m : map_find key m = None -> ~ In key (map fst m).
Proof.
  unfold map_find. destruct (find _ m) as [p |] eqn:E; [discriminate |].
  intros _ Hin. apply in_map_iff in Hin. destruct Hin as ([k v] & Hk & Hin).
  cbn in Hk. subst k.
  pose proof (find_none _ _ E _ Hin) as Hn. cbn in Hn.
  rewrite Z.eqb_refl in Hn. discriminate Hn.
Qed.

(** One request: the pool answers with a target, and only generates a
    framebuffer for a texture it does not hold yet. *)
Lemma getRenderTarget_step gen texture w h s :
  pool_ok s ->
  exists rt,
    fst (getRenderTarget gen texture w h s) = Some rt
    /\ m_texture rt = wrap32 texture
    /\ map_find (wrap_int texture) (m_RTPool (snd (getRenderTarget gen texture w h s)))
       = Some rt
    /\ pool_ok (snd (getRenderTarget gen texture w h s)).
Proof.
  intros (Hnd & Hall & Hlen). unfold getRenderTarget.
  destruct (map_find (wrap_int texture) (m_RTPool s)) as [found |] eqn:E.
  - exists found. cbn [fst snd]. repeat apply conj; auto.
    apply map_find_Some in E.
    rewrite Forall_forall in Hall. destruct (Hall _ E) as [Hk Hr]. cbn in Hk, Hr.
    rewrite <- wrap_int_wrap32 in Hk.
    symmetry. apply wrap_int_inj; [apply wrap32_range | exact Hr | exact Hk].
  - unfold new_SwapchainImageRenderTarget, map_insert. rewrite E. cbn [fst snd].
    eexists. split; [reflexivity |]. cbn [m_texture m_RTPool gl_calls].
    split; [reflexivity |]. split.
    + unfold map_find. cbn. rewrite Z.eqb_refl. reflexivity.
    + unfold pool_ok. cbn [m_RTPool gl_calls map fst snd]. repeat apply conj.
      * constructor; [apply map_find_None; exact E | exact Hnd].
      * constructor; [| exact Hall]. cbn.
        split; [symmetry; apply wrap_int_wrap32 | apply wrap32_range].
      * rewrite filter_app, length_app. cbn. lia.
Qed.

(** X23: [getRenderTarget] never returns the empty pointer: a target is found, or
    the insertion of the new one succeeds.  The target it returns holds the
    texture asked for. *)
Theorem getRenderTarget_never_null (gen : nat -> Z) (texture w h : Z) (s : OpenXRRdrMode) :
  pool_ok s ->
  exists rt,
    fst (getRenderTarget gen texture w h s) = Some rt
    /\ m_texture rt = wrap32 texture
    /\ pool_ok (snd (getRenderTarget gen texture w h s)).
Proof.
  intros Hs. destruct (getRenderTarget_step gen texture w h s Hs) as (rt & H1 & H2 & _ & H4).
  exists rt. auto.
Qed.

Lemma getRenderTarget_never_null_witness :
  pool_ok pool_empty
  /\ exists rt,
       fst (getRenderTarget (fun n => Z.of_nat n + 1) 101 1832 1920 pool_empty) = Some rt
       /\ m_texture rt = wrap32 101
       /\ pool_ok (snd (getRenderTarget (fun n => Z.of_nat n + 1) 101 1832 1920 pool_empty)).
Proof.
  assert (H : pool_ok pool_empty).
  { unfold pool_ok. cbn. repeat split; constructor. }
  split; [exact H |].
  exact (getRenderTarget_never_null (fun n => Z.of_nat n + 1) 101 1832 1920 pool_empty H).
Defined.

(** X24: The pool keys on the texture alone: once a target exists for a texture,
    every later request for this texture returns that target, with the width
    and height it was created with whatever size is asked for now, and makes
    no OpenGL call. *)
Theorem getRenderTarget_reuses (gen : nat -> Z) (texture w1 h1 w2 h2 : Z) (s : OpenXRRdrMode) :
  let r1 := getRenderTarget gen texture w1 h1 s in
  getRenderTarget gen texture w2 h2 (snd r1) = (fst r1, snd r1)
  /\ fst r1 <> None.
Proof.
  cbn zeta. destruct (getRenderTarget gen texture w1 h1 s) as [o s1] eqn:E1.
  cbn [fst snd]. unfold getRenderTarget in E1.
  destruct (map_find (wrap_int texture) (m_RTPool s)) as [found |] eqn:E.
  - injection E1 as Ho Hs. subst o s1. unfold getRenderTarget. rewrite E.
    split; [reflexivity | intros H; discriminate H].
  - unfold new_SwapchainImageRenderTarget, map_insert in E1. rewrite E in E1.
    injection E1 as Ho Hs. subst o s1.
    unfold getRenderTarget. cbn [m_RTPool].
    unfold map_find at 1. cbn [find fst]. rewrite Z.eqb_refl. cbn.
    split; [reflexivity | intros H; discriminate H].
Qed.

(** X25: Over any sequence of requests the pool holds one target per texture seen
    and one generated framebuffer per target: rendering frame after frame
    into the same swapchain images allocates nothing new. *)
Theorem one_framebuffer_per_texture (gen : nat -> Z) (requests : list (Z * Z * Z))
    (s : OpenXRRdrMode) :
  pool_ok s ->
  pool_ok (getRenderTargets gen requests s)
  /\ forall texture w h, In (texture, w, h) requests ->
       exists rt, map_find (wrap_int texture) (m_RTPool (getRenderTargets gen requests s))
                  = Some rt.
Proof.
  revert s. induction requests as [| [[t w] h] rest IH]; intros s Hs.
  - split; [exact Hs | intros ? ? ? []].
  - cbn [getRenderTargets].
    destruct (getRenderTarget_step gen t w h s Hs) as (rt & _ & _ & Hf & Hok).
    destruct (IH _ Hok) as [Hok' Hin'].
    split; [exact Hok' |].
    intros t' w' h' [Heq | Hin].
    + injection Heq as <- <- <-.
      assert (Hkeep : forall reqs s0 key v,
                 map_find key (m_RTPool s0) = Some v ->
                 map_find key (m_RTPool (getRenderTargets gen reqs s0)) = Some v).
      { clear. induction reqs as [| [[t1 w1] h1] reqs IHr]; intros s0 key v Hv; [exact Hv |].
        cbn [getRenderTargets]. apply IHr.
        unfold getRenderTarget.
        destruct (map_find (wrap_int t1) (m_RTPool s0)) as [f |] eqn:E1; [exact Hv |].
        unfold new_SwapchainImageRenderTarget, map_insert. rewrite E1. cbn [snd m_RTPool].
        unfold map_find in *. cbn [find fst].
        destruct (Z.eqb_spec (wrap_int t1) key) as [Hk | _]; [| exact Hv].
        subst key. congruence. }
      exists rt. apply Hkeep. exact Hf.
    + apply (Hin' _ _ _ Hin).
Qed.

Lemma one_framebuffer_per_texture_witness :
  pool_ok pool_empty
  /\ pool_ok (getRenderTargets (fun n => Z.of_nat n + 1)
                [(101, 1832, 1920); (201, 1832, 1920); (101, 916, 960)] pool_empty)
  /\ List.length (m_RTPool (getRenderTargets (fun n => Z.of_nat n + 1)
                [(101, 1832, 1920); (201, 1832, 1920); (101, 916, 960)] pool_empty)) = 2%nat.
Proof.
  assert (H : pool_ok pool_empty).
  { unfold pool_ok. cbn. repeat split; constructor. }
  split; [exact H |].
  split; [| reflexivity].
  exact (proj1 (one_framebuffer_per_texture (fun n => Z.of_nat n + 1)
                  [(101, 1832, 1920); (201, 1832, 1920); (101, 916, 960)] pool_empty H)).
Defined.

(* ================================================================== *)
(** ** Polling without events *)

(** An activation of [pollEvents] whose poll brings no event leaves the
    status as it is, and the whole object when the status is not
    transitory. *)
Lemma pollEvents_once_without_event rt w :
  (r_result (rt (tick w)) =? XR_SUCCESS) = false ->
  m_status (self (snd (pollEvents_once rt w))) = m_status (self w)
  /\ (transitory (m_status (self w)) = false ->
      pollEvents_once rt w
      = (false,
         {| self := self w; tick := S (tick w);
            trace := (trace w ++ Call xrPollEvent (r_result (rt (tick w)))
                      :: (if r_result (rt (tick w)) =? XR_EVENT_UNAVAILABLE then nil
                          else [Print SIBR_WRG "EVENT: Failed to poll XR Runtime events!"]))%list |})).
Proof.
  intros Hp. destruct (pollEvents_once rt w) as [k w'] eqn:E. cbn [snd].
  destruct w as [h t tr]. cbn [self tick trace] in *.
  revert E. unfold pollEvents_once. unfold bind at 1, call at 1. cbn [self tick trace].
  rewrite Hp. unfold bind at 1.
  assert (Hblock : exists tr1,
             (if r_result (rt t) =? XR_EVENT_UNAVAILABLE then ret tt
              else print SIBR_WRG "EVENT: Failed to poll XR Runtime events!")
               {| self := h; tick := S t;
                  trace := (tr ++ [Call xrPollEvent (r_result (rt t))])%list |}
             = (tt, {| self := h; tick := S t; trace := tr1 |})
             /\ tr1 = (tr ++ Call xrPollEvent (r_result (rt t))
                       :: (if r_result (rt t) =? XR_EVENT_UNAVAILABLE then nil
                           else [Print SIBR_WRG "EVENT: Failed to poll XR Runtime events!"]))%list).
  { destruct (r_result (rt t) =? XR_EVENT_UNAVAILABLE); eexists;
      (split; [reflexivity |]); cbn [trace]; rewrite <- ?app_assoc; reflexivity. }
  destruct Hblock as (tr1 & -> & Htr1).
  unfold bind at 1, get at 1. cbn [self].
  unfold bind at 1.
  destruct (SessionStatus_eqb (m_status h) BEGINNING) eqn:Eb; cbn [when orb].
  - unfold bind at 1.
    match goal with |- context [waitNextFrame rt ?w0] =>
      pose proof (waitNextFrame_status rt w0) as H1;
      destruct (waitNextFrame rt w0) as [b1 w2] end.
    cbn [snd self] in H1. unfold bind at 1.
    pose proof (submitFrame_status rt w2) as H2.
    destruct (submitFrame rt w2) as [b2 w3]. cbn [snd] in H2.
    unfold ret. intros E. injection E as Hk Hw. subst k w'.
    split; [rewrite H2; exact H1 |].
    unfold transitory. rewrite Eb. intros Hf. discriminate Hf.
  - unfold ret. intros E. injection E as Hk Hw. subst k w'. cbn [self].
    split; [reflexivity |].
    unfold transitory. rewrite Eb. cbn [orb]. intros He. rewrite He, Htr1. reflexivity.
Qed.

Lemma pollEvents_without_event rt :
  (forall n, (r_result (rt n) =? XR_SUCCESS) = false) ->
  forall fuel w b w',
    pollEvents rt fuel w = Some (b, w') -> m_status (self w') = m_status (self w).
Proof.
  intros Hrt. induction fuel as [| fuel IH]; intros w b w' H; cbn [pollEvents] in H;
    [discriminate H |].
  destruct (pollEvents_once_without_event rt w (Hrt (tick w))) as [E1 _].
  destruct (pollEvents_once rt w) as [keepPolling w1]. cbn [snd] in E1.
  destruct keepPolling.
  - rewrite <- E1. apply (IH w1 b w' H).
  - injection H as _ Hw. subst w'. exact E1.
Qed.

Lemma closeSession_loop_without_event rt :
  (forall n, (r_result (rt n) =? XR_SUCCESS) = false) ->
  forall fuel w, isSessionRunning (self w) = true -> closeSession_loop rt fuel w = None.
Proof.
  intros Hrt. induction fuel as [| fuel IH]; intros w Hr; cbn [closeSession_loop];
    rewrite Hr; [reflexivity |].
  destruct (pollEvents rt fuel w) as [[b w1] |] eqn:Ep; [| reflexivity].
  apply IH. unfold isSessionRunning in *.
  rewrite (pollEvents_without_event rt Hrt fuel w b w1 Ep). exact Hr.
Qed.

(** X26: A poll that fails is not reported: when [xrPollEvent] returns an
    error and the status is neither BEGINNING nor ENDING, [pollEvents] writes
    a warning, leaves the object as it is and returns true unless the status
    was FAILURE already. *)
Theorem pollEvents_ignores_poll_failure (rt : Runtime) (fuel : nat) (w : World) :
  XR_SUCCEEDED (r_result (rt (tick w))) = false ->
  transitory (m_status (self w)) = false ->
  pollEvents rt (S fuel) w
  = Some (negb (SessionStatus_eqb (m_status (self w)) FAILURE),
          {| self := self w; tick := S (tick w);
             trace := (trace w ++ [Call xrPollEvent (r_result (rt (tick w)));
                                   Print SIBR_WRG "EVENT: Failed to poll XR Runtime events!"])%list |}).
Proof.
  intros Hf Ht. unfold XR_SUCCEEDED in Hf. apply Z.leb_gt in Hf.
  assert (Hs : (r_result (rt (tick w)) =? XR_SUCCESS) = false)
    by (apply Z.eqb_neq; unfold XR_SUCCESS; lia).
  assert (Hu : (r_result (rt (tick w)) =? XR_EVENT_UNAVAILABLE) = false)
    by (apply Z.eqb_neq; unfold XR_EVENT_UNAVAILABLE; lia).
  cbn [pollEvents].
  rewrite (proj2 (pollEvents_once_without_event rt w Hs) Ht). rewrite Hu. reflexivity.
Qed.

Lemma pollEvents_ignores_poll_failure_witness :
  XR_SUCCEEDED (r_result (rt_fail (tick (world_of hmd_running)))) = false
  /\ exists w', pollEvents rt_fail 1 (world_of hmd_running) = Some (true, w').
Proof.
  split; [reflexivity |]. eexists.
  exact (pollEvents_ignores_poll_failure rt_fail 0 (world_of hmd_running) eq_refl eq_refl).
Defined.

(** X27: [closeSession] has no way out of its polling loop but a change of
    status: on a running session that is not IDLE, with a runtime that accepts
    the exit request but never delivers an event, it never returns. *)
Theorem closeSession_waits_for_events (rt : Runtime) (fuel : nat) (w : World) :
  (forall n, r_result (rt n) = XR_EVENT_UNAVAILABLE) ->
  isSessionRunning (self w) = true ->
  m_status (self w) <> IDLE ->
  closeSession rt fuel w = None.
Proof.
  intros Hrt Hr Hi.
  assert (Hno : forall n, (r_result (rt n) =? XR_SUCCESS) = false)
    by (intros n; rewrite Hrt; reflexivity).
  unfold closeSession. cbv zeta.
  destruct (SessionStatus_eqb (m_status (self w)) IDLE) eqn:Ei.
  { apply SessionStatus_eqb_eq in Ei. contradiction. }
  destruct (SessionStatus_eqb (m_status (self w)) STOPPED) eqn:Es.
  { apply SessionStatus_eqb_eq in Es.
    rewrite (proj2 (isSessionRunning_false (self w)) (or_intror Es)) in Hr. discriminate Hr. }
  cbn [negb]. destruct w as [h t tr]. cbn [self] in *. step_monad.
  rewrite Hrt. cbn.
  match goal with |- context [closeSession_loop rt fuel ?w1] =>
    rewrite (closeSession_loop_without_event rt Hno fuel w1 Hr) end.
  reflexivity.
Qed.

Lemma closeSession_waits_for_events_witness :
  isSessionRunning (self (world_of hmd_running)) = true
  /\ closeSession rt_no_event 7 (world_of hmd_running) = None.
Proof.
  split; [reflexivity |].
  apply (closeSession_waits_for_events rt_no_event 7 (world_of hmd_running)).
  - intros n. reflexivity.
  - reflexivity.
  - cbn. discriminate.
Defined.

(** X28: [synchronizeSession] has no way out of its loop but the status
    SYNCHRONIZED or FAILURE: from any other status, with a runtime that never
    delivers an event, it never returns. *)
Theorem synchronizeSession_waits_for_events (rt : Runtime) (fuel : nat) (w : World) :
  (forall n, r_result (rt n) = XR_EVENT_UNAVAILABLE) ->
  m_status (self w) <> SYNCHRONIZED ->
  m_status (self w) <> FAILURE ->
  synchronizeSession rt fuel w = None.
Proof.
  intros Hrt. 
  assert (Hno : forall n, (r_result (rt n) =? XR_SUCCESS) = false)
    by (intros n; rewrite Hrt; reflexivity).
  revert w. induction fuel as [| fuel IH]; intros w Hs Hf; cbn [synchronizeSession];
    (destruct (SessionStatus_eqb (m_status (self w)) SYNCHRONIZED) eqn:Es;
     [apply SessionStatus_eqb_eq in Es; contradiction |]); [reflexivity |].
  destruct (pollEvents rt fuel w) as [[b w1] |] eqn:Ep; [| reflexivity].
  pose proof (pollEvents_without_event rt Hno fuel w b w1 Ep) as E1.
  destruct (SessionStatus_eqb (m_status (self w1)) FAILURE) eqn:Ef.
  { apply SessionStatus_eqb_eq in Ef. rewrite E1 in Ef. contradiction. }
  apply IH; rewrite E1; assumption.
Qed.

Lemma synchronizeSession_waits_for_events_witness :
  m_status (self (world_of hmd_discovered)) <> SYNCHRONIZED
  /\ synchronizeSession rt_no_event 7 (world_of hmd_discovered) = None.
Proof.
  assert (H : m_status (self (world_of hmd_discovered)) <> SYNCHRONIZED) by (cbn; discriminate).
  split; [exact H |].
  apply (synchronizeSession_waits_for_events rt_no_event 7 (world_of hmd_discovered)).
  - intros n. reflexivity.
  - exact H.
  - cbn. discriminate.
Defined.

(* ================================================================== *)
(** ** Starting a session: the run against the runtime's replies *)

Lemma last_nonempty {A} (l : list A) : forall (y d d' : A), last (y :: l) d = last (y :: l) d'.
Proof.
  induction l as [| z l IH]; intros y d d'; [reflexivity |].
  change (last (z :: l) d = last (z :: l) d'). apply IH.
Qed.

Lemma last_cons {A} (x : A) (l : list A) (d : A) : last (x :: l) d = last l x.
Proof.
  destruct l as [| y l]; [reflexivity |].
  change (last (y :: l) d = last (y :: l) x). apply last_nonempty.
Qed.

Lemma last_app_default {A} (a b : list A) (d : A) : last (a ++ b) d = last b (last a d).
Proof.
  revert d. induction a as [| x a IH]; intros d; [reflexivity |].
  rewrite <- app_comm_cons, !last_cons. apply IH.
Qed.

Lemma answered_app rt : forall a b t0,
  answered rt t0 (a ++ b) = (answered rt t0 a ++ answered rt (t0 + count is_call a) b)%list.
Proof.
  unfold count. induction a as [| e a IH]; intros b t0.
  - cbn. rewrite Nat.add_0_r. reflexivity.
  - destruct e as [c r | | | | |]; cbn; rewrite IH; try reflexivity.
    rewrite Nat.add_succ_r. reflexivity.
Qed.

Lemma recorded_app rt : forall a b t0,
  recorded rt t0 (a ++ b) = recorded rt t0 a && recorded rt (t0 + count is_call a) b.
Proof.
  unfold count. induction a as [| e a IH]; intros b t0.
  - cbn. rewrite Nat.add_0_r. reflexivity.
  - destruct e as [c r | | | | |]; cbn; rewrite IH; try reflexivity.
    rewrite Nat.add_succ_r, andb_assoc. reflexivity.
Qed.

Lemma located_app a b : located (a ++ b) = (located a ++ located b)%list.
Proof. unfold located. rewrite filter_app, map_app. reflexivity. Qed.


Lemma follows_refl rt w : follows rt w w.
Proof.
  exists nil. rewrite app_nil_r. cbn. rewrite Nat.add_0_r. auto.
Qed.

Lemma follows_trans rt w1 w2 w3 : follows rt w1 w2 -> follows rt w2 w3 -> follows rt w1 w3.
Proof.
  intros (a & Ta & Ka & Ra & Va & Sa) (b & Tb & Kb & Rb & Vb & Sb).
  exists (a ++ b)%list.
  rewrite Tb, Ta, Kb, Ka, app_assoc, count_app, Nat.add_assoc.
  rewrite recorded_app, Ra, <- Ka, Rb.
  rewrite answered_app, located_app, last_app_default, <- Ka, <- Va, Vb.
  repeat apply conj; try reflexivity.
  intros H. rewrite count_app in H.
  assert (count is_xrDestroySession a = 0 /\ count is_xrDestroySession b = 0)%nat
    as [Ha Hb] by lia.
  rewrite (Sb Hb). apply (Sa Ha).
Qed.

Section Tracked.

Variable rt : Runtime.

Lemma tracked_ret {A} (a : A) : tracked rt (ret a).
Proof. intros w. apply follows_refl. Qed.

Lemma tracked_get {A} (f : OpenXRHMD -> A) : tracked rt (get f).
Proof. intros w. apply follows_refl. Qed.

Lemma tracked_modify f :
  (forall h, m_viewCount (f h) = m_viewCount h) ->
  (forall h, m_session (f h) = m_session h) ->
  tracked rt (modify f).
Proof.
  intros Hv Hs w. exists nil. cbn. rewrite app_nil_r, Nat.add_0_r, Hv, Hs. auto.
Qed.

Lemma tracked_print ch msg : tracked rt (print ch msg).
Proof.
  intros w. exists [Print ch msg]. cbn. rewrite Nat.add_0_r. auto.
Qed.

Lemma tracked_emit e : is_call e = false -> tracked rt (emit e).
Proof.
  intros He w. exists [e]. unfold count. destruct e; try discriminate He;
    cbn; rewrite Nat.add_0_r; auto.
Qed.

Lemma tracked_call c : locates_views c = false -> tracked rt (call rt c).
Proof.
  intros Hc w. exists [Call c (r_result (rt (tick w)))]. unfold count, located. cbn.
  rewrite Hc, Z.eqb_refl, Nat.add_1_r. cbn. repeat apply conj; try reflexivity.
Qed.

Lemma tracked_bind {A B} (m : M A) (k : A -> M B) :
  tracked rt m -> (forall a, tracked rt (k a)) -> tracked rt (bind m k).
Proof.
  intros Hm Hk w. unfold bind. specialize (Hm w).
  destruct (m w) as [a w1]. cbn [snd] in Hm.
  apply (follows_trans rt w w1); [exact Hm | apply Hk].
Qed.

Lemma tracked_when b m : tracked rt m -> tracked rt (when b m).
Proof. intros H. destruct b; [exact H | apply tracked_ret]. Qed.

End Tracked.

Ltac walk_tracked side :=
  repeat first
    [ side
    | apply tracked_ret
    | apply tracked_get
    | apply tracked_print
    | apply tracked_modify; intros ?; reflexivity
    | apply tracked_emit; reflexivity
    | apply tracked_call; reflexivity
    | apply tracked_when
    | apply tracked_bind; [| intros ?]
    | match goal with
      | |- tracked _ (if ?b then _ else _) => destruct b
      | |- tracked _ (match ?x with _ => _ end) => destruct x
      end ].

Lemma xrCheck_tracked rt result format : tracked rt (xrCheck result format).
Proof. unfold xrCheck. walk_tracked fail. Qed.


Lemma createReferenceSpace_tracked rt : tracked rt (createReferenceSpace rt).
Proof. unfold createReferenceSpace. walk_tracked ltac:(apply xrCheck_tracked). Qed.


































